(** * trainpal: scheduler and notification de-duplication

    A shallow embedding of the Go sources of trainpal
    (internal/monitor/train.go, internal/monitor/tube.go,
    internal/scheduler, internal/notify, internal/config and the API
    types) together with the properties of the time-window scheduler and
    of the two de-duplication state machines.

    Conventions.
    - Go [int] values that occur here stay far inside 64 bits; they are
      modelled in [Z], integer division is Go's truncated division
      ([Z.quot]).
    - Go strings are byte strings: [string] of the Standard Library.
    - A [time.Time] is an instant, a number of nanoseconds counted from
      0000-01-01 00:00:00 UTC; a [time.Duration] is a signed 64-bit
      number of nanoseconds and [Time.Sub] saturates as in Go.
    - The HTTP clients, the push service, the wall clock and the logger
      are the outside world: an oracle record [World] answers every call,
      an effect record [Eff] collects what was sent and logged.
    - The text of an error made by a library (time.Parse, strconv.Atoi)
      names its cause and is not the library's wording; the bodies of
      the notifications keep the arguments of their format, and so does
      an error whose format has a [%q].
    - The mutexes are not modelled: every method runs to completion. *)

From Stdlib Require Import ZArith Lia Bool List Ascii String Sorted.
From stdpp Require Import base option list gmap strings.

Import ListNotations.
Local Open Scope string_scope.
Local Open Scope Z_scope.

(** ** Go values shared by all packages *)

(** A Go [error]: a message, or a message wrapping another error
    ([fmt.Errorf] with [%w]).  In [wrapQuoted] the message has an operand
    formatted with [%q] between [msg] and [rest]: the operand is kept as
    it is, the quoted text that [%q] makes of it is not spelled out. *)
Inductive error : Type :=
| errorString (msg : string)
| wrapError (msg : string) (inner : error)
| wrapQuoted (msg quoted rest : string) (inner : error).

(** A Go pair [(value, error)] whose value is meaningless when the error
    is set. *)
Inductive result (A : Type) : Type :=
| Ok (a : A)
| Err (e : error).
Arguments Ok {A} a.
Arguments Err {A} e.

(** ** Package time *)

Module time.

Definition Time : Type := Z.
Definition Duration : Type := Z.

Definition Nanosecond : Duration := 1.
Definition Second : Duration := 1000000000.
Definition Minute : Duration := 60 * Second.
Definition Hour : Duration := 60 * Minute.

Definition minDuration : Duration := - 2 ^ 63.
Definition maxDuration : Duration := 2 ^ 63 - 1.

(** [t.Add(d)] *)
Definition Add (t : Time) (d : Duration) : Time := t + d.

(** [t.Sub(u)]: the difference, or the smallest / largest duration
    when the difference does not fit. *)
Definition Sub (t u : Time) : Duration :=
  let d := t - u in
  if d <? minDuration then minDuration
  else if maxDuration <? d then maxDuration
  else d.

(** [t.After(u)] *)
Definition After (t u : Time) : bool := u <? t.

(** [int(d.Minutes())]. [Minutes] is a float64 in Go: the whole
    minutes plus the remaining fraction.  The conversion to [int]
    drops the fraction; the durations met here are whole minutes. *)
Definition Minutes_int (d : Duration) : Z := Z.quot d Minute.

(** [time.Date(0, 1, 1, h, m, 0, 0, time.UTC)]: hours and minutes
    outside their usual range are normalised, so the instant is [h]
    hours and [m] minutes after the origin whatever their values. *)
Definition Date_0_1_1_UTC (h m : Z) : Time := h * Hour + m * Minute.

(** [t.Hour()] and [t.Minute()] of an instant read in UTC. *)
Definition Hour_UTC (t : Time) : Z := (t / Hour) mod 24.
Definition Minute_UTC (t : Time) : Z := (t / Minute) mod 60.

Inductive Weekday : Type :=
| Sunday | Monday | Tuesday | Wednesday | Thursday | Friday | Saturday.

(** [d.String()] *)
Definition Weekday_String (d : Weekday) : string :=
  match d with
  | Sunday => "Sunday" | Monday => "Monday" | Tuesday => "Tuesday"
  | Wednesday => "Wednesday" | Thursday => "Thursday"
  | Friday => "Friday" | Saturday => "Saturday"
  end.

(** One reading of [time.Now()], with what the program asks of it in
    the local time zone: the instant, the day of the month, the
    weekday, and [time.Date(now.Year(), now.Month(), now.Day(), h, m,
    0, 0, time.Local)] as a function of [h] and [m].  The calendar and
    the zone are the world's. *)
Record Now : Type := mkNow {
  instant : Time;
  Day : Z;
  weekday : Weekday;
  today_at : Z -> Z -> Time
}.

Definition isDigit (c : ascii) : bool :=
  let n := Z.of_N (N_of_ascii c) in (48 <=? n) && (n <=? 57).

Definition digit (c : ascii) : Z := Z.of_N (N_of_ascii c) - 48.

(** [getnum(s, fixed)] of package time: the number made of the first
    two bytes when both are digits, of the first byte alone when only it
    is a digit and the width is not fixed, and what is left of [s]. *)
Definition getnum (s : string) (fixed : bool) : option (Z * string) :=
  match s with
  | String a rest =>
      if isDigit a then
        match rest with
        | String b rest' =>
            if isDigit b then Some (10 * digit a + digit b, rest')
            else if fixed then None else Some (digit a, rest)
        | EmptyString => if fixed then None else Some (digit a, rest)
        end
      else None
  | EmptyString => None
  end.

(** [time.Parse("1504", s)], reduced to the hour and the minute it
    yields.  The layout is an hour of one or two digits, below 24, a
    minute of two digits, below 60, and nothing after; each element is
    read and its range checked before the next is looked at.  (A
    one-digit hour is read when the second byte is no digit, and then
    the minute fails.) *)
Definition Parse_1504 (s : string) : result (Z * Z) :=
  match getnum s false with
  | None => Err (errorString "parsing time: cannot parse")
  | Some (h, rest) =>
      if 24 <=? h then Err (errorString "parsing time: hour out of range")
      else
        match getnum rest true with
        | None => Err (errorString "parsing time: cannot parse")
        | Some (m, rest) =>
            if 60 <=? m
            then Err (errorString "parsing time: minute out of range")
            else
              match rest with
              | EmptyString => Ok (h, m)
              | _ => Err (errorString "parsing time: extra text")
              end
        end
  end.

End time.

(** ** Packages strings and strconv *)

Module strings.

(** [strings.ReplaceAll(s, ":", "")] *)
Fixpoint removeColons (s : string) : string :=
  match s with
  | EmptyString => EmptyString
  | String c r =>
      if Ascii.eqb c ":"%char then removeColons r
      else String c (removeColons r)
  end.

(** [strings.HasPrefix(s, prefix)]: [s] begins with [prefix]. *)
Definition HasPrefix (s prefix : string) : bool := String.prefix prefix s.

End strings.

Module strconv.

Fixpoint digits (s : string) (acc : Z) : option Z :=
  match s with
  | EmptyString => Some acc
  | String c r =>
      if time.isDigit c then digits r (acc * 10 + time.digit c) else None
  end.

(** [strconv.Atoi]: an optional sign, then at least one decimal
    digit and only digits; the value has to fit 64 bits. *)
Definition Atoi (s : string) : result Z :=
  let syntax := Err (errorString "strconv.Atoi: invalid syntax") in
  match s with
  | EmptyString => syntax
  | String c r =>
      let neg := Ascii.eqb c "-"%char in
      let body := if neg || Ascii.eqb c "+"%char then r else s in
      match body with
      | EmptyString => syntax
      | _ =>
          match digits body 0 with
          | None => syntax
          | Some n =>
              let v := if neg then - n else n in
              if (time.minDuration <=? v) && (v <=? time.maxDuration)
              then Ok v
              else Err (errorString "strconv.Atoi: value out of range")
          end
      end
  end.

End strconv.

(** ** Package rtt: the journey source (fields the program reads) *)

Module rtt.

Record LocationDetail : Type := mkLocationDetail {
  GbttBookedDeparture : string;
  RealtimeDeparture : string;
  Platform : string;
  DisplayAs : string;
  CancelReasonShortText : string
}.

Record Service : Type := mkService {
  ServiceUid : string;
  locationDetail : LocationDetail
}.

Record SearchResponse : Type := mkSearchResponse {
  Services : list Service
}.

Record ServiceLocation : Type := mkServiceLocation {
  CRS : string;
  GbttBookedArrival : string;
  RealtimeArrival : string;
  RealtimeArrivalActual : bool
}.

Record ServiceDetailResponse : Type := mkServiceDetailResponse {
  Locations : list ServiceLocation
}.

End rtt.

(** ** Package tfl: the line source *)

Module tfl.

Record StatusDetail : Type := mkStatusDetail {
  StatusSeverity : Z;
  StatusSeverityDescription : string;
  Reason : string
}.

Record LineStatus : Type := mkLineStatus {
  LineStatuses : list StatusDetail
}.

Definition StatusGoodService : Z := 10.
Definition StatusMinorDelays : Z := 5.
Definition StatusSevereDelays : Z := 4.
Definition StatusPartSuspended : Z := 3.
Definition StatusSuspended : Z := 2.
Definition StatusPartClosure : Z := 1.
Definition StatusPlannedClosure : Z := 0.
Definition StatusSpecialService : Z := 9.
Definition StatusServiceClosed : Z := 6.
Definition StatusNoIssues : Z := 10.

Definition IsGoodService (s : StatusDetail) : bool :=
  StatusSeverity s =? StatusGoodService.

Definition HasDisruption (s : StatusDetail) : bool :=
  (StatusSeverity s <? StatusGoodService)
  && negb (StatusSeverity s =? StatusServiceClosed).

End tfl.

(** ** The outside world and the effects of a run *)

(** What a push notification says.  The text of the body is a
    [fmt.Sprintf] of these arguments; the arguments are kept. *)
Inductive Body : Type :=
| TrainDelayBody (trainID from to : string) (delayMinutes : Z)
    (expectedTime platform : string)
| TrainOnTimeBody (trainID from to departureTime platform : string)
| TrainArrivalBody (trainID station arrivalTime : string)
| TrainCancellationBody (trainID from to reason : string)
| TubeDisruptionBody (status reason : string)
| TubeStatusBody (status reason : string).

Record Notification : Type := mkNotification {
  title : string;
  body : Body;
  priority : Z
}.

Inductive Level : Type := DebugLevel | InfoLevel | WarnLevel | ErrorLevel.

Inductive Field : Type :=
| FStr (s : string)
| FStrs (l : list string)
| FInt (n : Z)
| FBool (b : bool)
| FTime (t : time.Time)
| FErr (e : error).

(** One line of the logrus logger.  A time logged through
    [Format("15:04")] is kept as the instant. *)
Record LogEntry : Type := mkLogEntry {
  level : Level;
  message : string;
  fields : list (string * Field)
}.

(** The answers of the world.  Every call to the outside has a number,
    its position among all the calls of the run. *)
Record World : Type := mkWorld {
  (** [time.Now()] *)
  clock : nat -> time.Now;
  (** [rtt.Client.Search(ctx, from, to, t)]; the response is a pointer *)
  rtt_Search :
    nat -> string -> string -> time.Time -> result (option rtt.SearchResponse);
  (** [rtt.Client.GetService(ctx, serviceUid, runDate)] *)
  rtt_GetService :
    nat -> string -> time.Time -> result rtt.ServiceDetailResponse;
  (** [tfl.Client.GetNorthernLineStatus(ctx)] *)
  tfl_GetNorthernLineStatus : nat -> result tfl.LineStatus;
  (** [pushover.SendMessage]: [None] when the message is accepted *)
  pushover_SendMessage : nat -> Notification -> option error;
  (** [strings.ToLower] *)
  strings_ToLower : string -> string
}.

(** What a run has done to the world so far: the number of calls made,
    the notifications handed to the push service and the log, both
    oldest first. *)
Record Eff : Type := mkEff {
  calls : nat;
  sent : list Notification;
  logged : list LogEntry
}.

Definition Eff0 : Eff := mkEff 0%nat [] [].

(** The delays of the delay alerts for service [uid] among the
    notifications [l], in the order sent. *)
Definition delaysSent (uid : string) (l : list Notification) : list Z :=
  omap (fun n =>
          match body n with
          | TrainDelayBody trainID _ _ delayMinutes _ _ =>
              if (trainID =? uid)%string then Some delayMinutes else None
          | _ => None
          end) l.

(** The cancellation alerts for service [uid] among [l]. *)
Definition cancellationsSent (uid : string) (l : list Notification)
  : list Notification :=
  List.filter (fun n =>
            match body n with
            | TrainCancellationBody trainID _ _ _ => (trainID =? uid)%string
            | _ => false
            end) l.

(** A method with receiver state [S]: it reads and writes the receiver
    and the effects, and returns a value. *)
Definition M (S A : Type) : Type := S -> Eff -> A * S * Eff.

Definition ret {S A} (a : A) : M S A := fun s e => (a, s, e).

Definition bind {S A B} (m : M S A) (k : A -> M S B) : M S B :=
  fun s e => let '(a, s', e') := m s e in k a s' e'.

Notation "x <- c ;; k" := (bind c (fun x => k))
  (at level 100, c at next level, right associativity).
Notation "c ;;; k" := (bind c (fun _ => k))
  (at level 100, right associativity).

Definition get {S} : M S S := fun s e => (s, s, e).
Definition put {S} (s : S) : M S unit := fun _ e => (tt, s, e).
Definition modify {S} (f : S -> S) : M S unit := fun s e => (tt, f s, e).

(** A method of a field of the receiver (the monitors held by the
    scheduler). *)
Definition zoom {S T A} (proj : T -> S) (upd : S -> T -> T) (m : M S A)
  : M T A :=
  fun t e => let '(a, s', e') := m (proj t) e in (a, upd s' t, e').

(** The value, the receiver and the effects after a run. *)
Definition value {S A} (r : A * S * Eff) : A := fst (fst r).
Definition state {S A} (r : A * S * Eff) : S := snd (fst r).
Definition effects {S A} (r : A * S * Eff) : Eff := snd r.

Definition logEntry {S} (l : Level) (msg : string)
  (fs : list (string * Field)) : M S unit :=
  fun s e =>
    (tt, s, mkEff (calls e) (sent e) (logged e ++ [mkLogEntry l msg fs])).

Section Outside.
Context (W : World).

Definition time_Now {S} : M S time.Now :=
  fun s e =>
    (clock W (calls e), s, mkEff (Datatypes.S (calls e)) (sent e) (logged e)).

Definition Search {S} (from to : string) (t : time.Time)
  : M S (result (option rtt.SearchResponse)) :=
  fun s e =>
    (rtt_Search W (calls e) from to t, s,
     mkEff (Datatypes.S (calls e)) (sent e) (logged e)).

Definition GetService {S} (serviceUid : string) (runDate : time.Time)
  : M S (result rtt.ServiceDetailResponse) :=
  fun s e =>
    (rtt_GetService W (calls e) serviceUid runDate, s,
     mkEff (Datatypes.S (calls e)) (sent e) (logged e)).

Definition GetNorthernLineStatus {S} : M S (result tfl.LineStatus) :=
  fun s e =>
    (tfl_GetNorthernLineStatus W (calls e), s,
     mkEff (Datatypes.S (calls e)) (sent e) (logged e)).

Definition SendMessage {S} (n : Notification) : M S (option error) :=
  fun s e =>
    (pushover_SendMessage W (calls e) n, s,
     mkEff (Datatypes.S (calls e)) (sent e ++ [n]) (logged e)).

End Outside.

(** ** Package notify *)

Module notify.

Definition PriorityNormal : Z := 0.
Definition PriorityHigh : Z := 1.

Section Notifier.
Context (W : World) {S : Type}.

Definition SendWithPriority (title : string) (message : Body)
  (priority : Z) : M S (option error) :=
  r <- SendMessage W (mkNotification title message priority) ;;
  match r with
  | Some err =>
      ret (Some (wrapError "sending pushover notification: " err))
  | None =>
      logEntry DebugLevel "notification sent" [("title", FStr title)] ;;;
      ret None
  end.

Definition Send (title : string) (message : Body) : M S (option error) :=
  SendWithPriority title message PriorityNormal.

Definition SendTrainDelay (trainID from to : string) (delayMinutes : Z)
  (expectedTime platform : string) : M S (option error) :=
  SendWithPriority "Train Delay Alert"
    (TrainDelayBody trainID from to delayMinutes expectedTime platform)
    PriorityHigh.

Definition SendTrainOnTime (trainID from to departureTime platform : string)
  : M S (option error) :=
  Send "Train Status"
    (TrainOnTimeBody trainID from to departureTime platform).

Definition SendTrainArrival (trainID station arrivalTime : string)
  : M S (option error) :=
  Send "Train Arrival" (TrainArrivalBody trainID station arrivalTime).

Definition SendTrainCancellation (trainID from to reason : string)
  : M S (option error) :=
  SendWithPriority "Train Cancellation Alert"
    (TrainCancellationBody trainID from to reason) PriorityHigh.

Definition SendTubeDisruption (status reason : string)
  : M S (option error) :=
  SendWithPriority "Tube Disruption Alert"
    (TubeDisruptionBody status reason) PriorityHigh.

Definition SendTubeStatus (status reason : string) : M S (option error) :=
  Send "Northern Line Status" (TubeStatusBody status reason).

End Notifier.

End notify.

(** ** Package monitor: the journey monitor (train.go) *)

Module TrainMonitor.

(** The de-duplication memory of the journey monitor: per service
    identifier the highest delay bucket notified, and whether the
    cancellation was notified.  A Go map reads the zero value at a key
    it does not hold. *)
Record t : Type := mk {
  notifiedDelays : gmap string Z;
  notifiedCancels : gmap string bool
}.

Definition lastBucketOf (m : t) (uid : string) : Z :=
  default 0 (notifiedDelays m !! uid).

Definition cancelNotified (m : t) (uid : string) : bool :=
  default false (notifiedCancels m !! uid).

Definition NewTrainMonitor : t := mk ∅ ∅.

(** The 5-minute bucket of a delay: [delayMins / 5 * 5]. *)
Definition delayBucket (delayMins : Z) : Z := Z.quot delayMins 5 * 5.

Definition ResetNotificationState : M t unit :=
  modify (fun _ => mk ∅ ∅).

Definition parseHHMM (s : string) : result time.Time :=
  let s := strings.removeColons s in
  if Z.of_nat (String.length s) <? 4 then
    Err (errorString ("invalid time format: " ++ s))
  else
    match strconv.Atoi (substring 0 2 s) with
    | Err err => Err err
    | Ok h =>
        match strconv.Atoi (substring 2 2 s) with
        | Err err => Err err
        | Ok m => Ok (time.Date_0_1_1_UTC h m)
        end
    end.

Definition calculateDelay (scheduled actual : string) : Z :=
  match parseHHMM scheduled with
  | Err _ => 0
  | Ok schedTime =>
      match parseHHMM actual with
      | Err _ => 0
      | Ok actualTime =>
          let diff := time.Sub actualTime schedTime in
          if diff <? 0 then 0 else time.Minutes_int diff
      end
  end.

Definition matches (targetTime : string) (svc : rtt.Service) : bool :=
  let bookedDep := rtt.GbttBookedDeparture (rtt.locationDetail svc) in
  (bookedDep =? targetTime)%string || strings.HasPrefix bookedDep targetTime.

Fixpoint findMatchingService (services : list rtt.Service)
  (targetTime : string) : option rtt.Service :=
  match services with
  | [] => None
  | svc :: rest =>
      if matches targetTime svc then Some svc
      else findMatchingService rest targetTime
  end.

Section Methods.
Context (W : World).

Definition parseTimeToday {S} (timeStr : string) : M S (result time.Time) :=
  match time.Parse_1504 timeStr with
  | Err err => ret (Err err)
  | Ok (h, m) =>
      now <- time_Now W ;;
      ret (Ok (time.today_at now h m))
  end.

Definition handleCancellation (svc : rtt.Service) (from to : string)
  : M t (option error) :=
  m <- get ;;
  let alreadyNotified := cancelNotified m (rtt.ServiceUid svc) in
  (if negb alreadyNotified then
     put (mk (notifiedDelays m)
             (<[rtt.ServiceUid svc := true]> (notifiedCancels m)))
   else ret tt) ;;;
  if alreadyNotified then ret None
  else
    let reason := rtt.CancelReasonShortText (rtt.locationDetail svc) in
    let reason :=
      if (reason =? "")%string then "No reason provided" else reason in
    logEntry WarnLevel "train cancelled"
      [("service", FStr (rtt.ServiceUid svc)); ("reason", FStr reason)] ;;;
    notify.SendTrainCancellation W (rtt.ServiceUid svc) from to reason.

Definition handleDelay (svc : rtt.Service) (from to : string)
  (delayMins : Z) : M t (option error) :=
  let delayBucket := delayBucket delayMins in
  m <- get ;;
  let lastBucket := lastBucketOf m (rtt.ServiceUid svc) in
  let shouldNotify := lastBucket <? delayBucket in
  (if shouldNotify then
     put (mk (<[rtt.ServiceUid svc := delayBucket]> (notifiedDelays m))
             (notifiedCancels m))
   else ret tt) ;;;
  if negb shouldNotify then
    logEntry DebugLevel "delay already notified for this bucket"
      [("service", FStr (rtt.ServiceUid svc)); ("delay", FInt delayMins);
       ("bucket", FInt delayBucket)] ;;;
    ret None
  else
    let detail := rtt.locationDetail svc in
    let platform := rtt.Platform detail in
    let platform := if (platform =? "")%string then "TBC" else platform in
    logEntry WarnLevel "train delayed"
      [("service", FStr (rtt.ServiceUid svc));
       ("delay_minutes", FInt delayMins);
       ("expected", FStr (rtt.RealtimeDeparture detail));
       ("platform", FStr platform)] ;;;
    notify.SendTrainDelay W (rtt.ServiceUid svc) from to delayMins
      (rtt.RealtimeDeparture detail) platform.

Definition processService (svc : rtt.Service) (from to : string)
  (alwaysNotify : bool) : M t (option error) :=
  let detail := rtt.locationDetail svc in
  if (rtt.DisplayAs detail =? "CANCELLED_CALL")%string
     || (rtt.DisplayAs detail =? "CANCELLED")%string
  then handleCancellation svc from to
  else
    let platform := rtt.Platform detail in
    let platform := if (platform =? "")%string then "TBC" else platform in
    let delayMins :=
      if negb (rtt.RealtimeDeparture detail =? "")%string
         && negb (rtt.GbttBookedDeparture detail =? "")%string
      then calculateDelay (rtt.GbttBookedDeparture detail)
             (rtt.RealtimeDeparture detail)
      else 0 in
    if 0 <? delayMins then
      if alwaysNotify then
        logEntry WarnLevel "train delayed"
          [("service", FStr (rtt.ServiceUid svc));
           ("delay_minutes", FInt delayMins);
           ("expected", FStr (rtt.RealtimeDeparture detail));
           ("platform", FStr platform)] ;;;
        notify.SendTrainDelay W (rtt.ServiceUid svc) from to delayMins
          (rtt.RealtimeDeparture detail) platform
      else handleDelay svc from to delayMins
    else
      logEntry InfoLevel "train running on time"
        [("service", FStr (rtt.ServiceUid svc));
         ("scheduled", FStr (rtt.GbttBookedDeparture detail));
         ("platform", FStr platform)] ;;;
      if alwaysNotify then
        notify.SendTrainOnTime W (rtt.ServiceUid svc) from to
          (rtt.GbttBookedDeparture detail) platform
      else ret None.

(** [resp == nil || len(resp.Services) == 0] and [resp.Services] *)
Definition noServices (resp : option rtt.SearchResponse) : bool :=
  match resp with
  | None => true
  | Some r => Nat.eqb (length (rtt.Services r)) 0
  end.

Definition servicesOf (resp : option rtt.SearchResponse)
  : list rtt.Service :=
  match resp with
  | None => []
  | Some r => rtt.Services r
  end.

Definition CheckDelay (from to departureTime : string)
  : M t (option error) :=
  r <- parseTimeToday departureTime ;;
  match r with
  | Err err => ret (Some (wrapError "parsing departure time: " err))
  | Ok depTime =>
      logEntry InfoLevel "checking train delay"
        [("from", FStr from); ("to", FStr to);
         ("departure", FStr departureTime)] ;;;
      r <- Search W from to depTime ;;
      match r with
      | Err err => ret (Some (wrapError "searching for train: " err))
      | Ok resp =>
          if noServices resp then
            logEntry WarnLevel "no services found"
              [("from", FStr from); ("to", FStr to);
               ("departure", FStr departureTime)] ;;;
            ret None
          else
            match findMatchingService (servicesOf resp) departureTime with
            | None =>
                logEntry WarnLevel
                  "no matching service found for departure time"
                  [("departure", FStr departureTime)] ;;;
                ret None
            | Some service => processService service from to false
            end
      end
  end.

(** CheckStatus checks train status and always sends a notification
    (on time or delayed). *)
Definition CheckStatus (from to departureTime : string)
  : M t (option error) :=
  r <- parseTimeToday departureTime ;;
  match r with
  | Err err => ret (Some (wrapError "parsing departure time: " err))
  | Ok depTime =>
      logEntry InfoLevel "checking train status"
        [("from", FStr from); ("to", FStr to);
         ("departure", FStr departureTime)] ;;;
      r <- Search W from to depTime ;;
      match r with
      | Err err => ret (Some (wrapError "searching for train: " err))
      | Ok resp =>
          if noServices resp then
            logEntry WarnLevel "no services found"
              [("from", FStr from); ("to", FStr to);
               ("departure", FStr departureTime)] ;;;
            ret None
          else
            match findMatchingService (servicesOf resp) departureTime with
            | None =>
                logEntry WarnLevel
                  "no matching service found for departure time"
                  [("departure", FStr departureTime)] ;;;
                ret None
            | Some service => processService service from to true
            end
      end
  end.

Definition CheckArrival (from to departureTime : string)
  : M t (bool * option error) :=
  r <- parseTimeToday departureTime ;;
  match r with
  | Err err =>
      ret (false, Some (wrapError "parsing departure time: " err))
  | Ok depTime =>
      logEntry InfoLevel "checking train arrival"
        [("from", FStr from); ("to", FStr to);
         ("departure", FStr departureTime)] ;;;
      r <- Search W from to depTime ;;
      match r with
      | Err err => ret (false, Some (wrapError "searching for train: " err))
      | Ok resp =>
          if noServices resp then ret (false, None)
          else
            match findMatchingService (servicesOf resp) departureTime with
            | None => ret (false, None)
            | Some service =>
                r <- GetService W (rtt.ServiceUid service) depTime ;;
                match r with
                | Err err =>
                    ret (false,
                         Some (wrapError "getting service details: " err))
                | Ok details =>
                    (* the loop stops at the first location of the
                       destination *)
                    match find (fun loc => (rtt.CRS loc =? to)%string)
                            (rtt.Locations details) with
                    | Some loc =>
                        if rtt.RealtimeArrivalActual loc then
                          let arrivalTime := rtt.RealtimeArrival loc in
                          let arrivalTime :=
                            if (arrivalTime =? "")%string
                            then rtt.GbttBookedArrival loc
                            else arrivalTime in
                          logEntry InfoLevel "train arrived"
                            [("service", FStr (rtt.ServiceUid service));
                             ("station", FStr to);
                             ("arrival_time", FStr arrivalTime)] ;;;
                          r <- notify.SendTrainArrival W
                                 (rtt.ServiceUid service) to arrivalTime ;;
                          match r with
                          | Some err =>
                              ret (true,
                                   Some (wrapError
                                           "sending arrival notification: "
                                           err))
                          | None => ret (true, None)
                          end
                        else ret (false, None)
                    | None => ret (false, None)
                    end
                end
            end
      end
  end.

(** GetExpectedArrivalTime returns the expected arrival time at the
    destination for a given train. *)
Definition GetExpectedArrivalTime {S} (from to departureTime : string)
  : M S (result time.Time) :=
  r <- parseTimeToday departureTime ;;
  match r with
  | Err err => ret (Err (wrapError "parsing departure time: " err))
  | Ok depTime =>
      r <- Search W from to depTime ;;
      match r with
      | Err err => ret (Err (wrapError "searching for train: " err))
      | Ok resp =>
          if noServices resp then ret (Err (errorString "no services found"))
          else
            match findMatchingService (servicesOf resp) departureTime with
            | None => ret (Err (errorString "no matching service found"))
            | Some service =>
                r <- GetService W (rtt.ServiceUid service) depTime ;;
                match r with
                | Err err =>
                    ret (Err (wrapError "getting service details: " err))
                | Ok details =>
                    match find (fun loc => (rtt.CRS loc =? to)%string)
                            (rtt.Locations details) with
                    | Some loc =>
                        let arrivalStr := rtt.RealtimeArrival loc in
                        let arrivalStr :=
                          if (arrivalStr =? "")%string
                          then rtt.GbttBookedArrival loc
                          else arrivalStr in
                        if (arrivalStr =? "")%string then
                          ret (Err (errorString
                                 "no arrival time found for destination"))
                        else
                          match parseHHMM arrivalStr with
                          | Err err =>
                              ret (Err (wrapError "parsing arrival time: "
                                          err))
                          | Ok arrivalTime =>
                              now <- time_Now W ;;
                              ret (Ok (time.today_at now
                                         (time.Hour_UTC arrivalTime)
                                         (time.Minute_UTC arrivalTime)))
                          end
                    | None =>
                        logEntry DebugLevel
                          "destination not found in service locations"
                          [("service", FStr (rtt.ServiceUid service));
                           ("to", FStr to);
                           ("stations",
                            FStrs (map rtt.CRS (rtt.Locations details)))] ;;;
                        ret (Err (errorString
                               ("destination " ++ to
                                ++ " not found in service")))
                    end
                end
            end
      end
  end.

(** A fetched journey status handed to [processService], and a run of
    such observations one after the other. *)
Record Observation : Type := mkObservation {
  service : rtt.Service;
  from : string;
  to : string;
  alwaysNotify : bool
}.

Definition cancelled (svc : rtt.Service) : bool :=
  (rtt.DisplayAs (rtt.locationDetail svc) =? "CANCELLED_CALL")%string
  || (rtt.DisplayAs (rtt.locationDetail svc) =? "CANCELLED")%string.

Fixpoint observe (obs : list Observation) : M t unit :=
  match obs with
  | [] => ret tt
  | o :: obs =>
      processService (service o) (from o) (to o) (alwaysNotify o) ;;;
      observe obs
  end.

(** The same in gated mode throughout, as [CheckDelay] does. *)
Definition gated (o : rtt.Service * string * string) : Observation :=
  let '(svc, from, to) := o in mkObservation svc from to false.

End Methods.

End TrainMonitor.

(** ** Package monitor: the line monitor (tube.go) *)

Module TubeMonitor.

(** The last observed (description, reason) pair; the empty
    description stands for no observation yet. *)
Record t : Type := mk {
  lastStatus : string;
  lastStatusReason : string
}.

Definition NewTubeMonitor : t := mk "" "".

Definition ResetNotificationState : M t unit :=
  modify (fun _ => mk "" "").

Section Methods.
Context (W : World).

Definition CheckStatus : M t (option error) :=
  r <- GetNorthernLineStatus W ;;
  match r with
  | Err err => ret (Some err)
  | Ok status =>
      match tfl.LineStatuses status with
      | [] =>
          logEntry WarnLevel
            "no status information available for Northern Line" [] ;;;
          ret None
      | currentStatus :: _ =>
          let statusDesc := tfl.StatusSeverityDescription currentStatus in
          let reason := tfl.Reason currentStatus in
          m <- get ;;
          let statusChanged :=
            negb (lastStatus m =? statusDesc)%string
            || negb (lastStatusReason m =? reason)%string in
          let isFirstCheck := (lastStatus m =? "")%string in
          put (mk statusDesc reason) ;;;
          logEntry InfoLevel "northern line status"
            [("status", FStr statusDesc);
             ("severity", FInt (tfl.StatusSeverity currentStatus));
             ("reason", FStr reason)] ;;;
          if negb statusChanged then ret None
          else if isFirstCheck && tfl.IsGoodService currentStatus
          then ret None
          else if tfl.HasDisruption currentStatus
                  || (negb isFirstCheck && statusChanged)
          then
            let reason :=
              if (reason =? "")%string then "No additional details"
              else reason in
            logEntry WarnLevel "northern line disruption detected"
              [("status", FStr statusDesc); ("reason", FStr reason)] ;;;
            notify.SendTubeDisruption W statusDesc reason
          else ret None
      end
  end.

Definition SendStatusSummary : M t (option error) :=
  r <- GetNorthernLineStatus W ;;
  match r with
  | Err err => ret (Some err)
  | Ok status =>
      match tfl.LineStatuses status with
      | [] => notify.SendTubeStatus W "Unknown" "Unable to retrieve status"
      | currentStatus :: _ =>
          let statusDesc := tfl.StatusSeverityDescription currentStatus in
          let reason := tfl.Reason currentStatus in
          logEntry InfoLevel "sending northern line status summary"
            [("status", FStr statusDesc); ("reason", FStr reason)] ;;;
          notify.SendTubeStatus W statusDesc reason
      end
  end.

End Methods.

End TubeMonitor.

(** ** Package config *)

Module config.

Record TrainConfig : Type := mkTrainConfig {
  From : string;
  To : string;
  Departure : string;
  Days : list string
}.

Record Config : Type := mkConfig {
  MorningTrain : TrainConfig;
  EveningTrain : TrainConfig
}.

Section Methods.
Context (W : World) {S : Type}.

Definition DepartureTime (t : TrainConfig) : M S (result time.Time) :=
  match time.Parse_1504 (Departure t) with
  | Err err =>
      ret (Err (wrapQuoted "invalid departure time " (Departure t) ": " err))
  | Ok (h, m) =>
      now <- time_Now W ;;
      ret (Ok (time.today_at now h m))
  end.

(** IsActiveDay returns true if the given weekday is in the
    configured days list.  If no days are configured, returns true
    (runs every day). *)
Definition IsActiveDay (t : TrainConfig) (weekday : time.Weekday) : bool :=
  if Nat.eqb (length (Days t)) 0 then true
  else
    let dayName := strings_ToLower W (time.Weekday_String weekday) in
    existsb (fun d => (strings_ToLower W d =? dayName)%string) (Days t).

(** IsActiveToday returns true if today is an active day for this
    train config. *)
Definition IsActiveToday (t : TrainConfig) : M S bool :=
  now <- time_Now W ;;
  ret (IsActiveDay t (time.weekday now)).

Definition Validate (c : Config) : M S (option error) :=
  if (From (MorningTrain c) =? "")%string
     || (To (MorningTrain c) =? "")%string
     || (Departure (MorningTrain c) =? "")%string
  then ret (Some (errorString
                    "morning_train: from, to, and departure are required"))
  else if (From (EveningTrain c) =? "")%string
          || (To (EveningTrain c) =? "")%string
          || (Departure (EveningTrain c) =? "")%string
  then ret (Some (errorString
                    "evening_train: from, to, and departure are required"))
  else
    r <- DepartureTime (MorningTrain c) ;;
    match r with
    | Err err => ret (Some (wrapError "morning_train: " err))
    | Ok _ =>
        r <- DepartureTime (EveningTrain c) ;;
        match r with
        | Err err => ret (Some (wrapError "evening_train: " err))
        | Ok _ => ret None
        end
    end.

End Methods.

End config.

(** ** Package scheduler *)

Module Scheduler.

Inductive TaskType : Type :=
| TaskMorningDelayCheck
| TaskEveningDelayCheck
| TaskMorningArrivalCheck
| TaskEveningArrivalCheck
| TaskNorthernLineCheck
| TaskNorthernLineSummary
| TaskMorningStatusUpdate
| TaskEveningStatusUpdate.

(** The [iota] numbering of the constants. *)
Definition iota (ty : TaskType) : Z :=
  match ty with
  | TaskMorningDelayCheck => 0
  | TaskEveningDelayCheck => 1
  | TaskMorningArrivalCheck => 2
  | TaskEveningArrivalCheck => 3
  | TaskNorthernLineCheck => 4
  | TaskNorthernLineSummary => 5
  | TaskMorningStatusUpdate => 6
  | TaskEveningStatusUpdate => 7
  end.

Record Task : Type := mkTask {
  Typ : TaskType;
  Time : time.Time;
  Executed : bool;
  Repeating : bool
}.

(** The scheduler with the two monitors it drives. *)
Record t : Type := mk {
  cfg : config.Config;
  trainMonitor : TrainMonitor.t;
  tubeMonitor : TubeMonitor.t;
  tasks : list Task;
  currentDay : Z;
  arrivalPolling : gmap Z bool
}.

Definition NewScheduler (cfg : config.Config)
  (trainMonitor : TrainMonitor.t) (tubeMonitor : TubeMonitor.t) : t :=
  mk cfg trainMonitor tubeMonitor [] 0 ∅.

Definition set_trainMonitor (m : TrainMonitor.t) (s : t) : t :=
  mk (cfg s) m (tubeMonitor s) (tasks s) (currentDay s) (arrivalPolling s).

Definition set_tubeMonitor (m : TubeMonitor.t) (s : t) : t :=
  mk (cfg s) (trainMonitor s) m (tasks s) (currentDay s) (arrivalPolling s).

Definition set_tasks (l : list Task) (s : t) : t :=
  mk (cfg s) (trainMonitor s) (tubeMonitor s) l (currentDay s)
     (arrivalPolling s).

Definition appendTasks (l : list Task) : M t unit :=
  modify (fun s => set_tasks (tasks s ++ l) s).

Definition isWithinWindow (taskTime now : time.Time)
  (window : time.Duration) : bool :=
  let diff := time.Sub now taskTime in
  (0 <=? diff) && (diff <? window).

(** The times [t], [t + 5 min], ... up to and including [dep]: the
    loop [for t := startTime; !t.After(dep); t = t.Add(5 * time.Minute)],
    with the number of rounds bounded by [fuel]. *)
Fixpoint lineCheckTimes (fuel : nat) (t dep : time.Time) : list time.Time :=
  match fuel with
  | O => []
  | Datatypes.S fuel =>
      if negb (time.After t dep)
      then t :: lineCheckTimes fuel (time.Add t (5 * time.Minute)) dep
      else []
  end.

(** Rounds that suffice for the loop started at [t]. *)
Definition roundsFor (t dep : time.Time) : nat :=
  Z.to_nat ((dep - t) / (5 * time.Minute) + 1).

(** The zero [time.Time]: 0001-01-01 00:00:00 UTC. *)
Definition zeroTime : time.Time := 366 * 24 * time.Hour.

Section Methods.
Context (W : World).

Definition train {A} (m : M TrainMonitor.t A) : M t A :=
  zoom trainMonitor set_trainMonitor m.

Definition tube {A} (m : M TubeMonitor.t A) : M t A :=
  zoom tubeMonitor set_tubeMonitor m.

Definition setupDailyTasks : M t unit :=
  now <- time_Now W ;;
  modify (fun s =>
            mk (cfg s) (trainMonitor s) (tubeMonitor s) []
               (time.Day now) ∅) ;;;
  s <- get ;;
  let morning := config.MorningTrain (cfg s) in
  let evening := config.EveningTrain (cfg s) in
  morningActive <- config.IsActiveToday W morning ;;
  eveningActive <- config.IsActiveToday W evening ;;
  if negb morningActive && negb eveningActive then
    logEntry InfoLevel "no trains scheduled for today"
      [("weekday", FStr (time.Weekday_String (time.weekday now)))]
  else
    m <- (if morningActive then
            r <- config.DepartureTime W morning ;;
            match r with
            | Err err =>
                logEntry ErrorLevel "failed to parse morning departure time"
                  [("error", FErr err)] ;;;
                ret (zeroTime, false)
            | Ok dep => ret (dep, true)
            end
          else ret (zeroTime, false)) ;;
    let '(morningDep, morningActive) := m in
    e <- (if eveningActive then
            r <- config.DepartureTime W evening ;;
            match r with
            | Err err =>
                logEntry ErrorLevel "failed to parse evening departure time"
                  [("error", FErr err)] ;;;
                ret (zeroTime, false)
            | Ok dep => ret (dep, true)
            end
          else ret (zeroTime, false)) ;;
    let '(eveningDep, eveningActive) := e in
    (if morningActive then
       (* Delay checks (only notify on delay) *)
       appendTasks
         [mkTask TaskMorningDelayCheck
            (time.Add morningDep (-60 * time.Minute)) false false;
          mkTask TaskMorningDelayCheck
            (time.Add morningDep (-45 * time.Minute)) false false;
          mkTask TaskMorningDelayCheck
            (time.Add morningDep (-30 * time.Minute)) false false;
          mkTask TaskMorningDelayCheck
            (time.Add morningDep (-15 * time.Minute)) false false] ;;;
       (* Status updates at 60m and 30m (always notify) *)
       appendTasks
         [mkTask TaskMorningStatusUpdate
            (time.Add morningDep (-60 * time.Minute)) false false;
          mkTask TaskMorningStatusUpdate
            (time.Add morningDep (-30 * time.Minute)) false false] ;;;
       appendTasks
         [mkTask TaskMorningArrivalCheck
            (time.Add morningDep (70 * time.Minute)) false true] ;;;
       let startTime := time.Add morningDep (-60 * time.Minute) in
       appendTasks
         (map (fun t => mkTask TaskNorthernLineCheck t false false)
            (lineCheckTimes (roundsFor startTime morningDep)
               startTime morningDep)) ;;;
       (* Schedule status summary 15 mins before arrival *)
       r <- TrainMonitor.GetExpectedArrivalTime W
              (config.From morning) (config.To morning)
              (config.Departure morning) ;;
       match r with
       | Err err =>
           logEntry WarnLevel
             "failed to get arrival time, skipping status summary"
             [("error", FErr err)]
       | Ok arrivalTime =>
           let summaryTime := time.Add arrivalTime (-15 * time.Minute) in
           appendTasks
             [mkTask TaskNorthernLineSummary summaryTime false false] ;;;
           logEntry InfoLevel "scheduled northern line status summary"
             [("arrival", FTime arrivalTime);
              ("summary_time", FTime summaryTime)]
       end
     else ret tt) ;;;
    (if eveningActive then
       appendTasks
         [mkTask TaskEveningDelayCheck
            (time.Add eveningDep (-60 * time.Minute)) false false;
          mkTask TaskEveningDelayCheck
            (time.Add eveningDep (-45 * time.Minute)) false false;
          mkTask TaskEveningDelayCheck
            (time.Add eveningDep (-30 * time.Minute)) false false;
          mkTask TaskEveningDelayCheck
            (time.Add eveningDep (-15 * time.Minute)) false false] ;;;
       appendTasks
         [mkTask TaskEveningStatusUpdate
            (time.Add eveningDep (-60 * time.Minute)) false false;
          mkTask TaskEveningStatusUpdate
            (time.Add eveningDep (-30 * time.Minute)) false false] ;;;
       appendTasks
         [mkTask TaskEveningArrivalCheck
            (time.Add eveningDep (70 * time.Minute)) false true]
     else ret tt) ;;;
    s <- get ;;
    logEntry InfoLevel "daily tasks scheduled"
      [("weekday", FStr (time.Weekday_String (time.weekday now)));
       ("morning_active", FBool morningActive);
       ("evening_active", FBool eveningActive);
       ("total_tasks", FInt (Z.of_nat (length (tasks s))))].

(** [executeTask] works on a pointer into the task list: the task is
    taken and the task as the call leaves it is returned. *)
Definition executeTask (task : Task) : M t Task :=
  logEntry DebugLevel "executing task"
    [("type", FInt (iota (Typ task))); ("scheduled_time", FTime (Time task))] ;;;
  s <- get ;;
  let morning := config.MorningTrain (cfg s) in
  let evening := config.EveningTrain (cfg s) in
  let arrival (c : config.TrainConfig) : M t (Task * option error) :=
    r <- train (TrainMonitor.CheckArrival W
                  (config.From c) (config.To c) (config.Departure c)) ;;
    let '(arrived, checkErr) := r in
    if arrived
    then ret (mkTask (Typ task) (Time task) (Executed task) false, checkErr)
    else ret (mkTask (Typ task) (time.Add (Time task) (5 * time.Minute))
                (Executed task) (Repeating task), checkErr) in
  let only (m : M t (option error)) : M t (Task * option error) :=
    err <- m ;; ret (task, err) in
  r <- match Typ task with
       | TaskMorningDelayCheck =>
           only (train (TrainMonitor.CheckDelay W (config.From morning)
                          (config.To morning) (config.Departure morning)))
       | TaskEveningDelayCheck =>
           only (train (TrainMonitor.CheckDelay W (config.From evening)
                          (config.To evening) (config.Departure evening)))
       | TaskMorningArrivalCheck => arrival morning
       | TaskEveningArrivalCheck => arrival evening
       | TaskNorthernLineCheck => only (tube (TubeMonitor.CheckStatus W))
       | TaskNorthernLineSummary =>
           only (tube (TubeMonitor.SendStatusSummary W))
       | TaskMorningStatusUpdate =>
           only (train (TrainMonitor.CheckStatus W (config.From morning)
                          (config.To morning) (config.Departure morning)))
       | TaskEveningStatusUpdate =>
           only (train (TrainMonitor.CheckStatus W (config.From evening)
                          (config.To evening) (config.Departure evening)))
       end ;;
  let '(task, err) := r in
  match err with
  | Some err =>
      logEntry ErrorLevel "task execution failed"
        [("type", FInt (iota (Typ task))); ("error", FErr err)]
  | None => ret tt
  end ;;;
  if negb (Repeating task)
  then ret (mkTask (Typ task) (Time task) true (Repeating task))
  else ret task.

(** One round of the loop of [tick]: the task at index [i]. *)
Definition tickTask (now : time.Now) (i : nat) : M t unit :=
  s <- get ;;
  match tasks s !! i with
  | None => ret tt
  | Some task =>
      if Executed task && negb (Repeating task) then ret tt
      else if isWithinWindow (Time task) (time.instant now) (2 * time.Minute)
      then
        task <- executeTask task ;;
        modify (fun s => set_tasks (<[i := task]> (tasks s)) s)
      else ret tt
  end.

Fixpoint forEach (ix : list nat) (body : nat -> M t unit) : M t unit :=
  match ix with
  | [] => ret tt
  | i :: ix => body i ;;; forEach ix body
  end.

(** [tick] once the clock is read. *)
Definition tickAt (now : time.Now) : M t unit :=
  s <- get ;;
  (if negb (time.Day now =? currentDay s) then
     logEntry InfoLevel "day changed, resetting tasks" [] ;;;
     train TrainMonitor.ResetNotificationState ;;;
     tube TubeMonitor.ResetNotificationState ;;;
     setupDailyTasks
   else ret tt) ;;;
  s <- get ;;
  forEach (seq 0 (length (tasks s))) (tickTask now).

Definition tick : M t unit :=
  now <- time_Now W ;;
  tickAt now.

(** The loop of [run]: one [tick] per firing of the ticker. *)
Fixpoint ticks (n : nat) : M t unit :=
  match n with
  | O => ret tt
  | Datatypes.S n => tick ;;; ticks n
  end.

(** [run] when the ticker fires [n] times before the context is
    cancelled or the stop signal comes: the tasks of the day are set up,
    then every firing is a [tick].  The log line of the stop is left
    out. *)
Definition run (n : nat) : M t unit :=
  setupDailyTasks ;;; ticks n.

(** The clock readings the [n] ticks take at their start. *)
Fixpoint tickTimes (n : nat) (s : t) (e : Eff) : list time.Now :=
  match n with
  | O => []
  | Datatypes.S n =>
      clock W (calls e)
      :: tickTimes n (state (tick s e)) (effects (tick s e))
  end.

End Methods.

(** The test of the loop of [tick] on one task: not (executed and not
    repeating), and inside the window of two minutes. *)
Definition fires (now : time.Now) (task : Task) : bool :=
  negb (Executed task && negb (Repeating task))
  && isWithinWindow (Time task) (time.instant now) (2 * time.Minute).

Definition isArrivalCheck (ty : TaskType) : bool :=
  match ty with
  | TaskMorningArrivalCheck | TaskEveningArrivalCheck => true
  | _ => false
  end.

(** The journey a task is about, if it is about one. *)
Definition journeyOf (c : config.Config) (ty : TaskType)
  : option config.TrainConfig :=
  match ty with
  | TaskMorningDelayCheck | TaskMorningArrivalCheck
  | TaskMorningStatusUpdate => Some (config.MorningTrain c)
  | TaskEveningDelayCheck | TaskEveningArrivalCheck
  | TaskEveningStatusUpdate => Some (config.EveningTrain c)
  | TaskNorthernLineCheck | TaskNorthernLineSummary => None
  end.

End Scheduler.

(** * Vocabulary of the properties *)

(** A string that [parseHHMM] cannot read: fewer than four bytes once
    the colons are removed, or an hour or minute field that is no
    number. *)
Definition malformedHHMM (s : string) : Prop :=
  let s := strings.removeColons s in
  (String.length s < 4)%nat
  \/ (exists e, strconv.Atoi (substring 0 2 s) = Err e)
  \/ (exists e, strconv.Atoi (substring 2 2 s) = Err e).

(** The notifications of the notifier, as they reach the push service. *)
Definition delayAlert (svc : rtt.Service) (from to : string) (delayMins : Z)
  : Notification :=
  let detail := rtt.locationDetail svc in
  mkNotification "Train Delay Alert"
    (TrainDelayBody (rtt.ServiceUid svc) from to delayMins
       (rtt.RealtimeDeparture detail)
       (if (rtt.Platform detail =? "")%string then "TBC"
        else rtt.Platform detail))
    notify.PriorityHigh.

Definition onTimeNotice (svc : rtt.Service) (from to : string) : Notification :=
  let detail := rtt.locationDetail svc in
  mkNotification "Train Status"
    (TrainOnTimeBody (rtt.ServiceUid svc) from to
       (rtt.GbttBookedDeparture detail)
       (if (rtt.Platform detail =? "")%string then "TBC"
        else rtt.Platform detail))
    notify.PriorityNormal.

Definition cancellationAlert (svc : rtt.Service) (from to : string)
  : Notification :=
  let reason := rtt.CancelReasonShortText (rtt.locationDetail svc) in
  mkNotification "Train Cancellation Alert"
    (TrainCancellationBody (rtt.ServiceUid svc) from to
       (if (reason =? "")%string then "No reason provided" else reason))
    notify.PriorityHigh.

Definition disruptionAlert (status : tfl.StatusDetail) : Notification :=
  let reason := tfl.Reason status in
  mkNotification "Tube Disruption Alert"
    (TubeDisruptionBody (tfl.StatusSeverityDescription status)
       (if (reason =? "")%string then "No additional details" else reason))
    notify.PriorityHigh.

(** The buckets of the delay alerts sent for service [uid]. *)
Definition bucketsSent (uid : string) (l : list Notification) : list Z :=
  map TrainMonitor.delayBucket (delaysSent uid l).

(** The delay memory agrees with what was sent: for every service the
    stored mark is not negative, and the buckets alerted so far are
    positive, strictly increasing and at most the stored mark. *)
Definition delayInv (m : TrainMonitor.t) (l : list Notification) : Prop :=
  forall uid,
    0 <= TrainMonitor.lastBucketOf m uid
    /\ StronglySorted Z.lt (bucketsSent uid l)
    /\ Forall (fun b => 0 < b <= TrainMonitor.lastBucketOf m uid)
         (bucketsSent uid l).

(** The cancellation memory agrees with what was sent: one alert for a
    service whose latch is set, none for the others. *)
Definition cancelInv (m : TrainMonitor.t) (l : list Notification) : Prop :=
  forall uid,
    length (cancellationsSent uid l)
    = if TrainMonitor.cancelNotified m uid then 1%nat else 0%nat.

(** A method keeps [I], a relation between the receiver and the
    notifications sent so far. *)
Definition keeps {S A} (I : S -> list Notification -> Prop) (m : M S A)
  : Prop :=
  forall s e, I s (sent e) -> I (state (m s e)) (sent (effects (m s e))).

(** Service matching as the specification words it: the first service
    whose scheduled departure equals the target time or is a textual
    prefix of it. *)
Definition spec_matches (targetTime : string) (svc : rtt.Service) : bool :=
  let bookedDep := rtt.GbttBookedDeparture (rtt.locationDetail svc) in
  (bookedDep =? targetTime)%string || String.prefix bookedDep targetTime.

Definition spec_findMatchingService (services : list rtt.Service)
  (targetTime : string) : option rtt.Service :=
  List.find (spec_matches targetTime) services.

(** A service with the given identifier and departure times. *)
Definition serviceAt (uid booked realtime : string) : rtt.Service :=
  rtt.mkService uid (rtt.mkLocationDetail booked realtime "4" "CALL" "").

(** A world for examples: the clock stands at one instant of a Monday,
    the first of the month, the journey source answers every search with
    [services], no service detail and no line status can be fetched, and
    every notification is accepted. *)
Definition exampleNow : time.Now :=
  time.mkNow 0 1 time.Monday
    (fun h m => h * time.Hour + m * time.Minute).

(** Lower case of the ASCII letters, for the worlds of the examples. *)
Fixpoint asciiLower (s : string) : string :=
  match s with
  | EmptyString => EmptyString
  | String c r =>
      let n := N_of_ascii c in
      String (if (65 <=? n)%N && (n <=? 90)%N then ascii_of_N (n + 32) else c)
        (asciiLower r)
  end.

Definition exampleWorld (services : list rtt.Service) : World :=
  mkWorld (fun _ => exampleNow)
    (fun _ _ _ _ => Ok (Some (rtt.mkSearchResponse services)))
    (fun _ _ _ => Err (errorString "service detail unavailable"))
    (fun _ => Err (errorString "line status unavailable"))
    (fun _ _ => None)
    asciiLower.

(** The same with the detail of every service: one stop at [station],
    booked for 08:10 and expected at 08:12, reached or not. *)
Definition arrivalWorld (services : list rtt.Service) (station : string)
  (arrived : bool) : World :=
  mkWorld (fun _ => exampleNow)
    (fun _ _ _ _ => Ok (Some (rtt.mkSearchResponse services)))
    (fun _ _ _ =>
       Ok (rtt.mkServiceDetailResponse
             [rtt.mkServiceLocation station "0810" "0812" arrived]))
    (fun _ => Err (errorString "line status unavailable"))
    (fun _ _ => None)
    asciiLower.

(** A schedule of two journeys, every day or on the given days. *)
Definition exampleConfig (days : list string) : config.Config :=
  config.mkConfig (config.mkTrainConfig "SAC" "STP" "0720" days)
    (config.mkTrainConfig "STP" "SAC" "1800" days).

(** The stored pair is the pair observed, and no observation was stored
    yet. *)
Definition samePair (m : TubeMonitor.t) (s : tfl.StatusDetail) : Prop :=
  TubeMonitor.lastStatus m = tfl.StatusSeverityDescription s
  /\ TubeMonitor.lastStatusReason m = tfl.Reason s.

Definition noObservationYet (m : TubeMonitor.t) : Prop :=
  TubeMonitor.lastStatus m = "".

(** The example world with a line source that answers [status]. *)
Definition lineWorld (status : tfl.StatusDetail) : World :=
  mkWorld (fun _ => exampleNow)
    (fun _ _ _ _ => Ok (Some (rtt.mkSearchResponse [])))
    (fun _ _ _ => Err (errorString "service detail unavailable"))
    (fun _ => Ok (tfl.mkLineStatus [status]))
    (fun _ _ => None)
    asciiLower.

(** The three changes [executeTask] makes to a task: the scheduled time
    moved by five minutes, the repetition ended, and the mark of
    execution that a task not repeating gets at the end. *)
Definition advance (task : Scheduler.Task) : Scheduler.Task :=
  Scheduler.mkTask (Scheduler.Typ task)
    (time.Add (Scheduler.Time task) (5 * time.Minute))
    (Scheduler.Executed task) (Scheduler.Repeating task).

Definition terminal (task : Scheduler.Task) : Scheduler.Task :=
  Scheduler.mkTask (Scheduler.Typ task) (Scheduler.Time task)
    (Scheduler.Executed task) false.

Definition finish (task : Scheduler.Task) : Scheduler.Task :=
  if negb (Scheduler.Repeating task)
  then Scheduler.mkTask (Scheduler.Typ task) (Scheduler.Time task) true
         (Scheduler.Repeating task)
  else task.

(** The log line that opens [executeTask], and the effects once it is
    written. *)
Definition executingEntry (task : Scheduler.Task) : LogEntry :=
  mkLogEntry DebugLevel "executing task"
    [("type", FInt (Scheduler.iota (Scheduler.Typ task)));
     ("scheduled_time", FTime (Scheduler.Time task))].

Definition started (task : Scheduler.Task) (e : Eff) : Eff :=
  mkEff (calls e) (sent e) (logged e ++ [executingEntry task]).

(** The log line of a failed task. *)
Definition failedEntry (task : Scheduler.Task) (err : error) : LogEntry :=
  mkLogEntry ErrorLevel "task execution failed"
    [("type", FInt (Scheduler.iota (Scheduler.Typ task))); ("error", FErr err)].

(** The call of [CheckArrival] that [executeTask] makes for an arrival
    check of journey [c]. *)
Definition arrivalCall (W : World) (c : config.TrainConfig)
  (task : Scheduler.Task) (s : Scheduler.t) (e : Eff)
  : bool * option error * TrainMonitor.t * Eff :=
  TrainMonitor.CheckArrival W (config.From c) (config.To c)
    (config.Departure c) (Scheduler.trainMonitor s) (started task e).

(** No tick in a run of ticks sees another day than the scheduler's. *)
Definition sameDay (s : Scheduler.t) (now : time.Now) : Prop :=
  time.Day now = Scheduler.currentDay s.

(** The instant of a tick is inside the window of a task scheduled at
    [t]. *)
Definition inWindow (t : time.Time) (now : time.Now) : Prop :=
  0 <= time.instant now - t < 2 * time.Minute.

(** An arrival check is repeating until it is executed for good. *)
Definition arrivalTaskOK (task : Scheduler.Task) : Prop :=
  Scheduler.isArrivalCheck (Scheduler.Typ task) = true ->
  Scheduler.Repeating task = true
  \/ (Scheduler.Executed task = true).

(** The cancellation latch of service [uid] is set. *)
Definition latched (uid : string) : TrainMonitor.t -> list Notification -> Prop :=
  fun m _ => TrainMonitor.cancelNotified m uid = true.

Definition arrivalTasksOK : Scheduler.t -> list Notification -> Prop :=
  fun s _ => Forall arrivalTaskOK (Scheduler.tasks s).

(** A schedule whose morning departure is not written as four
    digits. *)
Definition malformedConfig : config.Config :=
  config.mkConfig (config.mkTrainConfig "SAC" "STP" "7:00" [])
    (config.mkTrainConfig "STP" "SAC" "1800" []).

(** The delay [processService] works with: computed when both departure
    times are present, zero otherwise. *)
Definition observedDelay (svc : rtt.Service) : Z :=
  let detail := rtt.locationDetail svc in
  if negb (rtt.RealtimeDeparture detail =? "")%string
     && negb (rtt.GbttBookedDeparture detail =? "")%string
  then TrainMonitor.calculateDelay (rtt.GbttBookedDeparture detail)
         (rtt.RealtimeDeparture detail)
  else 0.

(** The example world with a push service that accepts nothing. *)
Definition unreachablePush (services : list rtt.Service) : World :=
  mkWorld (fun _ => exampleNow)
    (fun _ _ _ _ => Ok (Some (rtt.mkSearchResponse services)))
    (fun _ _ _ =>
       Ok (rtt.mkServiceDetailResponse
             [rtt.mkServiceLocation "STP" "0810" "0812" true]))
    (fun _ => Err (errorString "line status unavailable"))
    (fun _ _ => Some (errorString "push service unreachable"))
    asciiLower.

(** The example world with a journey source that cannot be searched. *)
Definition searchDown : World :=
  mkWorld (fun _ => exampleNow)
    (fun _ _ _ _ => Err (errorString "journey source unreachable"))
    (fun _ _ _ => Err (errorString "service detail unavailable"))
    (fun _ => Err (errorString "line status unavailable"))
    (fun _ _ => None)
    asciiLower.

(** The arrival notice as it reaches the push service, and the arrival
    time the journey monitor reads at a stop: the realtime one, the
    booked one when there is none. *)
Definition arrivalNotice (uid station arrivalTime : string) : Notification :=
  mkNotification "Train Arrival" (TrainArrivalBody uid station arrivalTime)
    notify.PriorityNormal.

Definition arrivalTimeAt (loc : rtt.ServiceLocation) : string :=
  if (rtt.RealtimeArrival loc =? "")%string then rtt.GbttBookedArrival loc
  else rtt.RealtimeArrival loc.

(** The first stop at [station] in the calling pattern [locs] is [loc]. *)
Definition firstStopAt (station : string) (locs : list rtt.ServiceLocation)
  (loc : rtt.ServiceLocation) : Prop :=
  exists before after,
    locs = (before ++ loc :: after)%list
    /\ Forall (fun l => rtt.CRS l <> station) before
    /\ rtt.CRS loc = station.

(** The detail of a service found for the journey: the search at call
    [n] answers [resp], the service matching the departure is [svc], and
    its detail, asked at the next call, is [details]. *)
Definition serviceDetailAt (W : World) (n : nat) (from to departureTime : string)
  (depTime : time.Time) (svc : rtt.Service)
  (details : rtt.ServiceDetailResponse) : Prop :=
  exists resp,
    rtt_Search W n from to depTime = Ok resp
    /\ TrainMonitor.findMatchingService (TrainMonitor.servicesOf resp)
         departureTime = Some svc
    /\ rtt_GetService W (Datatypes.S n) (rtt.ServiceUid svc) depTime
       = Ok details.

(** A world whose service calls at two stops of the same code, the
    first not reached and the second reached. *)
Definition twoStopsWorld (services : list rtt.Service) (station : string)
  : World :=
  mkWorld (fun _ => exampleNow)
    (fun _ _ _ _ => Ok (Some (rtt.mkSearchResponse services)))
    (fun _ _ _ =>
       Ok (rtt.mkServiceDetailResponse
             [rtt.mkServiceLocation "SAC" "0720" "" true;
              rtt.mkServiceLocation station "0810" "" false;
              rtt.mkServiceLocation station "0830" "0831" true]))
    (fun _ => Err (errorString "line status unavailable"))
    (fun _ _ => None)
    asciiLower.

(** The status summary as it reaches the push service, and the summary
    made of a fetched line status: of its first entry, of a placeholder
    when there is none. *)
Definition statusSummary (status reason : string) : Notification :=
  mkNotification "Northern Line Status" (TubeStatusBody status reason)
    notify.PriorityNormal.

Definition summaryOf (status : tfl.LineStatus) : Notification :=
  match tfl.LineStatuses status with
  | [] => statusSummary "Unknown" "Unable to retrieve status"
  | cur :: _ =>
      statusSummary (tfl.StatusSeverityDescription cur) (tfl.Reason cur)
  end.

(** The line source has nothing to observe at call [n]: the fetch fails
    or the list of statuses is empty. *)
Definition noLineStatus (W : World) (n : nat) : Prop :=
  match tfl_GetNorthernLineStatus W n with
  | Err _ => True
  | Ok status => tfl.LineStatuses status = []
  end.

(** The line source answers a status at call [n] whose first entry is
    [cur]. *)
Definition lineStatusAt (W : World) (n : nat) (cur : tfl.StatusDetail)
  : Prop :=
  exists status others,
    tfl_GetNorthernLineStatus W n = Ok status
    /\ tfl.LineStatuses status = cur :: others.

(** The departure of a journey on a day on which it runs: the journey
    is active on the weekday read at call [nActive] and its departure is
    a clock time, placed on the day read at call [nDep]. *)
Definition activeDeparture (W : World) (c : config.TrainConfig)
  (nActive nDep : nat) : option time.Time :=
  if config.IsActiveDay W c (time.weekday (clock W nActive)) then
    match time.Parse_1504 (config.Departure c) with
    | Ok (h, mi) => Some (time.today_at (clock W nDep) h mi)
    | Err _ => None
    end
  else None.

(** The tasks of one journey around its departure [dep]: four delay
    checks, two status updates and the arrival check. *)
Definition journeyTasks (delay status arrival : Scheduler.TaskType)
  (dep : time.Time) : list Scheduler.Task :=
  [Scheduler.mkTask delay (dep - 60 * time.Minute) false false;
   Scheduler.mkTask delay (dep - 45 * time.Minute) false false;
   Scheduler.mkTask delay (dep - 30 * time.Minute) false false;
   Scheduler.mkTask delay (dep - 15 * time.Minute) false false;
   Scheduler.mkTask status (dep - 60 * time.Minute) false false;
   Scheduler.mkTask status (dep - 30 * time.Minute) false false;
   Scheduler.mkTask arrival (dep + 70 * time.Minute) false true].

(** The line checks of the hour before [dep], five minutes apart. *)
Definition lineCheckTasks (dep : time.Time) : list Scheduler.Task :=
  map (fun k => Scheduler.mkTask Scheduler.TaskNorthernLineCheck
                  (dep + (5 * k - 60) * time.Minute) false false)
    [0; 1; 2; 3; 4; 5; 6; 7; 8; 9; 10; 11; 12].

Definition summaryTask (arrival : time.Time) : Scheduler.Task :=
  Scheduler.mkTask Scheduler.TaskNorthernLineSummary
    (arrival - 15 * time.Minute) false false.

(** A task as [setupDailyTasks] makes it: not executed, and repeating
    exactly when it is an arrival check. *)
Definition freshTask (task : Scheduler.Task) : Prop :=
  Scheduler.Executed task = false
  /\ Scheduler.Repeating task = Scheduler.isArrivalCheck (Scheduler.Typ task).

Definition isLineTask (task : Scheduler.Task) : bool :=
  match Scheduler.Typ task with
  | Scheduler.TaskNorthernLineCheck | Scheduler.TaskNorthernLineSummary => true
  | _ => false
  end.

(** The tasks of the types [types] among [l], in their order. *)
Definition tasksOf (types : list Scheduler.TaskType)
  (l : list Scheduler.Task) : list Scheduler.Task :=
  List.filter
    (fun task =>
       existsb (fun ty => Scheduler.iota ty =? Scheduler.iota (Scheduler.Typ task))
         types) l.

(** A journey of the configuration that can be scheduled: the two
    stations are named and the departure is a clock time. *)
Definition wellFormedJourney (c : config.TrainConfig) : Prop :=
  config.From c <> "" /\ config.To c <> ""
  /\ exists h mi, time.Parse_1504 (config.Departure c) = Ok (h, mi).

(** What a tick of the day may do to a task: the type stays, an
    executed task stays executed, a task that does not repeat does not
    start to, the time does not go back, and only an arrival check is
    moved or stops repeating. *)
Definition taskProgress (old new : Scheduler.Task) : Prop :=
  Scheduler.Typ new = Scheduler.Typ old
  /\ (Scheduler.Executed old = true -> Scheduler.Executed new = true)
  /\ (Scheduler.Repeating old = false -> Scheduler.Repeating new = false)
  /\ Scheduler.Time old <= Scheduler.Time new
  /\ (Scheduler.isArrivalCheck (Scheduler.Typ old) = false ->
      Scheduler.Time new = Scheduler.Time old
      /\ Scheduler.Repeating new = Scheduler.Repeating old).

(** A scheduler of the first of the month with one delay check at the
    instant 0 and one at 07:00. *)
Definition twoChecksScheduler : Scheduler.t :=
  Scheduler.mk (exampleConfig []) TrainMonitor.NewTrainMonitor
    TubeMonitor.NewTubeMonitor
    [Scheduler.mkTask Scheduler.TaskMorningDelayCheck 0 false false;
     Scheduler.mkTask Scheduler.TaskMorningDelayCheck (7 * time.Hour)
       false false] 1 ∅.

(** The journey from [from] to [to] is one of the two of the
    configuration. *)
Definition journeyNamed (c : config.Config) (from to : string) : Prop :=
  (from = config.From (config.MorningTrain c)
   /\ to = config.To (config.MorningTrain c))
  \/ (from = config.From (config.EveningTrain c)
      /\ to = config.To (config.EveningTrain c)).

(** A notification as the program means it: the title and the priority
    of its kind (alerts high, notices normal), about a journey of the
    configuration, a delay alert with a positive delay, no platform left
    empty, and no reason of a cancellation or disruption alert left
    empty.  The reason of a status summary is the fetched one, which may
    be empty: nothing is asked of it. *)
Definition wellFormedNotification (c : config.Config) (n : Notification)
  : Prop :=
  match body n with
  | TrainDelayBody _ from to delayMinutes _ platform =>
      title n = "Train Delay Alert" /\ priority n = notify.PriorityHigh
      /\ journeyNamed c from to /\ 0 < delayMinutes /\ platform <> ""
  | TrainOnTimeBody _ from to _ platform =>
      title n = "Train Status" /\ priority n = notify.PriorityNormal
      /\ journeyNamed c from to /\ platform <> ""
  | TrainArrivalBody _ station _ =>
      title n = "Train Arrival" /\ priority n = notify.PriorityNormal
      /\ exists from, journeyNamed c from station
  | TrainCancellationBody _ from to reason =>
      title n = "Train Cancellation Alert"
      /\ priority n = notify.PriorityHigh
      /\ journeyNamed c from to /\ reason <> ""
  | TubeDisruptionBody _ reason =>
      title n = "Tube Disruption Alert" /\ priority n = notify.PriorityHigh
      /\ reason <> ""
  | TubeStatusBody _ _ =>
      title n = "Northern Line Status" /\ priority n = notify.PriorityNormal
  end.

(** Since [before] was sent, only well-formed notifications were. *)
Definition sentSince (c : config.Config) (before l : list Notification)
  : Prop :=
  exists new, l = (before ++ new)%list /\ Forall (wellFormedNotification c) new.

(** The same as a relation between a receiver and what was sent, for
    a monitor, which it does not look at, and for the scheduler, whose
    configuration is [c]. *)
Definition sentSinceAt {S : Type} (c : config.Config)
  (before : list Notification) : S -> list Notification -> Prop :=
  fun _ l => sentSince c before l.

Definition wellFormedRun (c : config.Config) (before : list Notification)
  : Scheduler.t -> list Notification -> Prop :=
  fun s l => Scheduler.cfg s = c /\ sentSince c before l.

(** The departure of the journey that a task is about, if it is about
    one, is a clock time that [time.Parse] reads. *)
Definition departureParses (c : config.Config) (task : Scheduler.Task)
  : Prop :=
  forall j, Scheduler.journeyOf c (Scheduler.Typ task) = Some j ->
            exists h mi, time.Parse_1504 (config.Departure j) = Ok (h, mi).

(** The configuration is [c] and the departure of every task parses. *)
Definition schedulable (c : config.Config)
  : Scheduler.t -> list Notification -> Prop :=
  fun s _ =>
    Scheduler.cfg s = c /\ Forall (departureParses c) (Scheduler.tasks s).

(** * Properties *)

(** ** Parsing of HHMM strings and the delay computed from them *)

Section HHMM.

Import time strconv TrainMonitor.

Lemma isDigit_digit (c : ascii) : isDigit c = true -> 0 <= digit c <= 9.
Proof.
  unfold isDigit, digit. intros H.
  apply andb_prop in H as [H1 H2]. lia.
Qed.

Lemma length_substring_le (s : string) :
  forall n m, (String.length (substring n m s) <= m)%nat.
Proof.
  induction s as [|c s IH]; intros [|n] [|m]; simpl; try lia.
  - specialize (IH 0%nat m). lia.
  - apply (IH n 0%nat).
  - apply (IH n (Datatypes.S m)).
Qed.

Lemma digits_two_bytes (s : string) (n : Z) :
  (String.length s <= 2)%nat -> digits s 0 = Some n -> 0 <= n <= 99.
Proof.
  destruct s as [|a [|b [|c s]]]; simpl String.length; intros Hlen; try lia;
    simpl.
  - intros H. injection H as <-. lia.
  - destruct (isDigit a) eqn:Ha; [|discriminate].
    apply isDigit_digit in Ha. intros H. injection H as <-. lia.
  - destruct (isDigit a) eqn:Ha; [|discriminate].
    destruct (isDigit b) eqn:Hb; [|discriminate].
    apply isDigit_digit in Ha, Hb. intros H. injection H as <-. lia.
Qed.

(** [Atoi] reads the digits after the sign. *)
Lemma Atoi_Ok (s : string) (v : Z) :
  Atoi s = Ok v ->
  exists body n,
    (String.length body <= String.length s)%nat
    /\ digits body 0 = Some n /\ (v = n \/ v = - n).
Proof.
  unfold Atoi. destruct s as [|c r]; [discriminate|].
  set (neg := Ascii.eqb c "-").
  set (body := if neg || Ascii.eqb c "+" then r else String c r).
  assert (Hlen : (String.length body <= String.length (String c r))%nat)
    by (subst body; destruct (neg || Ascii.eqb c "+"); simpl; lia).
  destruct body as [|b body']; [discriminate|].
  destruct (digits (String b body') 0) as [n|] eqn:Hd; [|discriminate].
  destruct ((minDuration <=? (if neg then - n else n))
            && ((if neg then - n else n) <=? maxDuration)); [|discriminate].
  intros H. injection H as <-.
  exists (String b body'), n. repeat split; trivial.
  destruct neg; auto.
Qed.

(** A field of two bytes read by [Atoi] is between -99 and 99. *)
Lemma Atoi_two_bytes (s : string) (v : Z) :
  (String.length s <= 2)%nat -> Atoi s = Ok v -> -99 <= v <= 99.
Proof.
  intros Hlen H. apply Atoi_Ok in H as (body & n & Hb & Hd & Hv).
  apply digits_two_bytes in Hd; lia.
Qed.

(** What a successful [parseHHMM] has read. *)
Lemma parseHHMM_Ok (s : string) (t : Time) :
  parseHHMM s = Ok t ->
  exists h m,
    (4 <= String.length (strings.removeColons s))%nat
    /\ Atoi (substring 0 2 (strings.removeColons s)) = Ok h
    /\ Atoi (substring 2 2 (strings.removeColons s)) = Ok m
    /\ -99 <= h <= 99 /\ -99 <= m <= 99
    /\ t = h * Hour + m * Minute.
Proof.
  unfold parseHHMM. set (s' := strings.removeColons s).
  destruct (Z.ltb_spec (Z.of_nat (String.length s')) 4) as [|Hlen];
    [discriminate|].
  destruct (Atoi (substring 0 2 s')) as [h|] eqn:Hh; [|discriminate].
  destruct (Atoi (substring 2 2 s')) as [m|] eqn:Hm; [|discriminate].
  intros H. injection H as <-. exists h, m.
  pose proof (Atoi_two_bytes _ _ (length_substring_le s' 0 2) Hh).
  pose proof (Atoi_two_bytes _ _ (length_substring_le s' 2 2) Hm).
  unfold Date_0_1_1_UTC. repeat split; lia.
Qed.

(** When [parseHHMM] fails: fewer than four bytes once the colons are
    removed, or an hour or a minute field that [Atoi] refuses. *)
Lemma parseHHMM_Err (s : string) (e : error) :
  parseHHMM s = Err e ->
  (String.length (strings.removeColons s) < 4)%nat
  \/ Atoi (substring 0 2 (strings.removeColons s)) = Err e
  \/ Atoi (substring 2 2 (strings.removeColons s)) = Err e.
Proof.
  unfold parseHHMM. set (s' := strings.removeColons s).
  destruct (Z.ltb_spec (Z.of_nat (String.length s')) 4) as [Hlen|Hlen].
  - intros _. left. lia.
  - destruct (Atoi (substring 0 2 s')) as [h|e1] eqn:Hh.
    + destruct (Atoi (substring 2 2 s')) as [m|e2] eqn:Hm; [discriminate|].
      intros H. injection H as <-. auto.
    + intros H. injection H as <-. auto.
Qed.

Lemma Sub_small (t u : Time) :
  minDuration <= t - u <= maxDuration -> Sub t u = t - u.
Proof.
  unfold Sub. intros H.
  destruct (Z.ltb_spec (t - u) minDuration); [lia|].
  destruct (Z.ltb_spec maxDuration (t - u)); [lia|]. reflexivity.
Qed.

Lemma calculateDelay_parsed (scheduled actual : string) (ts ta : Time) :
  parseHHMM scheduled = Ok ts ->
  parseHHMM actual = Ok ta ->
  exists k, ta - ts = k * Minute /\ calculateDelay scheduled actual = Z.max 0 k.
Proof.
  intros Hs Ha. unfold calculateDelay. rewrite Hs, Ha.
  apply parseHHMM_Ok in Hs as (hs & ms & _ & _ & _ & Hhs & Hms & ->).
  apply parseHHMM_Ok in Ha as (ha & ma & _ & _ & _ & Hha & Hma & ->).
  exists (60 * (ha - hs) + (ma - ms)).
  assert (Hd : ha * Hour + ma * Minute - (hs * Hour + ms * Minute)
               = (60 * (ha - hs) + (ma - ms)) * Minute)
    by (unfold Hour; ring).
  split; [exact Hd|].
  rewrite Sub_small; rewrite Hd.
  2:{ unfold minDuration, maxDuration, Minute, Second. lia. }
  destruct (Z.ltb_spec ((60 * (ha - hs) + (ma - ms)) * Minute) 0) as [Hn|Hn].
  - unfold Minute, Second in Hn. lia.
  - unfold Minutes_int. rewrite Z.quot_mul by (unfold Minute, Second; lia).
    unfold Minute, Second in Hn. lia.
Qed.

End HHMM.

(** ** Running a method: the steps of the monad *)

Ltac run :=
  cbv [bind ret get put modify zoom logEntry time_Now Search GetService
       GetNorthernLineStatus SendMessage value state effects
       notify.SendWithPriority notify.Send notify.SendTrainDelay
       notify.SendTrainOnTime notify.SendTrainArrival
       notify.SendTrainCancellation notify.SendTubeDisruption
       notify.SendTubeStatus] in *;
  cbn [fst snd calls sent logged] in *.

Section DelayValue.

Import time strconv TrainMonitor.

Lemma malformedHHMM_iff (s : string) :
  malformedHHMM s <-> exists e, parseHHMM s = Err e.
Proof.
  unfold malformedHHMM, parseHHMM. set (s' := strings.removeColons s).
  destruct (Z.ltb_spec (Z.of_nat (String.length s')) 4) as [Hlen|Hlen].
  - split; [eauto|]. intros _. left. lia.
  - destruct (Atoi (substring 0 2 s')) as [h|e1].
    + destruct (Atoi (substring 2 2 s')) as [m|e2].
      * split; [|intros [e He]; discriminate].
        intros [H|[[e H]|[e H]]]; [lia|discriminate|discriminate].
      * split; eauto.
    + split; eauto.
Qed.

Lemma calculateDelay_malformed (scheduled actual : string) :
  malformedHHMM scheduled \/ malformedHHMM actual ->
  calculateDelay scheduled actual = 0.
Proof.
  rewrite !malformedHHMM_iff. unfold calculateDelay.
  intros [[e H]|[e H]]; rewrite H; [reflexivity|].
  destruct (parseHHMM scheduled); reflexivity.
Qed.

(** A service that is not cancelled and whose delay is zero: nothing is
    remembered, and the only notification is the on-time notice of the
    always-notify mode. *)
Lemma processService_no_delay (W : World) (svc : rtt.Service)
  (from to : string) (alwaysNotify : bool) (m : TrainMonitor.t) (e : Eff) :
  cancelled svc = false ->
  calculateDelay (rtt.GbttBookedDeparture (rtt.locationDetail svc))
    (rtt.RealtimeDeparture (rtt.locationDetail svc)) = 0 ->
  let r := processService W svc from to alwaysNotify m e in
  state r = m
  /\ sent (effects r)
     = (sent e ++ if alwaysNotify then [onTimeNotice svc from to] else [])%list.
Proof.
  intros Hc Hd. unfold processService, cancelled in *. rewrite Hc, Hd.
  match goal with
  | |- context [if ?c then 0 else 0] => replace (if c then 0 else 0) with 0
      by (destruct c; reflexivity)
  end.
  cbn [Z.ltb Z.compare]. destruct alwaysNotify; run.
  - destruct (pushover_SendMessage W _ _); cbn; auto.
  - rewrite app_nil_r. auto.
Qed.

Lemma delaysSent_app (uid : string) (l1 l2 : list Notification) :
  delaysSent uid (l1 ++ l2) = (delaysSent uid l1 ++ delaysSent uid l2)%list.
Proof. apply omap_app. Qed.

Example delay_0720_0735 : calculateDelay "0720" "0735" = 15.
Proof. reflexivity. Qed.

Example delay_past_midnight : calculateDelay "2350" "0005" = 0.
Proof. reflexivity. Qed.

(** C9: when the scheduled and the realtime departure both parse as
    HHMM times, the delay computed is the realtime time minus the scheduled
    time, a whole number [k] of minutes, floored at zero: it is [max 0 k],
    never negative, and 0 when the realtime time is before the scheduled
    one. *)
Theorem calculateDelay_floored_difference
  (scheduled actual : string) (ts ta : time.Time) :
  parseHHMM scheduled = Ok ts ->
  parseHHMM actual = Ok ta ->
  (exists k, ta - ts = k * Minute
             /\ calculateDelay scheduled actual = Z.max 0 k)
  /\ 0 <= calculateDelay scheduled actual
  /\ (ta < ts -> calculateDelay scheduled actual = 0).
Proof.
  intros Hs Ha.
  destruct (calculateDelay_parsed _ _ _ _ Hs Ha) as (k & Hk & Hd).
  split; [eauto|]. split; [lia|].
  intros Hlt. rewrite Hd.
  assert (k * Minute < 0) by lia.
  unfold Minute, Second in *. lia.
Qed.

Lemma calculateDelay_floored_difference_witness :
  parseHHMM "2350" = Ok (23 * Hour + 50 * Minute)
  /\ parseHHMM "00:05" = Ok (5 * Minute)
  /\ ((exists k, 5 * Minute - (23 * Hour + 50 * Minute) = k * Minute
                 /\ calculateDelay "2350" "00:05" = Z.max 0 k)
      /\ 0 <= calculateDelay "2350" "00:05"
      /\ (5 * Minute < 23 * Hour + 50 * Minute
          -> calculateDelay "2350" "00:05" = 0)).
Proof.
  split; [reflexivity|]. split; [reflexivity|].
  apply (calculateDelay_floored_difference "2350" "00:05"); reflexivity.
Defined.

(** C10: when the scheduled or the realtime departure string cannot
    be read by [parseHHMM] (fewer than four bytes after the colons are
    removed, or an hour or minute field that is no number),
    [calculateDelay] returns 0 and no error; a service that is not
    cancelled then leaves the memory as it is and causes no delay alert:
    nothing is sent in gated mode, the on-time notice in always-notify
    mode. *)
Theorem calculateDelay_malformed_is_zero (scheduled actual : string) :
  malformedHHMM scheduled \/ malformedHHMM actual ->
  calculateDelay scheduled actual = 0
  /\ forall (W : World) (svc : rtt.Service) (from to : string)
        (alwaysNotify : bool) (m : TrainMonitor.t) (e : Eff),
      rtt.GbttBookedDeparture (rtt.locationDetail svc) = scheduled ->
      rtt.RealtimeDeparture (rtt.locationDetail svc) = actual ->
      cancelled svc = false ->
      let r := processService W svc from to alwaysNotify m e in
      state r = m
      /\ sent (effects r)
         = (sent e ++ if alwaysNotify then [onTimeNotice svc from to] else [])%list
      /\ forall uid, delaysSent uid (sent (effects r)) = delaysSent uid (sent e).
Proof.
  intros H. pose proof (calculateDelay_malformed _ _ H) as Hz.
  split; [exact Hz|].
  intros W svc from to alwaysNotify m e <- <- Hc r.
  destruct (processService_no_delay W svc from to alwaysNotify m e Hc Hz)
    as [Hst Hsent].
  fold r in Hst, Hsent. repeat split; trivial.
  intros uid. rewrite Hsent, delaysSent_app.
  destruct alwaysNotify; cbn; rewrite app_nil_r; reflexivity.
Qed.

Lemma calculateDelay_malformed_is_zero_witness :
  (malformedHHMM "0720" \/ malformedHHMM "7:3")
  /\ (calculateDelay "0720" "7:3" = 0
      /\ forall (W : World) (svc : rtt.Service) (from to : string)
            (alwaysNotify : bool) (m : TrainMonitor.t) (e : Eff),
          rtt.GbttBookedDeparture (rtt.locationDetail svc) = "0720" ->
          rtt.RealtimeDeparture (rtt.locationDetail svc) = "7:3" ->
          cancelled svc = false ->
          let r := processService W svc from to alwaysNotify m e in
          state r = m
          /\ sent (effects r)
             = (sent e
                ++ if alwaysNotify then [onTimeNotice svc from to] else [])%list
          /\ forall uid,
              delaysSent uid (sent (effects r)) = delaysSent uid (sent e)).
Proof.
  assert (H : malformedHHMM "0720" \/ malformedHHMM "7:3")
    by (right; left; cbn; lia).
  split; [exact H|].
  exact (calculateDelay_malformed_is_zero "0720" "7:3" H).
Defined.

End DelayValue.

(** ** Invariants of a method *)

Section Keeps.

Context (W : World) {S : Type} (I : S -> list Notification -> Prop).

Lemma keeps_ret {A} (a : A) : keeps I (ret a).
Proof. intros s e H. exact H. Qed.

Lemma keeps_bind {A B} (m : M S A) (k : A -> M S B) :
  keeps I m -> (forall a, keeps I (k a)) -> keeps I (bind m k).
Proof.
  intros Hm Hk s e H. unfold bind.
  specialize (Hm s e H). destruct (m s e) as [[a s'] e'].
  apply Hk, Hm.
Qed.

Lemma keeps_get : keeps I get.
Proof. intros s e H. exact H. Qed.

Lemma keeps_modify (f : S -> S) :
  (forall s l, I s l -> I (f s) l) -> keeps I (modify f).
Proof. intros Hf s e H. apply Hf, H. Qed.

Lemma keeps_put (s' : S) :
  (forall s l, I s l -> I s' l) -> keeps I (put s').
Proof. intros Hf s e H. exact (Hf s _ H). Qed.

Lemma keeps_logEntry (l : Level) (msg : string) (fs : list (string * Field)) :
  keeps I (logEntry l msg fs).
Proof. intros s e H. exact H. Qed.

Lemma keeps_time_Now : keeps I (time_Now W).
Proof. intros s e H. exact H. Qed.

Lemma keeps_Search (from to : string) (t : time.Time) :
  keeps I (Search W from to t).
Proof. intros s e H. exact H. Qed.

Lemma keeps_GetService (uid : string) (t : time.Time) :
  keeps I (GetService W uid t).
Proof. intros s e H. exact H. Qed.

Lemma keeps_GetNorthernLineStatus : keeps I (GetNorthernLineStatus W).
Proof. intros s e H. exact H. Qed.

Lemma keeps_SendWithPriority (title : string) (msg : Body) (prio : Z) :
  (forall s l, I s l -> I s (l ++ [mkNotification title msg prio])%list) ->
  keeps I (notify.SendWithPriority W title msg prio).
Proof.
  intros Hn s e H. unfold notify.SendWithPriority. run.
  destruct (pushover_SendMessage W _ _); cbn; apply Hn, H.
Qed.

Lemma keeps_parseTimeToday (timeStr : string) :
  keeps I (TrainMonitor.parseTimeToday W timeStr).
Proof.
  unfold TrainMonitor.parseTimeToday.
  destruct (time.Parse_1504 timeStr) as [[h m]|err].
  - apply keeps_bind; [apply keeps_time_Now|]. intros; apply keeps_ret.
  - apply keeps_ret.
Qed.

End Keeps.

(** One step of a proof that a method keeps an invariant. *)
Ltac keeps_step :=
  match goal with
  | |- keeps _ (bind _ _) => apply keeps_bind; [|intros ?]
  | |- keeps _ (ret _) => apply keeps_ret
  | |- keeps _ get => apply keeps_get
  | |- keeps _ (logEntry _ _ _) => apply keeps_logEntry
  | |- keeps _ (time_Now _) => apply keeps_time_Now
  | |- keeps _ (Search _ _ _ _) => apply keeps_Search
  | |- keeps _ (GetService _ _ _) => apply keeps_GetService
  | |- keeps _ (GetNorthernLineStatus _) => apply keeps_GetNorthernLineStatus
  | |- keeps _ (TrainMonitor.parseTimeToday _ _) => apply keeps_parseTimeToday
  | |- keeps _ (match ?x with _ => _ end) => destruct x
  end.

(** ** The journey monitor: delays *)

Section JourneyDelays.

Import TrainMonitor.
Context (W : World).

Lemma lastBucketOf_insert (m : t) (uid uid' : string) (b : Z) :
  lastBucketOf (mk (<[uid := b]> (notifiedDelays m)) (notifiedCancels m)) uid'
  = if decide (uid = uid') then b else lastBucketOf m uid'.
Proof.
  unfold lastBucketOf. cbn [notifiedDelays].
  rewrite lookup_insert. destruct (decide (uid = uid')); reflexivity.
Qed.

(** The decision of [handleDelay], its two outcomes. *)
Lemma handleDelay_notifies (svc : rtt.Service) (from to : string)
  (d : Z) (m : t) (e : Eff) :
  lastBucketOf m (rtt.ServiceUid svc) < delayBucket d ->
  let r := handleDelay W svc from to d m e in
  state r = mk (<[rtt.ServiceUid svc := delayBucket d]> (notifiedDelays m))
              (notifiedCancels m)
  /\ sent (effects r) = (sent e ++ [delayAlert svc from to d])%list.
Proof.
  intros Hlt. unfold handleDelay. run.
  destruct (Z.ltb_spec (lastBucketOf m (rtt.ServiceUid svc)) (delayBucket d));
    [|lia].
  cbn. destruct (pushover_SendMessage W _ _); cbn; auto.
Qed.

Lemma handleDelay_suppresses (svc : rtt.Service) (from to : string)
  (d : Z) (m : t) (e : Eff) :
  delayBucket d <= lastBucketOf m (rtt.ServiceUid svc) ->
  let r := handleDelay W svc from to d m e in
  value r = None /\ state r = m /\ sent (effects r) = sent e.
Proof.
  intros Hle. unfold handleDelay. run.
  destruct (Z.ltb_spec (lastBucketOf m (rtt.ServiceUid svc)) (delayBucket d));
    [lia|].
  cbn. auto.
Qed.

(** The stored mark of no service ever goes down in [handleDelay]. *)
Lemma handleDelay_mark_monotone (svc : rtt.Service) (from to : string)
  (d : Z) (m : t) (e : Eff) (uid : string) :
  lastBucketOf m uid
  <= lastBucketOf (state (handleDelay W svc from to d m e)) uid.
Proof.
  destruct (Z.lt_ge_cases (lastBucketOf m (rtt.ServiceUid svc)) (delayBucket d))
    as [Hlt|Hge].
  - destruct (handleDelay_notifies svc from to d m e Hlt) as [-> _].
    rewrite lastBucketOf_insert. destruct (decide _) as [<-|]; lia.
  - destruct (handleDelay_suppresses svc from to d m e Hge) as (_ & -> & _).
    lia.
Qed.

Lemma delaysSent_delayAlert (uid : string) (svc : rtt.Service)
  (from to : string) (d : Z) :
  delaysSent uid [delayAlert svc from to d]
  = if (rtt.ServiceUid svc =? uid)%string then [d] else [].
Proof.
  unfold delaysSent, delayAlert. cbn.
  destruct (rtt.ServiceUid svc =? uid)%string; reflexivity.
Qed.

Lemma bucketsSent_app (uid : string) (l1 l2 : list Notification) :
  bucketsSent uid (l1 ++ l2) = (bucketsSent uid l1 ++ bucketsSent uid l2)%list.
Proof. unfold bucketsSent. rewrite delaysSent_app. apply map_app. Qed.

Lemma StronglySorted_snoc (l : list Z) (b : Z) :
  StronglySorted Z.lt l -> Forall (fun x => x < b) l ->
  StronglySorted Z.lt (l ++ [b]).
Proof.
  induction 1 as [|x l Hs IH Hx]; intros Hb; cbn.
  - repeat constructor.
  - inversion Hb; subst. constructor; [auto|].
    apply Forall_app; split; [exact Hx|]. repeat constructor. assumption.
Qed.

Lemma handleDelay_keeps_delayInv (svc : rtt.Service) (from to : string)
  (d : Z) :
  keeps delayInv (handleDelay W svc from to d).
Proof.
  intros m e Hinv.
  destruct (Z.lt_ge_cases (lastBucketOf m (rtt.ServiceUid svc)) (delayBucket d))
    as [Hlt|Hge].
  - destruct (handleDelay_notifies svc from to d m e Hlt) as [-> ->].
    pose proof (Hinv (rtt.ServiceUid svc)) as (Hpos & _ & _).
    intros uid. destruct (Hinv uid) as (H0 & Hs & Hf).
    rewrite bucketsSent_app. unfold bucketsSent at 2 4.
    rewrite delaysSent_delayAlert, lastBucketOf_insert.
    destruct (String.eqb_spec (rtt.ServiceUid svc) uid) as [Heq|Hne].
    + destruct (decide _) as [_|]; [|contradiction].
      subst uid. split; [lia|]. split.
      * apply StronglySorted_snoc; [exact Hs|].
        eapply Forall_impl; [exact Hf|]. cbn. intros; lia.
      * apply Forall_app; split.
        -- eapply Forall_impl; [exact Hf|]. cbn. intros; lia.
        -- repeat constructor; lia.
    + destruct (decide _) as [|_]; [contradiction|].
      cbn [map]. rewrite app_nil_r. auto.
  - destruct (handleDelay_suppresses svc from to d m e Hge) as (_ & -> & ->).
    exact Hinv.
Qed.

End JourneyDelays.

(** ** The journey monitor: cancellations and [processService] *)

Section JourneyService.

Import TrainMonitor.
Context (W : World).

Lemma cancelNotified_insert (m : t) (uid uid' : string) :
  cancelNotified (mk (notifiedDelays m) (<[uid := true]> (notifiedCancels m)))
    uid'
  = (uid =? uid')%string || cancelNotified m uid'.
Proof.
  unfold cancelNotified. cbn [notifiedCancels].
  rewrite lookup_insert.
  destruct (decide (uid = uid')) as [->|Hne].
  - rewrite String.eqb_refl. reflexivity.
  - apply String.eqb_neq in Hne. rewrite Hne. reflexivity.
Qed.

(** The first cancelled observation of a service: the latch is set and
    the alert goes out. *)
Lemma handleCancellation_first (svc : rtt.Service) (from to : string)
  (m : t) (e : Eff) :
  cancelNotified m (rtt.ServiceUid svc) = false ->
  let r := handleCancellation W svc from to m e in
  state r = mk (notifiedDelays m)
              (<[rtt.ServiceUid svc := true]> (notifiedCancels m))
  /\ sent (effects r) = (sent e ++ [cancellationAlert svc from to])%list.
Proof.
  intros Hc. unfold handleCancellation. run. rewrite Hc. cbn.
  destruct (pushover_SendMessage W _ _); cbn; auto.
Qed.

(** Every later one: nothing happens, not even a log line. *)
Lemma handleCancellation_again (svc : rtt.Service) (from to : string)
  (m : t) (e : Eff) :
  cancelNotified m (rtt.ServiceUid svc) = true ->
  handleCancellation W svc from to m e = (None, m, e).
Proof.
  intros Hc. unfold handleCancellation. run. rewrite Hc. reflexivity.
Qed.

(** What [processService] does, by cases. *)
Lemma processService_cases (svc : rtt.Service) (from to : string)
  (always : bool) (m : t) (e : Eff) :
  let r := processService W svc from to always m e in
  (cancelled svc = true /\ r = handleCancellation W svc from to m e)
  \/ (cancelled svc = false /\ always = false
      /\ exists d, 0 < d /\ r = handleDelay W svc from to d m e)
  \/ (cancelled svc = false /\ always = false
      /\ state r = m /\ sent (effects r) = sent e)
  \/ (cancelled svc = false /\ always = true /\ state r = m
      /\ ((exists d, 0 < d
             /\ sent (effects r) = (sent e ++ [delayAlert svc from to d])%list)
          \/ sent (effects r) = (sent e ++ [onTimeNotice svc from to])%list)).
Proof.
  unfold processService, cancelled.
  destruct ((rtt.DisplayAs (rtt.locationDetail svc) =? "CANCELLED_CALL")%string
            || (rtt.DisplayAs (rtt.locationDetail svc) =? "CANCELLED")%string);
    [left; auto|right].
  match goal with
  | |- context [0 <? ?d] => set (delay := d); destruct (Z.ltb_spec 0 delay)
  end.
  - destruct always.
    + right; right. repeat split; trivial; run;
        destruct (pushover_SendMessage W _ _); cbn; eauto.
    + left. eauto.
  - destruct always.
    + right; right. repeat split; trivial; run;
        destruct (pushover_SendMessage W _ _); cbn; eauto.
    + right; left. repeat split; trivial.
Qed.

Section KeepsService.

Context (I : t -> list Notification -> Prop).

Lemma keeps_processService (svc : rtt.Service) (from to : string)
  (always : bool) :
  keeps I (handleCancellation W svc from to) ->
  (forall d, keeps I (handleDelay W svc from to d)) ->
  (forall m l d, I m l -> I m (l ++ [delayAlert svc from to d])%list) ->
  (forall m l, I m l -> I m (l ++ [onTimeNotice svc from to])%list) ->
  keeps I (processService W svc from to always).
Proof.
  intros Hc Hd Ha Ho m e H.
  destruct (processService_cases svc from to always m e)
    as [[_ ->]|[(_ & _ & d & _ & ->)|[(_ & _ & -> & ->)|
          (_ & _ & -> & [(d & _ & ->)| ->])]]];
    [apply Hc, H|apply Hd, H|exact H|apply Ha, H|apply Ho, H].
Qed.

Lemma keeps_gated_processService (svc : rtt.Service) (from to : string) :
  keeps I (handleCancellation W svc from to) ->
  (forall d, keeps I (handleDelay W svc from to d)) ->
  keeps I (processService W svc from to false).
Proof.
  intros Hc Hd m e H.
  destruct (processService_cases svc from to false m e)
    as [[_ ->]|[(_ & _ & d & _ & ->)|[(_ & _ & -> & ->)|
          (_ & ? & _)]]];
    [apply Hc, H|apply Hd, H|exact H|discriminate].
Qed.

Lemma keeps_observe (obs : list Observation) :
  (forall o, In o obs ->
             keeps I (processService W (service o) (from o) (to o)
                        (alwaysNotify o))) ->
  keeps I (observe W obs).
Proof.
  induction obs as [|o obs IH]; intros H; cbn [observe].
  - apply keeps_ret.
  - apply keeps_bind; [apply H; left; reflexivity|].
    intros _. apply IH. intros o' Ho'. apply H. right. exact Ho'.
Qed.

(** The three checks keep what [processService] and the arrival notice
    keep. *)
Lemma keeps_CheckDelay (from to departureTime : string) :
  (forall svc, keeps I (processService W svc from to false)) ->
  keeps I (CheckDelay W from to departureTime).
Proof. intros H. unfold CheckDelay. repeat keeps_step; apply H. Qed.

Lemma keeps_CheckStatus (from to departureTime : string) :
  (forall svc, keeps I (processService W svc from to true)) ->
  keeps I (CheckStatus W from to departureTime).
Proof. intros H. unfold CheckStatus. repeat keeps_step; apply H. Qed.

Lemma keeps_CheckArrival (from to departureTime : string) :
  (forall m l n, (exists uid t, body n = TrainArrivalBody uid to t) ->
                 I m l -> I m (l ++ [n])%list) ->
  keeps I (CheckArrival W from to departureTime).
Proof.
  intros H. unfold CheckArrival. repeat keeps_step.
  unfold notify.SendTrainArrival, notify.Send.
  apply keeps_SendWithPriority. intros m l. apply H. cbn. eauto.
Qed.

End KeepsService.

End JourneyService.

(** ** The journey monitor over a run of observations *)

Section JourneyRuns.

Import TrainMonitor.
Context (W : World).

Lemma handleDelay_cancels (svc : rtt.Service) (from to : string) (d : Z)
  (m : t) (e : Eff) :
  notifiedCancels (state (handleDelay W svc from to d m e)) = notifiedCancels m.
Proof.
  destruct (Z.lt_ge_cases (lastBucketOf m (rtt.ServiceUid svc)) (delayBucket d))
    as [Hlt|Hge].
  - destruct (handleDelay_notifies W svc from to d m e Hlt) as [-> _].
    reflexivity.
  - destruct (handleDelay_suppresses W svc from to d m e Hge) as (_ & -> & _).
    reflexivity.
Qed.

Lemma handleCancellation_delays (svc : rtt.Service) (from to : string)
  (m : t) (e : Eff) :
  notifiedDelays (state (handleCancellation W svc from to m e))
  = notifiedDelays m.
Proof.
  destruct (cancelNotified m (rtt.ServiceUid svc)) eqn:Hc.
  - rewrite handleCancellation_again by exact Hc. reflexivity.
  - destruct (handleCancellation_first W svc from to m e Hc) as [-> _].
    reflexivity.
Qed.

Lemma handleCancellation_sent (svc : rtt.Service) (from to : string)
  (m : t) (e : Eff) :
  sent (effects (handleCancellation W svc from to m e))
  = (sent e ++ if cancelNotified m (rtt.ServiceUid svc) then []
               else [cancellationAlert svc from to])%list.
Proof.
  destruct (cancelNotified m (rtt.ServiceUid svc)) eqn:Hc.
  - rewrite handleCancellation_again by exact Hc. cbn.
    rewrite app_nil_r. reflexivity.
  - destruct (handleCancellation_first W svc from to m e Hc) as [_ ->].
    reflexivity.
Qed.

Lemma handleCancellation_latch (svc : rtt.Service) (from to : string)
  (m : t) (e : Eff) (uid : string) :
  cancelNotified (state (handleCancellation W svc from to m e)) uid
  = cancelNotified m uid || (rtt.ServiceUid svc =? uid)%string.
Proof.
  destruct (cancelNotified m (rtt.ServiceUid svc)) eqn:Hc.
  - rewrite handleCancellation_again by exact Hc. cbn.
    destruct (String.eqb_spec (rtt.ServiceUid svc) uid) as [<-|_].
    + rewrite Hc. reflexivity.
    + rewrite orb_false_r. reflexivity.
  - destruct (handleCancellation_first W svc from to m e Hc) as [-> _].
    rewrite cancelNotified_insert. apply orb_comm.
Qed.

Lemma cancelNotified_ext (m m' : t) (uid : string) :
  notifiedCancels m' = notifiedCancels m ->
  cancelNotified m' uid = cancelNotified m uid.
Proof. unfold cancelNotified. intros ->. reflexivity. Qed.

Lemma lastBucketOf_ext (m m' : t) (uid : string) :
  notifiedDelays m' = notifiedDelays m ->
  lastBucketOf m' uid = lastBucketOf m uid.
Proof. unfold lastBucketOf. intros ->. reflexivity. Qed.

(** The latch after one observation: set before, or set by it. *)
Lemma processService_latch (svc : rtt.Service) (from to : string)
  (always : bool) (m : t) (e : Eff) (uid : string) :
  cancelNotified (state (processService W svc from to always m e)) uid
  = cancelNotified m uid || (cancelled svc && (rtt.ServiceUid svc =? uid)%string).
Proof.
  destruct (processService_cases W svc from to always m e)
    as [[-> ->]|[(-> & _ & d & _ & ->)|[(-> & _ & -> & _)|(-> & _ & -> & _)]]];
    cbn [andb]; rewrite ?orb_false_r; trivial.
  - apply handleCancellation_latch.
  - apply cancelNotified_ext, handleDelay_cancels.
Qed.

Lemma observe_latch (obs : list Observation) (m : t) (e : Eff) (uid : string) :
  cancelNotified (state (observe W obs m e)) uid
  = cancelNotified m uid
    || existsb (fun o => cancelled (service o)
                         && (rtt.ServiceUid (service o) =? uid)%string) obs.
Proof.
  revert m e. induction obs as [|o obs IH]; intros m e; cbn [observe existsb].
  - cbn. rewrite orb_false_r. reflexivity.
  - unfold bind.
    pose proof (processService_latch (service o) (from o) (to o)
                  (alwaysNotify o) m e uid) as H.
    destruct (processService W (service o) (from o) (to o) (alwaysNotify o) m e)
      as [[a m'] e'].
    rewrite IH. cbn in H. rewrite H. rewrite orb_assoc. reflexivity.
Qed.

Lemma cancellationsSent_app (uid : string) (l1 l2 : list Notification) :
  cancellationsSent uid (l1 ++ l2)
  = (cancellationsSent uid l1 ++ cancellationsSent uid l2)%list.
Proof. apply List.filter_app. Qed.

Lemma cancelInv_delayAlert (svc : rtt.Service) (from to : string)
  (m : t) (l : list Notification) (d : Z) :
  cancelInv m l -> cancelInv m (l ++ [delayAlert svc from to d]).
Proof.
  intros H uid. rewrite cancellationsSent_app. cbn.
  rewrite app_nil_r. apply H.
Qed.

Lemma cancelInv_onTimeNotice (svc : rtt.Service) (from to : string)
  (m : t) (l : list Notification) :
  cancelInv m l -> cancelInv m (l ++ [onTimeNotice svc from to]).
Proof.
  intros H uid. rewrite cancellationsSent_app. cbn.
  rewrite app_nil_r. apply H.
Qed.

Lemma handleCancellation_keeps_cancelInv (svc : rtt.Service)
  (from to : string) :
  keeps cancelInv (handleCancellation W svc from to).
Proof.
  intros m e H uid.
  rewrite handleCancellation_latch, handleCancellation_sent.
  rewrite cancellationsSent_app, length_app, (H uid).
  destruct (cancelNotified m (rtt.ServiceUid svc)) eqn:Hc; cbn.
  - destruct (String.eqb_spec (rtt.ServiceUid svc) uid) as [<-|_].
    + rewrite Hc. reflexivity.
    + rewrite orb_false_r. lia.
  - destruct (String.eqb_spec (rtt.ServiceUid svc) uid) as [<-|_]; cbn.
    + rewrite Hc. reflexivity.
    + rewrite orb_false_r. lia.
Qed.

Lemma handleDelay_keeps_cancelInv (svc : rtt.Service) (from to : string)
  (d : Z) :
  keeps cancelInv (handleDelay W svc from to d).
Proof.
  intros m e H uid.
  rewrite (cancelNotified_ext m _ uid (handleDelay_cancels svc from to d m e)).
  destruct (Z.lt_ge_cases (lastBucketOf m (rtt.ServiceUid svc)) (delayBucket d))
    as [Hlt|Hge].
  - destruct (handleDelay_notifies W svc from to d m e Hlt) as [_ ->].
    apply cancelInv_delayAlert, H.
  - destruct (handleDelay_suppresses W svc from to d m e Hge) as (_ & _ & ->).
    apply H.
Qed.

Lemma processService_keeps_cancelInv (svc : rtt.Service) (from to : string)
  (always : bool) :
  keeps cancelInv (processService W svc from to always).
Proof.
  apply keeps_processService.
  - apply handleCancellation_keeps_cancelInv.
  - apply handleDelay_keeps_cancelInv.
  - intros m l d. apply cancelInv_delayAlert.
  - intros m l. apply cancelInv_onTimeNotice.
Qed.

Lemma delayInv_cancellationAlert (svc : rtt.Service) (from to : string)
  (m : t) (l : list Notification) :
  delayInv m l -> delayInv m (l ++ [cancellationAlert svc from to]).
Proof.
  intros H uid. rewrite bucketsSent_app. cbn. rewrite app_nil_r. apply H.
Qed.

Lemma delayInv_ext (m m' : t) (l : list Notification) :
  notifiedDelays m' = notifiedDelays m -> delayInv m l -> delayInv m' l.
Proof.
  intros Heq H uid. rewrite (lastBucketOf_ext m m' uid Heq). apply H.
Qed.

Lemma handleCancellation_keeps_delayInv (svc : rtt.Service)
  (from to : string) :
  keeps delayInv (handleCancellation W svc from to).
Proof.
  intros m e H.
  apply (delayInv_ext m); [apply handleCancellation_delays|].
  rewrite handleCancellation_sent.
  destruct (cancelNotified m (rtt.ServiceUid svc)).
  - rewrite app_nil_r. exact H.
  - apply delayInv_cancellationAlert, H.
Qed.

Lemma gated_processService_keeps_delayInv (svc : rtt.Service)
  (from to : string) :
  keeps delayInv (processService W svc from to false).
Proof.
  apply keeps_gated_processService.
  - apply handleCancellation_keeps_delayInv.
  - intros d. apply handleDelay_keeps_delayInv.
Qed.

Lemma delayInv_fresh : delayInv NewTrainMonitor [].
Proof.
  intros uid. cbn. unfold lastBucketOf. cbn. rewrite lookup_empty. cbn.
  repeat split; [lia|constructor|constructor].
Qed.

Lemma cancelInv_fresh : cancelInv NewTrainMonitor [].
Proof.
  intros uid. unfold cancelNotified. cbn. rewrite lookup_empty. reflexivity.
Qed.

(** A mark reached is kept by every gated observation. *)
Lemma gated_processService_keeps_mark (uid : string) (b : Z)
  (svc : rtt.Service) (from to : string) :
  keeps (fun m _ => b <= lastBucketOf m uid)
    (processService W svc from to false).
Proof.
  apply keeps_gated_processService.
  - intros m e H.
    rewrite (lastBucketOf_ext m _ uid (handleCancellation_delays svc from to m e)).
    exact H.
  - intros d m e H.
    pose proof (handleDelay_mark_monotone W svc from to d m e uid). lia.
Qed.

Lemma In_map_gated (o : Observation)
  (obs : list (rtt.Service * string * string)) :
  In o (map gated obs) -> alwaysNotify o = false.
Proof.
  rewrite in_map_iff. intros ([[svc from] to] & <- & _). reflexivity.
Qed.

Lemma keeps_gated_observe (I : t -> list Notification -> Prop)
  (obs : list (rtt.Service * string * string)) :
  (forall svc from to, keeps I (processService W svc from to false)) ->
  keeps I (observe W (map gated obs)).
Proof.
  intros H. apply keeps_observe. intros o Ho.
  rewrite (In_map_gated o obs Ho). apply H.
Qed.

End JourneyRuns.

(** ** Gated delay alerts *)

Section GatedDelays.

Import TrainMonitor.

Example buckets_of_the_spec :
  delayBucket 15 = 15 /\ delayBucket 18 = 15 /\ delayBucket 21 = 20
  /\ delayBucket 4 = 0.
Proof. repeat split. Qed.

Lemma delayBucket_nonpos (d : Z) : d <= 0 -> delayBucket d <= 0.
Proof.
  intros H. unfold delayBucket.
  assert (H0 : Z.quot d 5 <= Z.quot 0 5) by (apply Z.quot_le_mono; lia).
  change (Z.quot 0 5) with 0 in H0. lia.
Qed.

(** A gated check of a service that is not cancelled, on a memory whose
    mark for the service is not negative: the alert goes out exactly for
    a bucket above the mark. *)
Lemma processService_gated_decision (W : World) (svc : rtt.Service)
  (from to : string) (m : t) (e : Eff) :
  cancelled svc = false ->
  0 <= lastBucketOf m (rtt.ServiceUid svc) ->
  let r := processService W svc from to false m e in
  let d := observedDelay svc in
  sent (effects r)
  = (sent e ++ if lastBucketOf m (rtt.ServiceUid svc) <? delayBucket d
               then [delayAlert svc from to d] else [])%list.
Proof.
  intros Hc Hm. unfold processService, cancelled, observedDelay in *.
  rewrite Hc.
  match goal with
  | |- context [0 <? ?x] => set (d := x)
  end.
  cbv zeta. destruct (Z.ltb_spec 0 d) as [Hd|Hd].
  - destruct (Z.ltb_spec (lastBucketOf m (rtt.ServiceUid svc)) (delayBucket d))
      as [Hlt|Hge].
    + apply handleDelay_notifies, Hlt.
    + destruct (handleDelay_suppresses W svc from to d m e Hge)
        as (_ & _ & ->).
      rewrite app_nil_r. reflexivity.
  - pose proof (delayBucket_nonpos d Hd).
    destruct (Z.ltb_spec (lastBucketOf m (rtt.ServiceUid svc)) (delayBucket d));
      [lia|].
    run. rewrite app_nil_r. reflexivity.
Qed.

(** C1: in gated mode [handleDelay] sends the delay alert exactly
    when the 5-minute bucket of the delay is above the mark stored for
    the service, and then raises the mark of that service (and of no
    other) to the bucket; otherwise nothing is sent and the memory is
    untouched; a gated check of a service that is not cancelled, on a
    memory with no negative mark, alerts on the same condition for the
    delay computed from the departure times.  Hence over any run of gated observations from a fresh
    monitor the buckets alerted for a service are strictly increasing, and
    once a bucket was alerted no later observation with a bucket that is
    not larger sends anything, whatever was observed in between. *)
Theorem gated_delay_alerts_by_bucket (W : World) :
  (forall (svc : rtt.Service) (from to : string) (d : Z) (m : t) (e : Eff),
      let r := handleDelay W svc from to d m e in
      let uid := rtt.ServiceUid svc in
      (lastBucketOf m uid < delayBucket d ->
       sent (effects r) = (sent e ++ [delayAlert svc from to d])%list
       /\ lastBucketOf (state r) uid = delayBucket d
       /\ (forall uid', uid' <> uid ->
                        lastBucketOf (state r) uid' = lastBucketOf m uid')
       /\ notifiedCancels (state r) = notifiedCancels m)
      /\ (delayBucket d <= lastBucketOf m uid ->
          sent (effects r) = sent e /\ state r = m))
  /\ (forall (svc : rtt.Service) (from to : string) (m : t) (e : Eff),
         cancelled svc = false ->
         0 <= lastBucketOf m (rtt.ServiceUid svc) ->
         let r := processService W svc from to false m e in
         let d := observedDelay svc in
         sent (effects r)
         = (sent e ++ if lastBucketOf m (rtt.ServiceUid svc) <? delayBucket d
                      then [delayAlert svc from to d] else [])%list)
  /\ (forall (obs : list (rtt.Service * string * string)) (uid : string),
         let r := observe W (map gated obs) NewTrainMonitor Eff0 in
         StronglySorted Z.lt (bucketsSent uid (sent (effects r))))
  /\ (forall (svc : rtt.Service) (from to : string) (d : Z) (m : t) (e : Eff)
             (obs : list (rtt.Service * string * string))
             (svc' : rtt.Service) (from' to' : string) (d' : Z),
         let r1 := handleDelay W svc from to d m e in
         let r2 := observe W (map gated obs) (state r1) (effects r1) in
         let r3 := handleDelay W svc' from' to' d' (state r2) (effects r2) in
         rtt.ServiceUid svc' = rtt.ServiceUid svc ->
         lastBucketOf m (rtt.ServiceUid svc) < delayBucket d ->
         delayBucket d' <= delayBucket d ->
         sent (effects r3) = sent (effects r2) /\ state r3 = state r2).
Proof.
  split; [|split; [|split]].
  - intros svc from to d m e r uid. split.
    + intros Hlt. subst r uid.
      destruct (handleDelay_notifies W svc from to d m e Hlt) as [-> ->].
      split; [reflexivity|]. split; [|split; [|reflexivity]].
      * rewrite lastBucketOf_insert.
        destruct (decide _); [reflexivity|contradiction].
      * intros uid' Hne. rewrite lastBucketOf_insert.
        destruct (decide _); [|reflexivity]. congruence.
    + intros Hge. subst r uid.
      destruct (handleDelay_suppresses W svc from to d m e Hge)
        as (_ & -> & ->).
      auto.
  - intros svc from to m e Hc Hm.
    apply processService_gated_decision; assumption.
  - intros obs uid r.
    assert (H : delayInv (state r) (sent (effects r))).
    { apply (keeps_gated_observe W delayInv obs).
      - apply gated_processService_keeps_delayInv.
      - apply delayInv_fresh. }
    apply (H uid).
  - intros svc from to d m e obs svc' from' to' d' r1 r2 r3 Huid Hlt Hle.
    assert (H1 : delayBucket d <= lastBucketOf (state r1) (rtt.ServiceUid svc)).
    { subst r1.
      destruct (handleDelay_notifies W svc from to d m e Hlt) as [-> _].
      rewrite lastBucketOf_insert.
      destruct (decide _); [lia|contradiction]. }
    assert (H2 : delayBucket d <= lastBucketOf (state r2) (rtt.ServiceUid svc)).
    { apply (keeps_gated_observe W
               (fun m _ => delayBucket d <= lastBucketOf m (rtt.ServiceUid svc))
               obs (gated_processService_keeps_mark W _ _) (state r1)
               (effects r1) H1). }
    subst r3.
    destruct (handleDelay_suppresses W svc' from' to' d' (state r2) (effects r2))
      as (_ & -> & ->); [rewrite Huid; lia|auto].
Qed.

(** The theorem on the example of the specification: after the alert
    for 15 minutes, 18 minutes is in the same bucket and sends nothing. *)
Lemma gated_delay_alerts_by_bucket_witness :
  let W := exampleWorld [] in
  let svc := serviceAt "W10001" "0720" "0735" in
  let svc' := serviceAt "W10001" "0720" "0738" in
  let r1 := handleDelay W svc "SAC" "STP" 15 NewTrainMonitor Eff0 in
  let r2 := observe W (map gated []) (state r1) (effects r1) in
  let r3 := handleDelay W svc' "SAC" "STP" 18 (state r2) (effects r2) in
  rtt.ServiceUid svc' = rtt.ServiceUid svc
  /\ lastBucketOf NewTrainMonitor (rtt.ServiceUid svc) < delayBucket 15
  /\ delayBucket 18 <= delayBucket 15
  /\ (sent (effects r3) = sent (effects r2) /\ state r3 = state r2).
Proof.
  cbv zeta.
  assert (H1 : rtt.ServiceUid (serviceAt "W10001" "0720" "0738")
               = rtt.ServiceUid (serviceAt "W10001" "0720" "0735"))
    by reflexivity.
  assert (H2 : lastBucketOf NewTrainMonitor
                 (rtt.ServiceUid (serviceAt "W10001" "0720" "0735"))
               < delayBucket 15) by reflexivity.
  assert (H3 : delayBucket 18 <= delayBucket 15) by (vm_compute; discriminate).
  split; [exact H1|]. split; [exact H2|]. split; [exact H3|].
  exact (proj2 (proj2 (proj2 (gated_delay_alerts_by_bucket (exampleWorld []))))
           (serviceAt "W10001" "0720" "0735") "SAC" "STP" 15 NewTrainMonitor
           Eff0 [] (serviceAt "W10001" "0720" "0738") "SAC" "STP" 18
           H1 H2 H3).
Defined.

(** The example of the specification: 15 minutes late alerts bucket 15,
    18 minutes is the same bucket and is suppressed, 21 minutes alerts
    bucket 20. *)
Example escalation_0735_0738_0741 :
  let at_ realtime := (serviceAt "W10001" "0720" realtime, "SAC", "STP") in
  let r :=
    observe (exampleWorld []) (map gated [at_ "0735"; at_ "0738"; at_ "0741"])
      NewTrainMonitor Eff0 in
  sent (effects r)
  = [delayAlert (serviceAt "W10001" "0720" "0735") "SAC" "STP" 15;
     delayAlert (serviceAt "W10001" "0720" "0741") "SAC" "STP" 21]
  /\ bucketsSent "W10001" (sent (effects r)) = [15; 20]
  /\ lastBucketOf (state r) "W10001" = 20.
Proof. repeat split. Qed.

End GatedDelays.

(** ** Service matching *)

Section Matching.

Import TrainMonitor.

Lemma prefix_app (p s : string) :
  String.prefix p s = true <-> exists rest, s = (p ++ rest)%string.
Proof.
  revert s. induction p as [|c p IH]; intros s; cbn.
  - split; [eauto|]. intros _. destruct s; reflexivity.
  - destruct s as [|c' s].
    + split; [discriminate|]. intros [rest H]. discriminate.
    + cbn. destruct (Ascii.ascii_dec c c') as [->|Hne].
      * rewrite IH. split; intros [rest H]; exists rest.
        -- subst s. reflexivity.
        -- change (String c' s = String c' (p ++ rest)%string) in H.
           congruence.
      * split; [discriminate|]. intros [rest H].
        change (String c' s = String c (p ++ rest)%string) in H.
        congruence.
Qed.

(** A service matches when its scheduled departure begins with the
    target time; the test for equality adds nothing. *)
Lemma matches_begins_with (targetTime : string) (svc : rtt.Service) :
  matches targetTime svc = true
  <-> exists rest,
      rtt.GbttBookedDeparture (rtt.locationDetail svc)
      = (targetTime ++ rest)%string.
Proof.
  unfold matches, strings.HasPrefix. rewrite orb_true_iff, prefix_app.
  split; [|auto]. intros [H|H]; [|exact H].
  apply String.eqb_eq in H. exists ""%string.
  rewrite H. clear. induction targetTime as [|c s IH]; [reflexivity|].
  change (String c s = String c (s ++ "")%string). congruence.
Qed.

Lemma findMatchingService_find (services : list rtt.Service)
  (targetTime : string) :
  findMatchingService services targetTime
  = List.find (matches targetTime) services.
Proof.
  induction services as [|svc rest IH]; cbn; [reflexivity|].
  rewrite IH. reflexivity.
Qed.

(** The service returned is the first that matches, in the order of the
    response. *)
Lemma findMatchingService_first (services : list rtt.Service)
  (targetTime : string) (svc : rtt.Service) :
  findMatchingService services targetTime = Some svc
  <-> exists before after,
      services = (before ++ svc :: after)%list
      /\ matches targetTime svc = true
      /\ Forall (fun s => matches targetTime s = false) before.
Proof.
  induction services as [|s rest IH]; cbn.
  - split; [discriminate|]. intros ([|? ?] & ? & H & _); discriminate.
  - destruct (matches targetTime s) eqn:Hs.
    + split.
      * intros H. injection H as <-. exists [], rest. auto.
      * intros ([|b before] & after & H & Hm & Hb); cbn in H.
        -- congruence.
        -- injection H as -> _. inversion Hb; subst. congruence.
    + rewrite IH. split.
      * intros (before & after & -> & Hm & Hb).
        exists (s :: before), after. auto.
      * intros ([|b before] & after & H & Hm & Hb); cbn in H.
        -- injection H as -> _. congruence.
        -- injection H as _ ->. inversion Hb; subst. eauto.
Qed.

Lemma findMatchingService_none (services : list rtt.Service)
  (targetTime : string) :
  findMatchingService services targetTime = None
  <-> Forall (fun s => matches targetTime s = false) services.
Proof.
  induction services as [|s rest IH]; cbn.
  - split; auto.
  - destruct (matches targetTime s) eqn:Hs.
    + split; [discriminate|]. intros H. inversion H; subst. congruence.
    + rewrite IH. split; [auto|]. intros H. inversion H; auto.
Qed.

Section NoMatch.

Context (W : World) (from to departureTime : string) (m : t) (e : Eff)
  (h mi : Z) (resp : option rtt.SearchResponse).
Hypothesis Hparse : time.Parse_1504 departureTime = Ok (h, mi).
Hypothesis Hsearch :
  rtt_Search W (Datatypes.S (calls e)) from to
    (time.today_at (clock W (calls e)) h mi) = Ok resp.
Hypothesis Hnone : findMatchingService (servicesOf resp) departureTime = None.

Lemma CheckDelay_no_match :
  let r := CheckDelay W from to departureTime m e in
  value r = None /\ state r = m /\ sent (effects r) = sent e.
Proof.
  unfold CheckDelay, parseTimeToday. rewrite Hparse. run. rewrite Hsearch.
  destruct (noServices resp); cbn; [auto|].
  rewrite Hnone. cbn. auto.
Qed.

Lemma CheckStatus_no_match :
  let r := CheckStatus W from to departureTime m e in
  value r = None /\ state r = m /\ sent (effects r) = sent e.
Proof.
  unfold CheckStatus, parseTimeToday. rewrite Hparse. run. rewrite Hsearch.
  destruct (noServices resp); cbn; [auto|].
  rewrite Hnone. cbn. auto.
Qed.

Lemma CheckArrival_no_match :
  let r := CheckArrival W from to departureTime m e in
  value r = (false, None) /\ state r = m /\ sent (effects r) = sent e.
Proof.
  unfold CheckArrival, parseTimeToday. rewrite Hparse. run. rewrite Hsearch.
  destruct (noServices resp); cbn; [auto|].
  rewrite Hnone. cbn. auto.
Qed.

End NoMatch.

(** The specification's wording has the prefix the other way round: a
    service without a scheduled departure is chosen by it (the empty
    string is a prefix of every target) and is not chosen by the code,
    which takes the service after it. *)
Lemma findMatchingService_not_prefix_of_target :
  spec_findMatchingService
    [serviceAt "W10001" "" ""; serviceAt "W10002" "0720" "0720"] "0720"
  = Some (serviceAt "W10001" "" "")
  /\ findMatchingService
       [serviceAt "W10001" "" ""; serviceAt "W10002" "0720" "0720"] "0720"
     = Some (serviceAt "W10002" "0720" "0720")
  /\ spec_findMatchingService [serviceAt "W10003" "072030" ""] "0720" = None
  /\ findMatchingService [serviceAt "W10003" "072030" ""] "0720"
     = Some (serviceAt "W10003" "072030" "").
Proof. repeat split. Qed.

Lemma not_matches_begins_with (targetTime : string) (svc : rtt.Service) :
  matches targetTime svc = false
  <-> ~ exists rest,
        rtt.GbttBookedDeparture (rtt.locationDetail svc)
        = (targetTime ++ rest)%string.
Proof.
  rewrite <- matches_begins_with. destruct (matches targetTime svc).
  - split; [discriminate|]. intros H. contradiction H. reflexivity.
  - split; [discriminate|reflexivity].
Qed.

(** C7, amended: [findMatchingService] returns the first service, in
    the order of the response, whose scheduled departure begins with the
    target time (equals it, or has it as a textual prefix), and none when
    no service does; when the search succeeds and no service matches,
    [CheckDelay], [CheckStatus] and [CheckArrival] return no error (and
    not arrived), send nothing and leave the memory as it was. *)
Theorem matching_service_begins_with_target (W : World) :
  (forall (services : list rtt.Service) (targetTime : string)
          (svc : rtt.Service),
      findMatchingService services targetTime = Some svc
      <-> exists before after,
          services = (before ++ svc :: after)%list
          /\ (exists rest,
                rtt.GbttBookedDeparture (rtt.locationDetail svc)
                = (targetTime ++ rest)%string)
          /\ Forall (fun s =>
                       ~ exists rest,
                           rtt.GbttBookedDeparture (rtt.locationDetail s)
                           = (targetTime ++ rest)%string) before)
  /\ (forall (services : list rtt.Service) (targetTime : string),
         findMatchingService services targetTime = None
         <-> Forall (fun s =>
                       ~ exists rest,
                           rtt.GbttBookedDeparture (rtt.locationDetail s)
                           = (targetTime ++ rest)%string) services)
  /\ (forall (from to departureTime : string) (m : t) (e : Eff) (h mi : Z)
             (resp : option rtt.SearchResponse),
         time.Parse_1504 departureTime = Ok (h, mi) ->
         rtt_Search W (Datatypes.S (calls e)) from to
           (time.today_at (clock W (calls e)) h mi) = Ok resp ->
         findMatchingService (servicesOf resp) departureTime = None ->
         let r1 := CheckDelay W from to departureTime m e in
         let r2 := CheckStatus W from to departureTime m e in
         let r3 := CheckArrival W from to departureTime m e in
         (value r1 = None /\ state r1 = m /\ sent (effects r1) = sent e)
         /\ (value r2 = None /\ state r2 = m /\ sent (effects r2) = sent e)
         /\ (value r3 = (false, None) /\ state r3 = m
             /\ sent (effects r3) = sent e)).
Proof.
  split; [|split].
  - intros services targetTime svc. rewrite findMatchingService_first.
    split; intros (before & after & Hs & Hm & Hb); exists before, after;
      (split; [exact Hs|]); (split; [apply matches_begins_with, Hm|]);
      (eapply Forall_impl; [exact Hb|]); intros s; cbn;
      apply not_matches_begins_with.
  - intros services targetTime. rewrite findMatchingService_none.
    split; intros Hb; (eapply Forall_impl; [exact Hb|]); intros s; cbn;
      apply not_matches_begins_with.
  - intros from to departureTime m e h mi resp Hp Hs Hn r1 r2 r3.
    split; [|split].
    + exact (CheckDelay_no_match W from to departureTime m e h mi resp Hp Hs Hn).
    + exact (CheckStatus_no_match W from to departureTime m e h mi resp Hp Hs Hn).
    + exact (CheckArrival_no_match W from to departureTime m e h mi resp
               Hp Hs Hn).
Qed.

(** The theorem on a response with one service that leaves at another
    time. *)
Lemma matching_service_begins_with_target_witness :
  let W := exampleWorld [serviceAt "W10001" "0650" "0655"] in
  let resp := Some (rtt.mkSearchResponse [serviceAt "W10001" "0650" "0655"]) in
  let m := NewTrainMonitor in
  let e := Eff0 in
  time.Parse_1504 "0720" = Ok (7, 20)
  /\ rtt_Search W (Datatypes.S (calls e)) "SAC" "STP"
       (time.today_at (clock W (calls e)) 7 20) = Ok resp
  /\ findMatchingService (servicesOf resp) "0720" = None
  /\ (let r1 := CheckDelay W "SAC" "STP" "0720" m e in
      let r2 := CheckStatus W "SAC" "STP" "0720" m e in
      let r3 := CheckArrival W "SAC" "STP" "0720" m e in
      (value r1 = None /\ state r1 = m /\ sent (effects r1) = sent e)
      /\ (value r2 = None /\ state r2 = m /\ sent (effects r2) = sent e)
      /\ (value r3 = (false, None) /\ state r3 = m
          /\ sent (effects r3) = sent e)).
Proof.
  cbv zeta. split; [reflexivity|]. split; [reflexivity|].
  split; [reflexivity|].
  apply (proj2 (proj2 (matching_service_begins_with_target
                         (exampleWorld [serviceAt "W10001" "0650" "0655"])))
           "SAC" "STP" "0720" NewTrainMonitor Eff0 7 20
           (Some (rtt.mkSearchResponse [serviceAt "W10001" "0650" "0655"])));
    reflexivity.
Defined.

(** The no-match case on a response with one service that leaves at
    another time. *)
Example no_match_is_no_service_today :
  let W := exampleWorld [serviceAt "W10001" "0650" "0655"] in
  CheckDelay W "SAC" "STP" "0720" NewTrainMonitor Eff0
  = (None, NewTrainMonitor,
     mkEff 2 []
       [mkLogEntry InfoLevel "checking train delay"
          [("from", FStr "SAC"); ("to", FStr "STP");
           ("departure", FStr "0720")];
        mkLogEntry WarnLevel "no matching service found for departure time"
          [("departure", FStr "0720")]]).
Proof. reflexivity. Qed.

End Matching.

(** ** The line monitor *)

Section Line.

Import TubeMonitor.

Lemma HasDisruption_iff (s : tfl.StatusDetail) :
  tfl.HasDisruption s = true
  <-> tfl.StatusSeverity s < tfl.StatusGoodService
      /\ tfl.StatusSeverity s <> tfl.StatusServiceClosed.
Proof.
  unfold tfl.HasDisruption. rewrite andb_true_iff, negb_true_iff.
  rewrite Z.ltb_lt, Z.eqb_neq. reflexivity.
Qed.

Lemma IsGoodService_iff (s : tfl.StatusDetail) :
  tfl.IsGoodService s = true <-> tfl.StatusSeverity s = tfl.StatusGoodService.
Proof. unfold tfl.IsGoodService. apply Z.eqb_eq. Qed.

Section Check.

Context (W : World) (m : t) (e : Eff) (status : tfl.LineStatus)
  (cur : tfl.StatusDetail) (others : list tfl.StatusDetail).
Hypothesis Hfetch : tfl_GetNorthernLineStatus W (calls e) = Ok status.
Hypothesis Hcur : tfl.LineStatuses status = cur :: others.

(** The decision of [CheckStatus] in one formula. *)
Lemma CheckStatus_decision :
  let r := CheckStatus W m e in
  let changed :=
    negb (lastStatus m =? tfl.StatusSeverityDescription cur)%string
    || negb (lastStatusReason m =? tfl.Reason cur)%string in
  let first := (lastStatus m =? "")%string in
  state r = mk (tfl.StatusSeverityDescription cur) (tfl.Reason cur)
  /\ sent (effects r)
     = (sent e
        ++ if changed && negb (first && tfl.IsGoodService cur)
              && (tfl.HasDisruption cur || negb first)
           then [disruptionAlert cur] else [])%list.
Proof.
  unfold CheckStatus. run. rewrite Hfetch, Hcur.
  destruct (negb (lastStatus m =? tfl.StatusSeverityDescription cur)%string
            || negb (lastStatusReason m =? tfl.Reason cur)%string);
    cbn; [|rewrite app_nil_r; auto].
  destruct (lastStatus m =? "")%string, (tfl.IsGoodService cur),
    (tfl.HasDisruption cur); cbn; rewrite ?app_nil_r; auto;
    destruct (pushover_SendMessage W _ _); cbn; auto.
Qed.

End Check.

Lemma samePair_iff (m : t) (s : tfl.StatusDetail) :
  samePair m s
  <-> negb (lastStatus m =? tfl.StatusSeverityDescription s)%string
      || negb (lastStatusReason m =? tfl.Reason s)%string = false.
Proof.
  unfold samePair. rewrite orb_false_iff, !negb_false_iff, !String.eqb_eq.
  reflexivity.
Qed.

(** The specification sends the alert in every case but two, an
    unchanged pair and a first observation of good service.  A first
    observation of a closed service is neither, and the code sends
    nothing for it. *)
Lemma first_closed_service_sends_nothing :
  let cur := tfl.mkStatusDetail tfl.StatusServiceClosed "Service Closed" "" in
  let r := CheckStatus (lineWorld cur) NewTubeMonitor Eff0 in
  ~ samePair NewTubeMonitor cur
  /\ noObservationYet NewTubeMonitor
  /\ tfl.StatusSeverity cur <> tfl.StatusGoodService
  /\ sent (effects r) = []
  /\ state r = mk "Service Closed" "".
Proof.
  cbv zeta. split; [|repeat split; discriminate].
  intros [H _]. discriminate H.
Qed.

(** C6, amended: on a check that fetched a status, the stored pair is
    overwritten with the observed (description, reason) in every case;
    nothing is sent when the observed pair is the stored one, nor when
    the pair changed on the first observation and the status is good
    service; otherwise an alert is sent, with a placeholder for an empty
    reason and at high priority, provided the status is disrupted
    (severity below good service and not service closed) or the
    observation is not the first.  What remains, a first observation that
    is neither good service nor disrupted, sends nothing. *)
Theorem line_status_change_alerts (W : World) (m : t) (e : Eff)
  (status : tfl.LineStatus) (cur : tfl.StatusDetail)
  (others : list tfl.StatusDetail) :
  tfl_GetNorthernLineStatus W (calls e) = Ok status ->
  tfl.LineStatuses status = cur :: others ->
  let r := CheckStatus W m e in
  state r = mk (tfl.StatusSeverityDescription cur) (tfl.Reason cur)
  /\ (samePair m cur -> sent (effects r) = sent e)
  /\ (~ samePair m cur -> noObservationYet m ->
      tfl.StatusSeverity cur = tfl.StatusGoodService ->
      sent (effects r) = sent e)
  /\ (~ samePair m cur ->
      ~ (noObservationYet m
         /\ tfl.StatusSeverity cur = tfl.StatusGoodService) ->
      (tfl.StatusSeverity cur < tfl.StatusGoodService
       /\ tfl.StatusSeverity cur <> tfl.StatusServiceClosed)
      \/ ~ noObservationYet m ->
      sent (effects r) = (sent e ++ [disruptionAlert cur])%list
      /\ priority (disruptionAlert cur) = notify.PriorityHigh
      /\ (tfl.Reason cur = "" ->
          body (disruptionAlert cur)
          = TubeDisruptionBody (tfl.StatusSeverityDescription cur)
              "No additional details"))
  /\ (~ samePair m cur -> noObservationYet m ->
      tfl.StatusSeverity cur <> tfl.StatusGoodService ->
      ~ (tfl.StatusSeverity cur < tfl.StatusGoodService
         /\ tfl.StatusSeverity cur <> tfl.StatusServiceClosed) ->
      sent (effects r) = sent e).
Proof.
  intros Hfetch Hcur r.
  destruct (CheckStatus_decision W m e status cur others Hfetch Hcur)
    as [Hst Hsent].
  fold r in Hst, Hsent. split; [exact Hst|].
  rewrite Hsent. clear Hsent Hst.
  rewrite <- HasDisruption_iff, <- IsGoodService_iff, samePair_iff.
  unfold noObservationYet. rewrite <- String.eqb_eq.
  destruct (negb (lastStatus m =? tfl.StatusSeverityDescription cur)%string
            || negb (lastStatusReason m =? tfl.Reason cur)%string),
    (lastStatus m =? "")%string, (tfl.IsGoodService cur),
    (tfl.HasDisruption cur); cbn [andb orb negb];
    rewrite ?app_nil_r;
    repeat split; intros; trivial;
    try congruence; try tauto;
    try (unfold disruptionAlert; cbn;
         match goal with H : tfl.Reason cur = _ |- _ => rewrite H end;
         reflexivity);
    try (exfalso; intuition congruence).
Qed.

(** The theorem at a first observation of minor delays without a reason:
    the alert goes out with the placeholder. *)
Lemma line_status_change_alerts_witness :
  let cur := tfl.mkStatusDetail 5 "Minor Delays" "" in
  let W := lineWorld cur in
  let m := NewTubeMonitor in
  let e := Eff0 in
  tfl_GetNorthernLineStatus W (calls e) = Ok (tfl.mkLineStatus [cur])
  /\ tfl.LineStatuses (tfl.mkLineStatus [cur]) = [cur]
  /\ (let r := CheckStatus W m e in
      state r = mk (tfl.StatusSeverityDescription cur) (tfl.Reason cur)
      /\ (samePair m cur -> sent (effects r) = sent e)
      /\ (~ samePair m cur -> noObservationYet m ->
          tfl.StatusSeverity cur = tfl.StatusGoodService ->
          sent (effects r) = sent e)
      /\ (~ samePair m cur ->
          ~ (noObservationYet m
             /\ tfl.StatusSeverity cur = tfl.StatusGoodService) ->
          (tfl.StatusSeverity cur < tfl.StatusGoodService
           /\ tfl.StatusSeverity cur <> tfl.StatusServiceClosed)
          \/ ~ noObservationYet m ->
          sent (effects r) = (sent e ++ [disruptionAlert cur])%list
          /\ priority (disruptionAlert cur) = notify.PriorityHigh
          /\ (tfl.Reason cur = "" ->
              body (disruptionAlert cur)
              = TubeDisruptionBody (tfl.StatusSeverityDescription cur)
                  "No additional details"))
      /\ (~ samePair m cur -> noObservationYet m ->
          tfl.StatusSeverity cur <> tfl.StatusGoodService ->
          ~ (tfl.StatusSeverity cur < tfl.StatusGoodService
             /\ tfl.StatusSeverity cur <> tfl.StatusServiceClosed) ->
          sent (effects r) = sent e)).
Proof.
  intros cur W m e. split; [reflexivity|]. split; [reflexivity|].
  apply (line_status_change_alerts W m e (tfl.mkLineStatus [cur]) cur []);
    reflexivity.
Defined.

Example first_good_service_is_silent :
  let cur := tfl.mkStatusDetail 10 "Good Service" "" in
  sent (effects (CheckStatus (lineWorld cur) NewTubeMonitor Eff0)) = [].
Proof. reflexivity. Qed.

Example good_to_degraded_alerts :
  let cur := tfl.mkStatusDetail 4 "Severe Delays" "Signal failure" in
  sent (effects (CheckStatus (lineWorld cur) (mk "Good Service" "") Eff0))
  = [disruptionAlert cur].
Proof. reflexivity. Qed.

Example first_service_closed_is_silent :
  let cur := tfl.mkStatusDetail 6 "Service Closed" "" in
  sent (effects (CheckStatus (lineWorld cur) NewTubeMonitor Eff0)) = [].
Proof. reflexivity. Qed.

End Line.

(** ** The scheduler: the window and one task *)

Section Window.

Import Scheduler.

Lemma isWithinWindow_iff (taskTime now : time.Time) :
  isWithinWindow taskTime now (2 * time.Minute) = true
  <-> 0 <= now - taskTime < 2 * time.Minute.
Proof.
  unfold isWithinWindow, time.Sub, time.minDuration, time.maxDuration,
    time.Minute, time.Second.
  rewrite andb_true_iff, Z.leb_le, Z.ltb_lt.
  destruct (Z.ltb_spec (now - taskTime) (- 2 ^ 63)); [lia|].
  destruct (Z.ltb_spec (2 ^ 63 - 1) (now - taskTime)); lia.
Qed.

Lemma fires_iff (now : time.Now) (task : Task) :
  fires now task = true
  <-> (Executed task = false \/ Repeating task = true)
      /\ inWindow (Time task) now.
Proof.
  unfold fires, inWindow. rewrite andb_true_iff, isWithinWindow_iff.
  destruct (Executed task), (Repeating task); cbn; intuition congruence.
Qed.

Lemma fires_done (now : time.Now) (task : Task) :
  Executed task = true -> Repeating task = false -> fires now task = false.
Proof. unfold fires. intros -> ->. reflexivity. Qed.

Lemma fires_outside (now : time.Now) (task : Task) :
  ~ inWindow (Time task) now -> fires now task = false.
Proof.
  intros H. destruct (fires now task) eqn:Hf; [|reflexivity].
  apply fires_iff in Hf. tauto.
Qed.

Lemma finish_Executed (task : Task) :
  Repeating task = false -> Executed (finish task) = true.
Proof. unfold finish. intros ->. reflexivity. Qed.

Lemma finish_recurring (task : Task) :
  Repeating task = true -> finish task = task.
Proof. unfold finish. intros ->. reflexivity. Qed.

Lemma finish_fields (task : Task) :
  Typ (finish task) = Typ task /\ Time (finish task) = Time task
  /\ Repeating (finish task) = Repeating task.
Proof.
  unfold finish. destruct (Repeating task) eqn:H; cbn; rewrite ?H; auto.
Qed.

End Window.

Section OneTask.

Import Scheduler.
Context (W : World).

(** [executeTask] touches the monitors only. *)
Lemma executeTask_frame (task : Task) (s : t) (e : Eff) :
  let r := executeTask W task s e in
  tasks (state r) = tasks s /\ cfg (state r) = cfg s
  /\ currentDay (state r) = currentDay s
  /\ arrivalPolling (state r) = arrivalPolling s.
Proof.
  unfold executeTask, train, tube. run.
  destruct (Typ task);
    match goal with
    | |- context [TrainMonitor.CheckDelay ?w ?a ?b ?c ?m ?e0] =>
        destruct (TrainMonitor.CheckDelay w a b c m e0) as [[[err|] m'] e']
    | |- context [TrainMonitor.CheckStatus ?w ?a ?b ?c ?m ?e0] =>
        destruct (TrainMonitor.CheckStatus w a b c m e0) as [[[err|] m'] e']
    | |- context [TrainMonitor.CheckArrival ?w ?a ?b ?c ?m ?e0] =>
        destruct (TrainMonitor.CheckArrival w a b c m e0)
          as [[[[|] [err|]] m'] e']
    | |- context [TubeMonitor.CheckStatus ?w ?m ?e0] =>
        destruct (TubeMonitor.CheckStatus w m e0) as [[[err|] m'] e']
    | |- context [TubeMonitor.SendStatusSummary ?w ?m ?e0] =>
        destruct (TubeMonitor.SendStatusSummary w m e0) as [[[err|] m'] e']
    end; cbn; destruct (Repeating task); cbn; auto.
Qed.

End OneTask.

Section TaskOutcome.

Import Scheduler.
Context (W : World).

(** A task that is no arrival check comes back as it went in, marked
    executed unless it repeats. *)
Lemma executeTask_other (task : Task) (s : t) (e : Eff) :
  isArrivalCheck (Typ task) = false ->
  value (executeTask W task s e) = finish task.
Proof.
  intros Hty. unfold executeTask, train, tube. run.
  destruct task as [ty tm ex rp]. cbn in Hty.
  cbn [Typ Time Executed Repeating].
  destruct ty; try discriminate;
    match goal with
    | |- context [TrainMonitor.CheckDelay ?w ?a ?b ?c ?m ?e0] =>
        destruct (TrainMonitor.CheckDelay w a b c m e0) as [[[err|] m'] e']
    | |- context [TrainMonitor.CheckStatus ?w ?a ?b ?c ?m ?e0] =>
        destruct (TrainMonitor.CheckStatus w a b c m e0) as [[[err|] m'] e']
    | |- context [TubeMonitor.CheckStatus ?w ?m ?e0] =>
        destruct (TubeMonitor.CheckStatus w m e0) as [[[err|] m'] e']
    | |- context [TubeMonitor.SendStatusSummary ?w ?m ?e0] =>
        destruct (TubeMonitor.SendStatusSummary w m e0) as [[[err|] m'] e']
    end; cbn; unfold finish; destruct rp; reflexivity.
Qed.

(** An arrival check: the repetition ends when [CheckArrival] reports
    the arrival, the time moves by five minutes when it does not; the
    journey monitor is as [CheckArrival] leaves it and nothing else is
    sent. *)
Lemma executeTask_arrival (task : Task) (s : t) (e : Eff)
  (c : config.TrainConfig) :
  isArrivalCheck (Typ task) = true ->
  journeyOf (cfg s) (Typ task) = Some c ->
  let r := executeTask W task s e in
  let a := arrivalCall W c task s e in
  value r = finish (if fst (value a) then terminal task else advance task)
  /\ trainMonitor (state r) = state a
  /\ tubeMonitor (state r) = tubeMonitor s
  /\ sent (effects r) = sent (effects a).
Proof.
  intros Hty Hc. unfold executeTask, train, arrivalCall, started,
    executingEntry. run.
  destruct task as [ty tm ex rp]. cbn in Hty, Hc.
  cbn [Typ Time Executed Repeating].
  destruct ty; try discriminate; injection Hc as <-;
    match goal with
    | |- context [TrainMonitor.CheckArrival ?w ?a ?b ?c ?m ?e0] =>
        destruct (TrainMonitor.CheckArrival w a b c m e0)
          as [[[[|] [err|]] m'] e']
    end; cbn; unfold finish, terminal, advance; cbn;
    destruct rp; cbn; auto.
Qed.

(** A task that does not repeat is marked executed by its execution,
    whatever the check returns. *)
Lemma executeTask_marks (task : Task) (s : t) (e : Eff) :
  Repeating task = false ->
  Executed (value (executeTask W task s e)) = true
  /\ Repeating (value (executeTask W task s e)) = false.
Proof.
  intros Hrp. destruct (isArrivalCheck (Typ task)) eqn:Hty.
  - assert (Hc : exists c, journeyOf (cfg s) (Typ task) = Some c)
      by (destruct (Typ task); try discriminate; cbn; eauto).
    destruct Hc as [c Hc].
    destruct (executeTask_arrival task s e c Hty Hc) as (-> & _).
    unfold finish, terminal, advance.
    destruct (fst (value (arrivalCall W c task s e))); cbn;
      rewrite ?Hrp; cbn; auto.
  - rewrite (executeTask_other task s e Hty). unfold finish.
    rewrite Hrp. cbn. auto.
Qed.

End TaskOutcome.

(** ** Invariants through the scheduler *)

Section KeepsScheduler.

Import Scheduler.
Context (W : World).

Lemma keeps_zoom {S T A} (I : T -> list Notification -> Prop)
  (proj : T -> S) (upd : S -> T -> T) (m : M S A) :
  (forall t, upd (proj t) t = t) ->
  (forall t, keeps (fun s l => I (upd s t) l) m) ->
  keeps I (zoom proj upd m).
Proof.
  intros Hid Hm t e H. unfold zoom.
  specialize (Hm t (proj t) e). cbv beta in Hm. rewrite Hid in Hm.
  specialize (Hm H). destruct (m (proj t) e) as [[a s'] e']. exact Hm.
Qed.

Lemma set_trainMonitor_id (s : t) : set_trainMonitor (trainMonitor s) s = s.
Proof. destruct s; reflexivity. Qed.

Lemma set_tubeMonitor_id (s : t) : set_tubeMonitor (tubeMonitor s) s = s.
Proof. destruct s; reflexivity. Qed.

Lemma keeps_forEach (I : t -> list Notification -> Prop) (ix : list nat)
  (body : nat -> M t unit) :
  (forall i, keeps I (body i)) -> keeps I (forEach ix body).
Proof.
  intros H. induction ix as [|i ix IH]; cbn [forEach].
  - apply keeps_ret.
  - apply keeps_bind; [apply H|]. intros _. exact IH.
Qed.

(** The line monitor sends line notifications only and remembers a
    pair: it keeps whatever does not look at either. *)
Lemma keeps_line_CheckStatus (I : TubeMonitor.t -> list Notification -> Prop) :
  (forall m m' l, I m l -> I m' l) ->
  (forall m l status reason,
      I m l ->
      I m (l ++ [mkNotification "Tube Disruption Alert"
                   (TubeDisruptionBody status reason) notify.PriorityHigh])%list) ->
  keeps I (TubeMonitor.CheckStatus W).
Proof.
  intros Hm Hn. unfold TubeMonitor.CheckStatus.
  repeat first
    [ keeps_step
    | apply keeps_put; intros; eapply Hm; eassumption
    | match goal with
      | |- keeps _ (if ?c then _ else _) => destruct c
      end
    | apply keeps_SendWithPriority; intros; apply Hn; assumption ].
Qed.

Lemma keeps_line_SendStatusSummary
  (I : TubeMonitor.t -> list Notification -> Prop) :
  (forall m l status reason,
      I m l ->
      I m (l ++ [mkNotification "Northern Line Status"
                   (TubeStatusBody status reason) notify.PriorityNormal])%list) ->
  keeps I (TubeMonitor.SendStatusSummary W).
Proof.
  intros Hn. unfold TubeMonitor.SendStatusSummary.
  repeat first
    [ keeps_step
    | apply keeps_SendWithPriority; intros; apply Hn; assumption ].
Qed.

End KeepsScheduler.

Section KeepsTicks.

Import Scheduler.
Context (W : World).

Lemma keeps_executeTask (I : t -> list Notification -> Prop) (task : Task) :
  (forall from to dep, keeps I (train (TrainMonitor.CheckDelay W from to dep))) ->
  (forall from to dep, keeps I (train (TrainMonitor.CheckStatus W from to dep))) ->
  (forall from to dep,
      keeps I (train (TrainMonitor.CheckArrival W from to dep))) ->
  keeps I (tube (TubeMonitor.CheckStatus W)) ->
  keeps I (tube (TubeMonitor.SendStatusSummary W)) ->
  keeps I (executeTask W task).
Proof.
  intros Hd Hs Ha Hl Hsum. unfold executeTask. cbv zeta.
  repeat keeps_step; auto.
Qed.

Lemma keeps_tickTask (I : t -> list Notification -> Prop) (now : time.Now)
  (i : nat) :
  (forall task, keeps I (executeTask W task)) ->
  (forall s l ts, I s l -> I (set_tasks ts s) l) ->
  keeps I (tickTask W now i).
Proof.
  intros He Ht. unfold tickTask.
  repeat first [keeps_step | apply He | apply keeps_modify; intros; apply Ht].
  all: assumption.
Qed.

(** A tick that sees the scheduler's day is the loop over the tasks. *)
Lemma tickAt_same_day (now : time.Now) (s : t) (e : Eff) :
  sameDay s now ->
  tickAt W now s e = forEach (seq 0 (length (tasks s))) (tickTask W now) s e.
Proof.
  unfold sameDay, tickAt. intros H. run. rewrite H, Z.eqb_refl. reflexivity.
Qed.

Lemma tickTask_tasks (now : time.Now) (i : nat) (s : t) (e : Eff) :
  let r := tickTask W now i s e in
  cfg (state r) = cfg s /\ currentDay (state r) = currentDay s
  /\ tasks (state r)
     = match tasks s !! i with
       | Some task =>
           if fires now task
           then <[i := value (executeTask W task s e)]> (tasks s)
           else tasks s
       | None => tasks s
       end.
Proof.
  unfold tickTask, fires. run.
  destruct (tasks s !! i) as [task|]; [|auto].
  destruct (Executed task && negb (Repeating task)); cbn [negb andb]; [auto|].
  destruct (isWithinWindow (Time task) (time.instant now) (2 * time.Minute));
    [|auto].
  pose proof (executeTask_frame W task s e) as (Ht & Hc & Hd & _).
  destruct (executeTask W task s e) as [[task' s'] e']. cbn in *.
  rewrite Ht. auto.
Qed.

Lemma forEach_frame (now : time.Now) (ix : list nat) (s : t) (e : Eff) :
  let r := forEach ix (tickTask W now) s e in
  cfg (state r) = cfg s /\ currentDay (state r) = currentDay s
  /\ length (tasks (state r)) = length (tasks s).
Proof.
  revert s e. induction ix as [|j ix IH]; intros s e; cbn [forEach].
  - cbn. auto.
  - unfold bind. pose proof (tickTask_tasks now j s e) as (Hc & Hd & Ht).
    destruct (tickTask W now j s e) as [[u s1] e1]. cbn in Hc, Hd, Ht.
    destruct (IH s1 e1) as (Hc' & Hd' & Hl'). cbv zeta.
    rewrite Hc', Hd', Hl', Hc, Hd, Ht.
    repeat split.
    destruct (tasks s !! j) as [task|]; [|reflexivity].
    destruct (fires now task); [apply length_insert|reflexivity].
Qed.

(** A task that does not fire at a tick is left as it is by that tick,
    whatever the other tasks do. *)
Lemma forEach_untouched (now : time.Now) (ix : list nat) (s : t) (e : Eff)
  (i : nat) (task : Task) :
  tasks s !! i = Some task ->
  fires now task = false ->
  tasks (state (forEach ix (tickTask W now) s e)) !! i = Some task.
Proof.
  revert s e. induction ix as [|j ix IH]; intros s e Hi Hf; cbn [forEach].
  - exact Hi.
  - unfold bind. pose proof (tickTask_tasks now j s e) as (_ & _ & Ht).
    destruct (tickTask W now j s e) as [[u s1] e1]. cbn in Ht.
    apply IH; [|exact Hf]. rewrite Ht.
    destruct (decide (j = i)) as [->|Hne].
    + rewrite Hi, Hf. exact Hi.
    + destruct (tasks s !! j) as [taskj|]; [|exact Hi].
      destruct (fires now taskj); [|exact Hi].
      rewrite list_lookup_insert_ne by exact Hne. exact Hi.
Qed.

Lemma tickAt_currentDay (now : time.Now) (s : t) (e : Eff) :
  sameDay s now -> currentDay (state (tickAt W now s e)) = currentDay s.
Proof.
  intros H. rewrite (tickAt_same_day now s e H).
  apply (forEach_frame now _ s e).
Qed.

Lemma tickAt_untouched (now : time.Now) (s : t) (e : Eff) (i : nat)
  (task : Task) :
  sameDay s now ->
  tasks s !! i = Some task ->
  fires now task = false ->
  tasks (state (tickAt W now s e)) !! i = Some task.
Proof.
  intros H Hi Hf. rewrite (tickAt_same_day now s e H).
  apply forEach_untouched; assumption.
Qed.

Lemma tick_tickAt (s : t) (e : Eff) :
  tick W s e
  = tickAt W (clock W (calls e)) s
      (mkEff (Datatypes.S (calls e)) (sent e) (logged e)).
Proof. reflexivity. Qed.

(** A property of the scheduler and of what was sent, kept by every
    tick that sees the scheduler's day and a clock reading in [Q], holds
    after a run of such ticks. *)
Lemma ticks_within_day (Q : time.Now -> Prop)
  (P : t -> list Notification -> Prop) :
  (forall now s e,
      sameDay s now -> Q now -> P s (sent e) ->
      P (state (tickAt W now s e)) (sent (effects (tickAt W now s e)))) ->
  forall n s e,
    Forall (fun now => sameDay s now /\ Q now) (tickTimes W n s e) ->
    P s (sent e) ->
    P (state (ticks W n s e)) (sent (effects (ticks W n s e))).
Proof.
  intros Hstep. induction n as [|n IH]; intros s e HF HP.
  - exact HP.
  - cbn [ticks tickTimes] in *. unfold bind.
    apply Forall_cons in HF as [[Hday HQ] HF].
    rewrite tick_tickAt in *.
    pose proof (tickAt_currentDay (clock W (calls e)) s
                  (mkEff (Datatypes.S (calls e)) (sent e) (logged e)) Hday)
      as Hcd.
    pose proof (Hstep (clock W (calls e)) s
                  (mkEff (Datatypes.S (calls e)) (sent e) (logged e))
                  Hday HQ HP) as HP'.
    destruct (tickAt W (clock W (calls e)) s
                (mkEff (Datatypes.S (calls e)) (sent e) (logged e)))
      as [[u s1] e1].
    cbn in *. apply IH; [|exact HP'].
    eapply Forall_impl; [exact HF|]. cbn. unfold sameDay.
    intros now [H1 H2]. split; [congruence|exact H2].
Qed.

End KeepsTicks.

(** ** The latch of the cancellation alert *)

Section Latch.

Import TrainMonitor.
Context (W : World) (uid : string).

Lemma processService_keeps_latch (svc : rtt.Service) (from to : string)
  (always : bool) :
  keeps (latched uid) (processService W svc from to always).
Proof.
  intros m e H. unfold latched in *.
  rewrite processService_latch, H. reflexivity.
Qed.

Lemma CheckDelay_keeps_latch (from to dep : string) :
  keeps (latched uid) (CheckDelay W from to dep).
Proof. apply keeps_CheckDelay. intros; apply processService_keeps_latch. Qed.

Lemma CheckStatus_keeps_latch (from to dep : string) :
  keeps (latched uid) (CheckStatus W from to dep).
Proof. apply keeps_CheckStatus. intros; apply processService_keeps_latch. Qed.

Lemma CheckArrival_keeps_latch (from to dep : string) :
  keeps (latched uid) (CheckArrival W from to dep).
Proof. apply keeps_CheckArrival. intros m l n _ H. exact H. Qed.

Lemma executeTask_keeps_latch (task : Scheduler.Task) :
  keeps (fun s l => latched uid (Scheduler.trainMonitor s) l)
    (Scheduler.executeTask W task).
Proof.
  apply keeps_executeTask; intros; unfold Scheduler.train, Scheduler.tube;
    (apply keeps_zoom;
     [first [apply set_trainMonitor_id|apply set_tubeMonitor_id]|]);
    intros s0; cbn [Scheduler.trainMonitor Scheduler.set_trainMonitor
                      Scheduler.set_tubeMonitor].
  - apply CheckDelay_keeps_latch.
  - apply CheckStatus_keeps_latch.
  - apply CheckArrival_keeps_latch.
  - apply keeps_line_CheckStatus; intros; assumption.
  - apply keeps_line_SendStatusSummary; intros; assumption.
Qed.

Lemma tickAt_keeps_latch (now : time.Now) (s : Scheduler.t) (e : Eff) :
  sameDay s now ->
  cancelNotified (Scheduler.trainMonitor s) uid = true ->
  cancelNotified
    (Scheduler.trainMonitor (state (Scheduler.tickAt W now s e))) uid = true.
Proof.
  intros Hday H. rewrite (tickAt_same_day W now s e Hday).
  apply (keeps_forEach (fun s l => latched uid (Scheduler.trainMonitor s) l));
    [|exact H].
  intros i. apply keeps_tickTask.
  - apply executeTask_keeps_latch.
  - intros s0 l ts H0. exact H0.
Qed.

End Latch.

Section CancelOnce.

Import TrainMonitor.

(** C2: the first cancelled observation of a service sends the
    cancellation alert, at high priority, and sets the latch of the
    service; every later one returns at once, with nothing sent or logged
    and the memory as it was.  Over any run of observations from a fresh
    monitor a service has exactly one cancellation alert if it was
    observed cancelled and none otherwise.  A latch that is set stays set
    through every observation, every check of the journey monitor and
    every tick that does not see a new day. *)
Theorem cancellation_alert_once_per_day (W : World) :
  (forall (svc : rtt.Service) (from to : string) (m : t) (e : Eff),
      let r := handleCancellation W svc from to m e in
      (cancelNotified m (rtt.ServiceUid svc) = false ->
       sent (effects r) = (sent e ++ [cancellationAlert svc from to])%list
       /\ priority (cancellationAlert svc from to) = notify.PriorityHigh
       /\ cancelNotified (state r) (rtt.ServiceUid svc) = true
       /\ notifiedDelays (state r) = notifiedDelays m)
      /\ (cancelNotified m (rtt.ServiceUid svc) = true -> r = (None, m, e)))
  /\ (forall (obs : list Observation) (uid : string),
         let r := observe W obs NewTrainMonitor Eff0 in
         length (cancellationsSent uid (sent (effects r)))
         = if existsb (fun o => cancelled (service o)
                                && (rtt.ServiceUid (service o) =? uid)%string)
                obs
           then 1%nat else 0%nat)
  /\ (forall (uid : string) (m : t) (e : Eff),
         cancelNotified m uid = true ->
         (forall obs, cancelNotified (state (observe W obs m e)) uid = true)
         /\ (forall from to dep,
                cancelNotified (state (CheckDelay W from to dep m e)) uid = true
                /\ cancelNotified (state (CheckStatus W from to dep m e)) uid
                   = true
                /\ cancelNotified (state (CheckArrival W from to dep m e)) uid
                   = true))
  /\ (forall (uid : string) (n : nat) (s : Scheduler.t) (e : Eff),
         cancelNotified (Scheduler.trainMonitor s) uid = true ->
         Forall (sameDay s) (Scheduler.tickTimes W n s e) ->
         cancelNotified
           (Scheduler.trainMonitor (state (Scheduler.ticks W n s e))) uid
         = true).
Proof.
  split; [|split; [|split]].
  - intros svc from to m e r. split.
    + intros Hc. subst r.
      destruct (handleCancellation_first W svc from to m e Hc) as [Hs ->].
      split; [reflexivity|]. split; [reflexivity|].
      rewrite Hs. split; [|reflexivity].
      rewrite cancelNotified_insert, String.eqb_refl. reflexivity.
    + intros Hc. apply handleCancellation_again, Hc.
  - intros obs uid r.
    assert (H : cancelInv (state r) (sent (effects r))).
    { apply (keeps_observe W cancelInv obs).
      - intros o _. apply processService_keeps_cancelInv.
      - apply cancelInv_fresh. }
    rewrite (H uid). subst r. rewrite observe_latch.
    unfold cancelNotified at 1. cbn. rewrite lookup_empty. reflexivity.
  - intros uid m e H. split.
    + intros obs. rewrite observe_latch, H. reflexivity.
    + intros from to dep. repeat split.
      * apply (CheckDelay_keeps_latch W uid from to dep m e H).
      * apply (CheckStatus_keeps_latch W uid from to dep m e H).
      * apply (CheckArrival_keeps_latch W uid from to dep m e H).
  - intros uid n s e H HF.
    apply (ticks_within_day W (fun _ => True)
             (fun s _ => cancelNotified (Scheduler.trainMonitor s) uid = true)).
    + intros now s0 e0 Hday _ H0. apply tickAt_keeps_latch; assumption.
    + eapply Forall_impl; [exact HF|]. cbn. auto.
    + exact H.
Qed.

(** The theorem on a memory with the latch of one service set: the
    latch is there after every run of observations. *)
Lemma cancellation_alert_once_per_day_witness :
  let W := exampleWorld [] in
  let m := mk ∅ (<["W10001" := true]> ∅) in
  cancelNotified m "W10001" = true
  /\ forall obs, cancelNotified (state (observe W obs m Eff0)) "W10001" = true.
Proof.
  cbv zeta.
  assert (H : cancelNotified (mk ∅ (<["W10001" := true]> ∅)) "W10001" = true)
    by reflexivity.
  split; [exact H|].
  exact (proj1 (proj1 (proj2 (proj2 (cancellation_alert_once_per_day
                                       (exampleWorld []))))
                  "W10001" (mk ∅ (<["W10001" := true]> ∅)) Eff0 H)).
Defined.

(** A service seen cancelled three times, in both modes: one alert. *)
Example cancelled_thrice_alerted_once :
  let svc :=
    rtt.mkService "W10001"
      (rtt.mkLocationDetail "0720" "" "" "CANCELLED_CALL" "") in
  let r :=
    observe (exampleWorld [])
      [mkObservation svc "SAC" "STP" false;
       mkObservation svc "SAC" "STP" true;
       mkObservation svc "SAC" "STP" false] NewTrainMonitor Eff0 in
  sent (effects r) = [cancellationAlert svc "SAC" "STP"]
  /\ body (cancellationAlert svc "SAC" "STP")
     = TrainCancellationBody "W10001" "SAC" "STP" "No reason provided".
Proof. split; reflexivity. Qed.

End CancelOnce.

(** ** The scheduler: which tasks a tick executes *)

Section Ticks.

Import Scheduler.
Context (W : World).

Lemma tickTimes_take (k n : nat) (s : t) (e : Eff) :
  (k <= n)%nat -> tickTimes W k s e = take k (tickTimes W n s e).
Proof.
  revert n s e. induction k as [|k IH]; intros n s e Hle; [reflexivity|].
  destruct n as [|n]; [lia|]. cbn [tickTimes take].
  f_equal. apply IH. lia.
Qed.

Lemma tickTask_fires (now : time.Now) (i : nat) (s : t) (e : Eff)
  (task : Task) :
  tasks s !! i = Some task ->
  tickTask W now i s e
  = if fires now task
    then (task' <- executeTask W task ;;
          modify (fun s => set_tasks (<[i := task']> (tasks s)) s)) s e
    else (tt, s, e).
Proof.
  intros Hi. unfold tickTask, fires. unfold bind at 1, get. rewrite Hi.
  destruct (Executed task && negb (Repeating task)); [reflexivity|].
  destruct (isWithinWindow (Time task) (time.instant now) (2 * time.Minute));
    reflexivity.
Qed.

(** Through ticks of the day at which a task does not fire, the task
    stays in its place as it is. *)
Lemma ticks_untouched (Q : time.Now -> Prop) (i : nat) (task : Task) :
  (forall now, Q now -> fires now task = false) ->
  forall (n : nat) (s : t) (e : Eff),
    tasks s !! i = Some task ->
    Forall (fun now => sameDay s now /\ Q now) (tickTimes W n s e) ->
    tasks (state (ticks W n s e)) !! i = Some task.
Proof.
  intros HQ n s e Hi HF.
  apply (ticks_within_day W Q (fun s _ => tasks s !! i = Some task));
    [|exact HF|exact Hi].
  intros now s0 e0 Hday Hq H0. apply tickAt_untouched; auto.
Qed.

End Ticks.

Section TickWindow.

Import Scheduler.

(** The example of the specification: scheduled at 07:00, a tick at
    07:01:30 fires the task, a tick at 07:03 does not. *)
Example window_0700 :
  let at_ (h m sec : Z) :=
    time.mkNow (h * time.Hour + m * time.Minute + sec * time.Second) 1
      time.Monday (fun h m => h * time.Hour + m * time.Minute) in
  let task := mkTask TaskMorningDelayCheck (time.instant (at_ 7 0 0))
                false false in
  fires (at_ 7 1 30) task = true /\ fires (at_ 7 3 0) task = false
  /\ fires (at_ 6 59 59) task = false.
Proof. repeat split. Qed.

(** C4: a tick executes the task at index [i] exactly when the task
    is not both executed and not repeating and the instant of the tick is
    at least the scheduled time and less than two minutes after it.  A
    task, through any number of ticks of the day none of which falls in
    that window, stays in the list as it is after each of them; for a
    task that does not repeat this says that it is never executed, since
    an execution would have marked it executed. *)
Theorem tick_executes_inside_window (W : World) :
  (forall (now : time.Now) (task : Task),
      fires now task = true
      <-> (Executed task = false \/ Repeating task = true)
          /\ 0 <= time.instant now - Time task < 2 * time.Minute)
  /\ (forall (now : time.Now) (i : nat) (s : t) (e : Eff) (task : Task),
         tasks s !! i = Some task ->
         tickTask W now i s e
         = if fires now task
           then (task' <- executeTask W task ;;
                 modify (fun s => set_tasks (<[i := task']> (tasks s)) s)) s e
           else (tt, s, e))
  /\ (forall (now : time.Now) (s : t) (e : Eff),
         time.Day now = currentDay s ->
         tickAt W now s e
         = forEach (seq 0 (length (tasks s))) (tickTask W now) s e)
  /\ (forall (n : nat) (s : t) (e : Eff) (i : nat) (task : Task),
         tasks s !! i = Some task ->
         Forall (fun now => time.Day now = currentDay s
                            /\ ~ (0 <= time.instant now - Time task
                                  < 2 * time.Minute))
           (tickTimes W n s e) ->
         forall k, (k <= n)%nat ->
                   tasks (state (ticks W k s e)) !! i = Some task)
  /\ (forall (task : Task) (s : t) (e : Eff),
         Repeating task = false ->
         Executed (value (executeTask W task s e)) = true).
Proof.
  split; [|split; [|split; [|split]]].
  - intros now task. apply fires_iff.
  - intros now i s e task. apply tickTask_fires.
  - intros now s e. apply tickAt_same_day.
  - intros n s e i task Hi HF k Hk.
    apply (ticks_untouched W (fun now => ~ inWindow (Time task) now) i task).
    + intros now. apply fires_outside.
    + exact Hi.
    + rewrite (tickTimes_take W k n s e Hk). apply Forall_take. exact HF.
  - intros task s e Hrp. apply (executeTask_marks W task s e Hrp).
Qed.

(** The theorem on a delay check of 07:00 and three ticks at midnight:
    the task is in its place, untouched, after each of them. *)
Lemma tick_executes_inside_window_witness :
  let W := exampleWorld [] in
  let task := mkTask TaskMorningDelayCheck (7 * time.Hour) false false in
  let s := mk (exampleConfig []) TrainMonitor.NewTrainMonitor
             TubeMonitor.NewTubeMonitor [task] 1 ∅ in
  tasks s !! 0%nat = Some task
  /\ Forall (fun now => time.Day now = currentDay s
                        /\ ~ (0 <= time.instant now - Time task
                              < 2 * time.Minute))
       (tickTimes W 3 s Eff0)
  /\ forall k, (k <= 3)%nat ->
               tasks (state (ticks W k s Eff0)) !! 0%nat = Some task.
Proof.
  cbv zeta.
  set (task := mkTask TaskMorningDelayCheck (7 * time.Hour) false false).
  set (s := mk (exampleConfig []) TrainMonitor.NewTrainMonitor
              TubeMonitor.NewTubeMonitor [task] 1 ∅).
  assert (H1 : tasks s !! 0%nat = Some task) by reflexivity.
  assert (H2 : Forall (fun now => time.Day now = currentDay s
                                  /\ ~ (0 <= time.instant now - Time task
                                        < 2 * time.Minute))
                 (tickTimes (exampleWorld []) 3 s Eff0)).
  { cbn [tickTimes].
    repeat (apply List.Forall_cons;
            [split; [reflexivity|];
             cbn; unfold time.Hour, time.Minute, time.Second; lia|]).
    apply List.Forall_nil. }
  split; [exact H1|]. split; [exact H2|].
  exact (proj1 (proj2 (proj2 (proj2
           (tick_executes_inside_window (exampleWorld [])))))
           3%nat s Eff0 0%nat task H1 H2).
Defined.

End TickWindow.

(** ** The scheduler: arrival checks *)

Section ArrivalTasks.

Import Scheduler.
Context (W : World).

Lemma arrivalTaskOK_other (task : Task) :
  isArrivalCheck (Typ task) = false -> arrivalTaskOK task.
Proof. intros H H'. congruence. Qed.

Lemma keeps_arrivalTasksOK_appendTasks (l : list Task) :
  Forall arrivalTaskOK l -> keeps arrivalTasksOK (appendTasks l).
Proof.
  intros Hl. apply keeps_modify. intros s l0 H.
  unfold arrivalTasksOK in *. cbn. apply Forall_app. auto.
Qed.

Lemma setupDailyTasks_keeps_arrivalTasksOK :
  keeps arrivalTasksOK (setupDailyTasks W).
Proof.
  unfold setupDailyTasks, config.IsActiveToday, config.DepartureTime,
    TrainMonitor.GetExpectedArrivalTime.
  repeat first
    [ keeps_step
    | apply keeps_modify; intros s0 l0 H0; constructor
    | apply keeps_arrivalTasksOK_appendTasks ].
  all: try (repeat (apply List.Forall_cons;
                    [intros Hty; cbn in Hty |- *;
                     first [discriminate|left; reflexivity]|]);
            apply List.Forall_nil).
  all: apply List.Forall_forall; intros x Hin;
    apply in_map_iff in Hin as (tm & <- & _);
    apply arrivalTaskOK_other; reflexivity.
Qed.

(** An arrival check in good standing that fires is repeating. *)
Lemma firing_arrival_repeats (now : time.Now) (task : Task) :
  arrivalTaskOK task -> isArrivalCheck (Typ task) = true ->
  fires now task = true -> Repeating task = true.
Proof.
  intros Hok Hty Hf. apply fires_iff in Hf as [[He|Hr] _]; [|exact Hr].
  destruct (Hok Hty) as [Hr|He']; [exact Hr|congruence].
Qed.

Lemma executeTask_arrivalTaskOK (now : time.Now) (task : Task) (s : t)
  (e : Eff) :
  arrivalTaskOK task -> fires now task = true ->
  arrivalTaskOK (value (executeTask W task s e)).
Proof.
  intros Hok Hf. destruct (isArrivalCheck (Typ task)) eqn:Hty.
  - assert (Hc : exists c, journeyOf (cfg s) (Typ task) = Some c)
      by (destruct (Typ task); try discriminate; cbn; eauto).
    destruct Hc as [c Hc].
    destruct (executeTask_arrival W task s e c Hty Hc) as (-> & _).
    pose proof (firing_arrival_repeats now task Hok Hty Hf) as Hr.
    intros _. unfold finish, terminal, advance.
    destruct (fst (value (arrivalCall W c task s e))); cbn; rewrite ?Hr; cbn;
      auto.
  - rewrite (executeTask_other W task s e Hty).
    apply arrivalTaskOK_other. destruct (finish_fields task) as (-> & _).
    exact Hty.
Qed.

Lemma tickTask_keeps_arrivalTasksOK (now : time.Now) (i : nat) :
  keeps arrivalTasksOK (tickTask W now i).
Proof.
  intros s e H. unfold arrivalTasksOK in *.
  destruct (tickTask_tasks W now i s e) as (_ & _ & ->).
  destruct (tasks s !! i) as [task|] eqn:Hi; [|exact H].
  destruct (fires now task) eqn:Hf; [|exact H].
  apply Forall_insert; [exact H|].
  apply (executeTask_arrivalTaskOK now); [|exact Hf].
  eapply Forall_lookup_1; eassumption.
Qed.

Lemma tickAt_keeps_arrivalTasksOK (now : time.Now) :
  keeps arrivalTasksOK (tickAt W now).
Proof.
  unfold tickAt, train, tube.
  repeat first
    [ keeps_step
    | apply setupDailyTasks_keeps_arrivalTasksOK
    | apply keeps_forEach; intros; apply tickTask_keeps_arrivalTasksOK
    | apply keeps_zoom;
      [first [apply set_trainMonitor_id|apply set_tubeMonitor_id]
      |intros s0; apply keeps_modify; intros ? ? H0; exact H0] ].
Qed.

Lemma ticks_keeps_arrivalTasksOK (n : nat) : keeps arrivalTasksOK (ticks W n).
Proof.
  induction n as [|n IH]; cbn [ticks]; [apply keeps_ret|].
  apply keeps_bind; [|intros _; exact IH].
  unfold tick. apply keeps_bind; [apply keeps_time_Now|].
  intros now. apply tickAt_keeps_arrivalTasksOK.
Qed.

Lemma run_arrivalTasksOK (n : nat) (c : config.Config)
  (tm : TrainMonitor.t) (tb : TubeMonitor.t) (e : Eff) :
  Forall arrivalTaskOK (tasks (state (run W n (NewScheduler c tm tb) e))).
Proof.
  apply (keeps_bind arrivalTasksOK (setupDailyTasks W) (fun _ => ticks W n)).
  - apply setupDailyTasks_keeps_arrivalTasksOK.
  - intros _. apply ticks_keeps_arrivalTasksOK.
  - constructor.
Qed.

End ArrivalTasks.

Section ArrivalOutcome.

Import Scheduler.

Lemma roundsFor_after (t dep : time.Time) :
  dep < t -> roundsFor t dep = 0%nat.
Proof.
  intros H. unfold roundsFor.
  assert ((dep - t) / (5 * time.Minute) < 0)
    by (apply Z.div_lt_upper_bound; unfold time.Minute, time.Second; lia).
  lia.
Qed.

Lemma roundsFor_step (t dep : time.Time) :
  t <= dep ->
  roundsFor t dep
  = Datatypes.S (roundsFor (time.Add t (5 * time.Minute)) dep).
Proof.
  intros H. unfold roundsFor, time.Add.
  replace (dep - (t + 5 * time.Minute))
    with (dep - t + (-1) * (5 * time.Minute)) by ring.
  rewrite Z.div_add by (unfold time.Minute, time.Second; lia).
  assert (0 <= (dep - t) / (5 * time.Minute))
    by (apply Z.div_pos; unfold time.Minute, time.Second; lia).
  lia.
Qed.

(** The rounds allowed to the loop of the line checks suffice: with
    more rounds the loop yields the same times, it has ended by its
    test. *)
Lemma lineCheckTimes_fuel (extra : nat) (t dep : time.Time) :
  lineCheckTimes (roundsFor t dep + extra) t dep
  = lineCheckTimes (roundsFor t dep) t dep.
Proof.
  remember (roundsFor t dep) as k eqn:Hk. revert t Hk.
  induction k as [|k IH]; intros t Hk.
  - destruct (Z.le_gt_cases t dep) as [Hle|Hgt].
    + rewrite (roundsFor_step t dep Hle) in Hk. discriminate.
    + destruct extra as [|extra]; [reflexivity|]. cbn.
      unfold time.After. destruct (Z.ltb_spec dep t); [reflexivity|lia].
  - destruct (Z.le_gt_cases t dep) as [Hle|Hgt].
    + rewrite (roundsFor_step t dep Hle) in Hk. injection Hk as Hk.
      cbn. destruct (negb (time.After t dep)); [|reflexivity].
      f_equal. apply IH, Hk.
    + rewrite (roundsFor_after t dep) in Hk by lia. discriminate.
Qed.

(** The line checks of the hour before the departure: thirteen, five
    minutes apart, the last at the departure. *)
Lemma lineCheckTimes_hour (dep : time.Time) :
  let start := time.Add dep (-60 * time.Minute) in
  lineCheckTimes (roundsFor start dep) start dep
  = map (fun k => dep + (5 * k - 60) * time.Minute)
      [0; 1; 2; 3; 4; 5; 6; 7; 8; 9; 10; 11; 12].
Proof.
  cbv zeta. unfold roundsFor, time.Add.
  replace (dep - (dep + -60 * time.Minute)) with (60 * time.Minute) by ring.
  change (Z.to_nat (60 * time.Minute / (5 * time.Minute) + 1)) with 13%nat.
  cbn [lineCheckTimes map].
  unfold time.After, time.Add, time.Minute, time.Second.
  repeat match goal with
         | |- context [negb (?a <? ?b)] =>
             destruct (Z.ltb_spec a b); [lia|]; cbn [negb]
         end.
  repeat (apply (f_equal2 cons); [lia|]). reflexivity.
Qed.

(** C5: executing an arrival check whose [CheckArrival] reports the
    arrival leaves the task not repeating and executed, at its time;
    such a task fires at no instant and stays as it is through every
    later tick of the day.  When [CheckArrival] reports no arrival the
    scheduled time is moved by exactly five minutes and the repeating
    flag is not changed, so a repeating task stays repeating, is not
    marked executed, and fires again inside the window of its new time.
    In a scheduler started by [run] every arrival check that fires is
    repeating. *)
Theorem arrival_check_terminal_or_advanced (W : World) :
  (forall (task : Task) (s : t) (e : Eff) (c : config.TrainConfig),
      isArrivalCheck (Typ task) = true ->
      journeyOf (cfg s) (Typ task) = Some c ->
      let r := executeTask W task s e in
      let arrived := fst (value (arrivalCall W c task s e)) in
      (arrived = true -> value r = mkTask (Typ task) (Time task) true false)
      /\ (arrived = false ->
          Time (value r) = Time task + 5 * time.Minute
          /\ Typ (value r) = Typ task
          /\ Repeating (value r) = Repeating task
          /\ (Repeating task = true -> Executed (value r) = Executed task)))
  /\ (forall (n : nat) (s : t) (e : Eff) (i : nat) (task : Task),
         tasks s !! i = Some task ->
         Executed task = true -> Repeating task = false ->
         Forall (fun now => time.Day now = currentDay s) (tickTimes W n s e) ->
         (forall now, fires now task = false)
         /\ forall k, (k <= n)%nat ->
                      tasks (state (ticks W k s e)) !! i = Some task)
  /\ (forall (now : time.Now) (task : Task),
         Repeating task = true ->
         fires now (advance task) = true
         <-> 0 <= time.instant now - (Time task + 5 * time.Minute)
             < 2 * time.Minute)
  /\ (forall (n : nat) (c : config.Config) (tm : TrainMonitor.t)
             (tb : TubeMonitor.t) (e : Eff) (now : time.Now) (task : Task),
         In task (tasks (state (run W n (NewScheduler c tm tb) e))) ->
         isArrivalCheck (Typ task) = true ->
         fires now task = true ->
         Repeating task = true).
Proof.
  split; [|split; [|split]].
  - intros task s e c Hty Hc r arrived.
    destruct (executeTask_arrival W task s e c Hty Hc) as (Hv & _).
    fold r in Hv. fold arrived in Hv. rewrite Hv. split.
    + intros ->. reflexivity.
    + intros ->. destruct (finish_fields (advance task)) as (-> & -> & ->).
      repeat split. intros Hr.
      rewrite finish_recurring by exact Hr. reflexivity.
  - intros n s e i task Hi He Hr HF. split.
    + intros now. apply fires_done; assumption.
    + intros k Hk.
      apply (ticks_untouched W (fun _ => True) i task).
      * intros now _. apply fires_done; assumption.
      * exact Hi.
      * rewrite (tickTimes_take W k n s e Hk). apply Forall_take.
        eapply Forall_impl; [exact HF|]. cbn. unfold sameDay. auto.
  - intros now task Hr. rewrite fires_iff. unfold inWindow, advance, time.Add.
    cbn. rewrite Hr. intuition.
  - intros n c tm tb e now task Hin Hty Hf.
    apply (firing_arrival_repeats now task); [|exact Hty|exact Hf].
    pose proof (run_arrivalTasksOK W n c tm tb e) as H.
    rewrite List.Forall_forall in H. apply H, Hin.
Qed.

(** The theorem on the morning arrival check of a journey whose
    destination is reached. *)
Lemma arrival_check_terminal_or_advanced_witness :
  let W := arrivalWorld [serviceAt "W10001" "0720" "0720"] "STP" true in
  let s := NewScheduler (exampleConfig []) TrainMonitor.NewTrainMonitor
             TubeMonitor.NewTubeMonitor in
  let task := mkTask TaskMorningArrivalCheck (8 * time.Hour) false true in
  let c := config.MorningTrain (exampleConfig []) in
  isArrivalCheck (Typ task) = true
  /\ journeyOf (cfg s) (Typ task) = Some c
  /\ fst (value (arrivalCall W c task s Eff0)) = true
  /\ (let r := executeTask W task s Eff0 in
      let arrived := fst (value (arrivalCall W c task s Eff0)) in
      (arrived = true -> value r = mkTask (Typ task) (Time task) true false)
      /\ (arrived = false ->
          Time (value r) = Time task + 5 * time.Minute
          /\ Typ (value r) = Typ task
          /\ Repeating (value r) = Repeating task
          /\ (Repeating task = true -> Executed (value r) = Executed task))).
Proof.
  cbv zeta. split; [reflexivity|]. split; [reflexivity|].
  split; [reflexivity|].
  apply (proj1 (arrival_check_terminal_or_advanced
                  (arrivalWorld [serviceAt "W10001" "0720" "0720"] "STP" true))
           (mkTask TaskMorningArrivalCheck (8 * time.Hour) false true)
           (NewScheduler (exampleConfig []) TrainMonitor.NewTrainMonitor
              TubeMonitor.NewTubeMonitor)
           Eff0 (config.MorningTrain (exampleConfig [])));
    reflexivity.
Defined.

(** An arrival check at a destination that is reached: the notice goes
    out and the task is terminal.  At a destination not yet reached: no
    notice, and the task is due five minutes later. *)
Example arrival_reached :
  let W := arrivalWorld [serviceAt "W10001" "0720" "0720"] "STP" true in
  let s := NewScheduler (exampleConfig []) TrainMonitor.NewTrainMonitor
             TubeMonitor.NewTubeMonitor in
  let task := mkTask TaskMorningArrivalCheck (8 * time.Hour) false true in
  let r := executeTask W task s Eff0 in
  value r = mkTask TaskMorningArrivalCheck (8 * time.Hour) true false
  /\ sent (effects r)
     = [mkNotification "Train Arrival"
          (TrainArrivalBody "W10001" "STP" "0812") notify.PriorityNormal].
Proof. split; reflexivity. Qed.

Example arrival_not_reached :
  let W := arrivalWorld [serviceAt "W10001" "0720" "0720"] "STP" false in
  let s := NewScheduler (exampleConfig []) TrainMonitor.NewTrainMonitor
             TubeMonitor.NewTubeMonitor in
  let task := mkTask TaskMorningArrivalCheck (8 * time.Hour) false true in
  let r := executeTask W task s Eff0 in
  value r
  = mkTask TaskMorningArrivalCheck (8 * time.Hour + 5 * time.Minute) false true
  /\ sent (effects r) = [].
Proof. split; reflexivity. Qed.

(** The tasks of a day on which both journeys run, when the arrival
    time cannot be looked up: 4 delay checks, 2 status updates, 1 arrival
    check and 13 line checks for the morning, 7 tasks for the evening.
    On a day on which neither runs: none. *)
Example tasks_of_a_day :
  let s := NewScheduler (exampleConfig []) TrainMonitor.NewTrainMonitor
             TubeMonitor.NewTubeMonitor in
  let r := setupDailyTasks (exampleWorld []) s Eff0 in
  length (tasks (state r)) = 27%nat
  /\ map Typ (List.filter Repeating (tasks (state r)))
     = [TaskMorningArrivalCheck; TaskEveningArrivalCheck]
  /\ currentDay (state r) = 1.
Proof. repeat split. Qed.

Example no_tasks_on_an_idle_day :
  let s := NewScheduler (exampleConfig ["Tuesday"; "friday"])
             TrainMonitor.NewTrainMonitor TubeMonitor.NewTubeMonitor in
  tasks (state (setupDailyTasks (exampleWorld []) s Eff0)) = [].
Proof. reflexivity. Qed.

Example tasks_on_a_listed_day :
  let s := NewScheduler (exampleConfig ["MONDAY"])
             TrainMonitor.NewTrainMonitor TubeMonitor.NewTubeMonitor in
  length (tasks (state (setupDailyTasks (exampleWorld []) s Eff0))) = 27%nat.
Proof. reflexivity. Qed.

End ArrivalOutcome.

(** ** A check that fails on the departure time *)

Section ParseError.

Import Scheduler.
Context (W : World).

Lemma CheckDelay_parse_error (from to dep : string) (m : TrainMonitor.t)
  (e : Eff) (perr : error) :
  time.Parse_1504 dep = Err perr ->
  TrainMonitor.CheckDelay W from to dep m e
  = (Some (wrapError "parsing departure time: " perr), m, e).
Proof.
  intros H. unfold TrainMonitor.CheckDelay, TrainMonitor.parseTimeToday.
  rewrite H. reflexivity.
Qed.

Lemma CheckStatus_parse_error (from to dep : string) (m : TrainMonitor.t)
  (e : Eff) (perr : error) :
  time.Parse_1504 dep = Err perr ->
  TrainMonitor.CheckStatus W from to dep m e
  = (Some (wrapError "parsing departure time: " perr), m, e).
Proof.
  intros H. unfold TrainMonitor.CheckStatus, TrainMonitor.parseTimeToday.
  rewrite H. reflexivity.
Qed.

Lemma CheckArrival_parse_error (from to dep : string) (m : TrainMonitor.t)
  (e : Eff) (perr : error) :
  time.Parse_1504 dep = Err perr ->
  TrainMonitor.CheckArrival W from to dep m e
  = (false, Some (wrapError "parsing departure time: " perr), m, e).
Proof.
  intros H. unfold TrainMonitor.CheckArrival, TrainMonitor.parseTimeToday.
  rewrite H. reflexivity.
Qed.

(** The whole of [executeTask] on a journey task whose departure time
    does not parse. *)
Lemma executeTask_parse_error (task : Task) (s : t) (e : Eff)
  (c : config.TrainConfig) (perr : error) :
  journeyOf (cfg s) (Typ task) = Some c ->
  time.Parse_1504 (config.Departure c) = Err perr ->
  executeTask W task s e
  = (finish (if isArrivalCheck (Typ task) then advance task else task), s,
     mkEff (calls e) (sent e)
       (logged e
        ++ [executingEntry task;
            failedEntry task (wrapError "parsing departure time: " perr)])).
Proof.
  intros Hc Hp. destruct task as [ty tm ex rp], s as [cf tmon tbmon ts cd ap].
  unfold executeTask, train, executingEntry, failedEntry, finish, advance.
  cbn [Typ Time Executed Repeating cfg] in *.
  destruct ty; cbn in Hc; try discriminate; injection Hc as <-;
    unfold bind, zoom, logEntry, get, ret;
    cbn [trainMonitor calls sent logged];
    rewrite ?(CheckDelay_parse_error _ _ _ _ _ perr Hp),
      ?(CheckStatus_parse_error _ _ _ _ _ perr Hp),
      ?(CheckArrival_parse_error _ _ _ _ _ perr Hp);
    cbn [calls sent logged isArrivalCheck Typ Time Executed Repeating iota
           set_trainMonitor cfg tubeMonitor tasks currentDay arrivalPolling];
    rewrite <- app_assoc; destruct rp; reflexivity.
Qed.

End ParseError.

Section FailedCheck.

Import Scheduler.

(** [executeTask] on a journey task whose departure time does not
    parse, whatever the state it is called in: the failure is logged,
    nothing is sent and the monitors are untouched, and the task is
    treated as after any other execution: one that does not repeat is
    marked executed and fires at no later instant, inside its window or
    not; a repeating arrival check is not marked, its time moves by five
    minutes.  The list of tasks that [setupDailyTasks] builds has no such
    task: a journey whose departure does not parse is left out of the
    day. *)
Lemma executeTask_unparsable_departure (W : World) (task : Task) (s : t)
  (e : Eff) (c : config.TrainConfig) (perr : error) :
  journeyOf (cfg s) (Typ task) = Some c ->
  time.Parse_1504 (config.Departure c) = Err perr ->
  let r := executeTask W task s e in
  state r = s
  /\ sent (effects r) = sent e
  /\ logged (effects r)
     = (logged e
        ++ [executingEntry task;
            failedEntry task (wrapError "parsing departure time: " perr)])%list
  /\ (Repeating task = false ->
      Executed (value r) = true /\ Repeating (value r) = false
      /\ forall now, fires now (value r) = false)
  /\ (Repeating task = true ->
      value r = if isArrivalCheck (Typ task) then advance task else task).
Proof.
  intros Hc Hp r. subst r.
  rewrite (executeTask_parse_error W task s e c perr Hc Hp). cbn.
  repeat split.
  - destruct (executeTask_marks W task s e H) as [H1 _].
    rewrite (executeTask_parse_error W task s e c perr Hc Hp) in H1.
    exact H1.
  - destruct (executeTask_marks W task s e H) as [_ H2].
    rewrite (executeTask_parse_error W task s e c perr Hc Hp) in H2.
    exact H2.
  - intros now.
    destruct (executeTask_marks W task s e H) as [H1 H2].
    rewrite (executeTask_parse_error W task s e c perr Hc Hp) in H1, H2.
    apply fires_done; assumption.
  - intros Hr. apply finish_recurring.
    destruct (isArrivalCheck (Typ task)); exact Hr.
Qed.

End FailedCheck.

(** ** The reset at the change of day *)

Section Rollover.

Import Scheduler.

Lemma tickAt_new_day (W : World) (now : time.Now) (s : t) (e : Eff) :
  time.Day now <> currentDay s ->
  tickAt W now s e
  = (setupDailyTasks W ;;;
     s' <- get ;;
     forEach (seq 0 (length (tasks s'))) (tickTask W now))
      (set_tubeMonitor TubeMonitor.NewTubeMonitor
         (set_trainMonitor TrainMonitor.NewTrainMonitor s))
      (mkEff (calls e) (sent e)
         (logged e
          ++ [mkLogEntry InfoLevel "day changed, resetting tasks" []])).
Proof.
  intros H. apply Z.eqb_neq in H.
  unfold tickAt, train, tube, TrainMonitor.ResetNotificationState,
    TubeMonitor.ResetNotificationState.
  cbv [bind get zoom modify logEntry ret]. rewrite H. cbn [negb].
  reflexivity.
Qed.

Lemma handleDelay_fresh (W : World) (svc : rtt.Service) (from to : string)
  (d : Z) (e : Eff) :
  let r := TrainMonitor.handleDelay W svc from to d
             TrainMonitor.NewTrainMonitor e in
  sent (effects r)
  = (sent e ++ if 0 <? TrainMonitor.delayBucket d
               then [delayAlert svc from to d] else [])%list.
Proof.
  assert (H0 : TrainMonitor.lastBucketOf TrainMonitor.NewTrainMonitor
                 (rtt.ServiceUid svc) = 0)
    by (unfold TrainMonitor.lastBucketOf; cbn; rewrite lookup_empty;
        reflexivity).
  cbv zeta.
  destruct (Z.ltb_spec 0 (TrainMonitor.delayBucket d)) as [Hlt|Hge].
  - apply handleDelay_notifies. rewrite H0. exact Hlt.
  - destruct (handleDelay_suppresses W svc from to d
                TrainMonitor.NewTrainMonitor e) as (_ & _ & ->);
      [rewrite H0; exact Hge|].
    rewrite app_nil_r. reflexivity.
Qed.

(** C3: [ResetNotificationState] puts either monitor back into the
    state of its constructor, for the line monitor the state of no
    observation yet.  A tick that sees another day than the scheduler's
    logs the change and then is the set-up of the day followed by the
    loop over the tasks, run on freshly constructed monitors: it does
    not depend on what the monitors remembered.  A fresh journey monitor
    alerts a delay exactly when its bucket is positive; so whatever
    bucket was alerted for a service in a run of gated observations,
    the same delay alerts again after the reset. *)
Theorem day_rollover_resets_dedup (W : World) :
  (forall (m : TrainMonitor.t) (e : Eff),
      TrainMonitor.ResetNotificationState m e
      = (tt, TrainMonitor.NewTrainMonitor, e))
  /\ (forall (m : TubeMonitor.t) (e : Eff),
         TubeMonitor.ResetNotificationState m e
         = (tt, TubeMonitor.NewTubeMonitor, e))
  /\ noObservationYet TubeMonitor.NewTubeMonitor
  /\ (forall (now : time.Now) (s : t) (e : Eff),
         time.Day now <> currentDay s ->
         tickAt W now s e
         = (setupDailyTasks W ;;;
            s' <- get ;;
            forEach (seq 0 (length (tasks s'))) (tickTask W now))
             (set_tubeMonitor TubeMonitor.NewTubeMonitor
                (set_trainMonitor TrainMonitor.NewTrainMonitor s))
             (mkEff (calls e) (sent e)
                (logged e
                 ++ [mkLogEntry InfoLevel "day changed, resetting tasks" []])))
  /\ (forall (svc : rtt.Service) (from to : string) (d : Z) (e : Eff),
         let r := TrainMonitor.handleDelay W svc from to d
                    TrainMonitor.NewTrainMonitor e in
         sent (effects r)
         = (sent e ++ if 0 <? TrainMonitor.delayBucket d
                      then [delayAlert svc from to d] else [])%list)
  /\ (forall (yesterday : World)
             (obs : list (rtt.Service * string * string))
             (svc : rtt.Service) (from to : string) (d : Z)
             (m : TrainMonitor.t) (e : Eff),
         In (TrainMonitor.delayBucket d)
           (bucketsSent (rtt.ServiceUid svc)
              (sent (effects
                       (TrainMonitor.observe yesterday
                          (map TrainMonitor.gated obs)
                          TrainMonitor.NewTrainMonitor Eff0)))) ->
         let r := (TrainMonitor.ResetNotificationState ;;;
                   TrainMonitor.handleDelay W svc from to d) m e in
         sent (effects r) = (sent e ++ [delayAlert svc from to d])%list
         /\ TrainMonitor.lastBucketOf (state r) (rtt.ServiceUid svc)
            = TrainMonitor.delayBucket d).
Proof.
  split; [|split; [|split; [|split; [|split]]]].
  - reflexivity.
  - reflexivity.
  - reflexivity.
  - intros now s e. apply tickAt_new_day.
  - intros svc from to d e. apply handleDelay_fresh.
  - intros yesterday obs svc from to d m e Hin r.
    assert (Hinv : delayInv
                     (state (TrainMonitor.observe yesterday
                               (map TrainMonitor.gated obs)
                               TrainMonitor.NewTrainMonitor Eff0))
                     (sent (effects
                              (TrainMonitor.observe yesterday
                                 (map TrainMonitor.gated obs)
                                 TrainMonitor.NewTrainMonitor Eff0)))).
    { apply (keeps_gated_observe yesterday delayInv obs).
      - apply gated_processService_keeps_delayInv.
      - apply delayInv_fresh. }
    destruct (Hinv (rtt.ServiceUid svc)) as (_ & _ & Hall).
    rewrite List.Forall_forall in Hall. apply Hall in Hin as [Hpos _].
    assert (H0 : TrainMonitor.lastBucketOf TrainMonitor.NewTrainMonitor
                   (rtt.ServiceUid svc) < TrainMonitor.delayBucket d).
    { unfold TrainMonitor.lastBucketOf. cbn. rewrite lookup_empty. exact Hpos. }
    assert (Hr : r = TrainMonitor.handleDelay W svc from to d
                       TrainMonitor.NewTrainMonitor e) by reflexivity.
    rewrite Hr. clear Hr r.
    destruct (handleDelay_notifies W svc from to d
                TrainMonitor.NewTrainMonitor e H0) as [Hs Hsent].
    rewrite Hsent, Hs. split; [reflexivity|].
    rewrite lastBucketOf_insert. destruct (decide _); [reflexivity|contradiction].
Qed.

(** The theorem on a bucket alerted the day before: 15 minutes late
    alerts again on a memory that is reset. *)
Lemma day_rollover_resets_dedup_witness :
  let W := exampleWorld [] in
  let svc := serviceAt "W10001" "0720" "0735" in
  let m := TrainMonitor.mk (<["W10001" := 15]> ∅) ∅ in
  let r := (TrainMonitor.ResetNotificationState ;;;
            TrainMonitor.handleDelay W svc "SAC" "STP" 15) m Eff0 in
  In (TrainMonitor.delayBucket 15)
    (bucketsSent (rtt.ServiceUid svc)
       (sent (effects
                (TrainMonitor.observe W
                   (map TrainMonitor.gated [(svc, "SAC", "STP")])
                   TrainMonitor.NewTrainMonitor Eff0))))
  /\ (sent (effects r) = (sent Eff0 ++ [delayAlert svc "SAC" "STP" 15])%list
      /\ TrainMonitor.lastBucketOf (state r) (rtt.ServiceUid svc)
         = TrainMonitor.delayBucket 15).
Proof.
  cbv zeta.
  assert (H : In (TrainMonitor.delayBucket 15)
                (bucketsSent
                   (rtt.ServiceUid (serviceAt "W10001" "0720" "0735"))
                   (sent (effects
                            (TrainMonitor.observe (exampleWorld [])
                               (map TrainMonitor.gated
                                  [(serviceAt "W10001" "0720" "0735",
                                    "SAC", "STP")])
                               TrainMonitor.NewTrainMonitor Eff0)))))
    by (left; reflexivity).
  split; [exact H|].
  exact (proj2 (proj2 (proj2 (proj2 (proj2
           (day_rollover_resets_dedup (exampleWorld []))))))
           (exampleWorld []) [(serviceAt "W10001" "0720" "0735", "SAC", "STP")]
           (serviceAt "W10001" "0720" "0735") "SAC" "STP" 15
           (TrainMonitor.mk (<["W10001" := 15]> ∅) ∅) Eff0 H).
Defined.

End Rollover.

(** * Further properties of the code *)

(** ** [parseHHMM] and [calculateDelay] on all inputs *)

Section HHMMBytes.

Import TrainMonitor.

Lemma removeColons_app (s t : string) :
  strings.removeColons (s ++ t)
  = (strings.removeColons s ++ strings.removeColons t)%string.
Proof.
  induction s as [|c s IH].
  - reflexivity.
  - change ((String c s ++ t)%string) with (String c (s ++ t)%string).
    cbn [strings.removeColons]. rewrite IH.
    destruct (Ascii.eqb c ":"); reflexivity.
Qed.

Lemma removeColons_idempotent (s : string) :
  strings.removeColons (strings.removeColons s) = strings.removeColons s.
Proof.
  induction s as [|c s IH]; [reflexivity|]. cbn [strings.removeColons].
  destruct (Ascii.eqb c ":") eqn:Hc; [exact IH|].
  cbn [strings.removeColons]. rewrite Hc, IH. reflexivity.
Qed.

Lemma length_append (s t : string) :
  String.length (s ++ t) = (String.length s + String.length t)%nat.
Proof.
  induction s as [|c s IH]; [reflexivity|].
  change ((String c s ++ t)%string) with (String c (s ++ t)%string).
  cbn [String.length]. rewrite IH. reflexivity.
Qed.

Lemma substring_append (s t : string) :
  forall n m, (n + m <= String.length s)%nat ->
              substring n m (s ++ t) = substring n m s.
Proof.
  induction s as [|c s IH]; intros n m H.
  - cbn in H. assert (n = 0%nat) by lia. assert (m = 0%nat) by lia. subst.
    destruct t; reflexivity.
  - change ((String c s ++ t)%string) with (String c (s ++ t)%string).
    cbn [String.length] in H. destruct n as [|n]; destruct m as [|m];
      cbn [substring]; try reflexivity.
    + rewrite IH by lia. reflexivity.
    + apply IH. lia.
    + apply IH. lia.
Qed.

(** X1: [parseHHMM] reads the first four bytes that are no colons
    and nothing else: colons are ignored wherever they stand, and once
    four other bytes are there, whatever follows (seconds, a suffix) does
    not change the result, be it a time or an error; so neither does it
    change the delay computed. *)
Theorem parseHHMM_reads_four_bytes (s t : string) :
  (4 <= String.length (strings.removeColons s))%nat ->
  parseHHMM (s ++ t) = parseHHMM s
  /\ parseHHMM (strings.removeColons s) = parseHHMM s
  /\ (forall other, calculateDelay (s ++ t) other = calculateDelay s other)
  /\ (forall other, calculateDelay other (s ++ t) = calculateDelay other s).
Proof.
  intros Hlen.
  assert (H1 : parseHHMM (s ++ t) = parseHHMM s).
  { unfold parseHHMM. rewrite removeColons_app.
    set (s' := strings.removeColons s) in *.
    set (t' := strings.removeColons t).
    rewrite !substring_append by lia. rewrite length_append.
    destruct (Z.ltb_spec (Z.of_nat (String.length s' + String.length t')) 4);
      [lia|].
    destruct (Z.ltb_spec (Z.of_nat (String.length s')) 4); [lia|].
    reflexivity. }
  split; [exact H1|]. split.
  - unfold parseHHMM. rewrite removeColons_idempotent. reflexivity.
  - unfold calculateDelay. rewrite H1. split; reflexivity.
Qed.

Lemma parseHHMM_reads_four_bytes_witness :
  (4 <= String.length (strings.removeColons "07:35"))%nat
  /\ (parseHHMM ("07:35" ++ ":59") = parseHHMM "07:35"
      /\ parseHHMM (strings.removeColons "07:35") = parseHHMM "07:35"
      /\ (forall other,
             calculateDelay ("07:35" ++ ":59") other
             = calculateDelay "07:35" other)
      /\ (forall other,
             calculateDelay other ("07:35" ++ ":59")
             = calculateDelay other "07:35")).
Proof.
  assert (H : (4 <= String.length (strings.removeColons "07:35"))%nat)
    by (cbn; lia).
  split; [exact H|]. exact (parseHHMM_reads_four_bytes "07:35" ":59" H).
Defined.

(** A field of two bytes read by [Atoi]: a sign leaves room for one
    digit. *)
Lemma Atoi_two_bytes_signed (s : string) (v : Z) :
  (String.length s <= 2)%nat -> strconv.Atoi s = Ok v -> -9 <= v <= 99.
Proof.
  intros Hlen. unfold strconv.Atoi. destruct s as [|c r]; [discriminate|].
  cbn [String.length] in Hlen.
  destruct (Ascii.eqb c "-") eqn:Hneg; cbn [orb].
  - destruct r as [|b [|x y]];
      [discriminate| |cbn [String.length] in Hlen; lia].
    cbn [strconv.digits]. destruct (time.isDigit b) eqn:Hb; [|discriminate].
    apply isDigit_digit in Hb.
    destruct ((time.minDuration <=? - (0 * 10 + time.digit b))
              && (- (0 * 10 + time.digit b) <=? time.maxDuration));
      [|discriminate].
    intros H. injection H as <-. lia.
  - set (body := if Ascii.eqb c "+" then r else String c r).
    assert (Hb : (String.length body <= 2)%nat)
      by (subst body; destruct (Ascii.eqb c "+"); cbn [String.length]; lia).
    destruct body as [|b body']; [discriminate|].
    destruct (strconv.digits (String b body') 0) as [n|] eqn:Hd; [|discriminate].
    apply digits_two_bytes in Hd; [|exact Hb].
    destruct ((time.minDuration <=? n) && (n <=? time.maxDuration));
      [|discriminate].
    intros H. injection H as <-. lia.
Qed.

(** X2: whatever the two strings are, the delay computed is never
    negative and never above 6588 minutes, the difference between the
    largest and the smallest time that can be read from four bytes
    (99 hours 99 minutes, and 9 hours 9 minutes before the origin). *)
Theorem calculateDelay_range (scheduled actual : string) :
  0 <= calculateDelay scheduled actual <= 6588.
Proof.
  destruct (parseHHMM scheduled) as [ts|es] eqn:Hs.
  - destruct (parseHHMM actual) as [ta|ea] eqn:Ha.
    + destruct (calculateDelay_parsed _ _ _ _ Hs Ha) as (k & Hk & ->).
      apply parseHHMM_Ok in Hs as (hs & ms & _ & Hhs & Hms & _ & _ & ->).
      apply parseHHMM_Ok in Ha as (ha & ma & _ & Hha & Hma & _ & _ & ->).
      apply Atoi_two_bytes_signed in Hhs, Hms, Hha, Hma;
        try apply length_substring_le.
      unfold time.Hour, time.Minute, time.Second in Hk. lia.
    + unfold calculateDelay. rewrite Hs, Ha. lia.
  - unfold calculateDelay. rewrite Hs. lia.
Qed.

Example delay_reaches_its_bound : calculateDelay "-9-9" "9999" = 6588.
Proof. reflexivity. Qed.

End HHMMBytes.

(** ** The journey monitor: what one observation sends *)

Section OneObservation.

Import TrainMonitor.
Context (W : World).

Lemma processService_always (svc : rtt.Service) (from to : string)
  (m : t) (e : Eff) :
  cancelled svc = false ->
  let r := processService W svc from to true m e in
  state r = m
  /\ sent (effects r)
     = (sent e ++ [if 0 <? observedDelay svc
                   then delayAlert svc from to (observedDelay svc)
                   else onTimeNotice svc from to])%list.
Proof.
  intros Hc. unfold processService, cancelled, observedDelay in *.
  rewrite Hc. cbv zeta.
  match goal with
  | |- context [0 <? ?d] => destruct (0 <? d)
  end; run; destruct (pushover_SendMessage W _ _); cbn; auto.
Qed.

(** X3: in always-notify mode a service that is not cancelled gets
    exactly one notification, the delay alert when the delay computed is
    positive and the on-time notice otherwise, and the memory is left as
    it was: the mark of the service is neither read nor raised, so the
    gated check that follows decides as if the status update had not
    happened. *)
Theorem status_update_sends_one_notification (svc : rtt.Service)
  (from to : string) (m : t) (e : Eff) :
  cancelled svc = false ->
  let r := processService W svc from to true m e in
  state r = m
  /\ sent (effects r)
     = (sent e ++ [if 0 <? observedDelay svc
                   then delayAlert svc from to (observedDelay svc)
                   else onTimeNotice svc from to])%list
  /\ (0 <= lastBucketOf m (rtt.ServiceUid svc) ->
      sent (effects (processService W svc from to false (state r) (effects r)))
      = (sent (effects r)
         ++ if lastBucketOf m (rtt.ServiceUid svc)
               <? delayBucket (observedDelay svc)
            then [delayAlert svc from to (observedDelay svc)] else [])%list).
Proof.
  intros Hc r.
  destruct (processService_always svc from to m e Hc) as [Hs Hsent].
  fold r in Hs, Hsent. split; [exact Hs|]. split; [exact Hsent|].
  intros Hm. rewrite Hs.
  apply (processService_gated_decision W svc from to m _ Hc Hm).
Qed.

(** X4: a service displayed as cancelled is handled as a
    cancellation in either mode, whatever its departure times say: the
    only notification it can cause is the cancellation alert (none when
    the latch is set), no delay alert and no on-time notice, and the
    delay marks are untouched. *)
Theorem cancelled_service_only_cancellation (svc : rtt.Service)
  (from to : string) (always : bool) (m : t) (e : Eff) :
  rtt.DisplayAs (rtt.locationDetail svc) = "CANCELLED_CALL"
  \/ rtt.DisplayAs (rtt.locationDetail svc) = "CANCELLED" ->
  let r := processService W svc from to always m e in
  sent (effects r)
  = (sent e ++ if cancelNotified m (rtt.ServiceUid svc) then []
               else [cancellationAlert svc from to])%list
  /\ notifiedDelays (state r) = notifiedDelays m
  /\ (forall uid, delaysSent uid (sent (effects r)) = delaysSent uid (sent e)).
Proof.
  intros Hd r.
  assert (Hr : r = handleCancellation W svc from to m e).
  { subst r. unfold processService.
    destruct Hd as [-> | ->]; reflexivity. }
  rewrite Hr. clear Hr r.
  rewrite handleCancellation_sent, handleCancellation_delays.
  repeat split. intros uid. rewrite delaysSent_app.
  destruct (cancelNotified m (rtt.ServiceUid svc)); cbn;
    rewrite app_nil_r; reflexivity.
Qed.

(** X5: the memory is written before the notification is handed
    over, so a delay alert that the push service refuses is not tried
    again: [handleDelay] returns the error, the mark of the service is
    raised all the same, and no later observation of that service with a
    bucket that is not larger sends anything.  The same holds for a
    refused cancellation alert. *)
Theorem refused_alert_is_not_retried (svc : rtt.Service) (from to : string)
  (d : Z) (m : t) (e : Eff) (err : error) :
  lastBucketOf m (rtt.ServiceUid svc) < delayBucket d ->
  pushover_SendMessage W (calls e) (delayAlert svc from to d) = Some err ->
  let r := handleDelay W svc from to d m e in
  value r = Some (wrapError "sending pushover notification: " err)
  /\ lastBucketOf (state r) (rtt.ServiceUid svc) = delayBucket d
  /\ (forall (W' : World) (svc' : rtt.Service) (from' to' : string) (d' : Z),
         rtt.ServiceUid svc' = rtt.ServiceUid svc ->
         delayBucket d' <= delayBucket d ->
         handleDelay W' svc' from' to' d' (state r) (effects r)
         = (None, state r,
            mkEff (calls (effects r)) (sent (effects r))
              (logged (effects r)
               ++ [mkLogEntry DebugLevel
                     "delay already notified for this bucket"
                     [("service", FStr (rtt.ServiceUid svc'));
                      ("delay", FInt d');
                      ("bucket", FInt (delayBucket d'))]])))
  /\ (forall (c : rtt.Service) (err' : error),
         cancelNotified m (rtt.ServiceUid c) = false ->
         pushover_SendMessage W (calls e) (cancellationAlert c from to)
         = Some err' ->
         let r' := handleCancellation W c from to m e in
         value r' = Some (wrapError "sending pushover notification: " err')
         /\ forall W' from' to',
             handleCancellation W' c from' to' (state r') (effects r')
             = (None, state r', effects r')).
Proof.
  intros Hlt Hpush r.
  assert (Hst : state r
                = mk (<[rtt.ServiceUid svc := delayBucket d]> (notifiedDelays m))
                    (notifiedCancels m))
    by (apply handleDelay_notifies, Hlt).
  assert (Hmark : lastBucketOf (state r) (rtt.ServiceUid svc) = delayBucket d).
  { rewrite Hst, lastBucketOf_insert.
    destruct (decide _); [reflexivity|contradiction]. }
  split; [|split; [exact Hmark|split]].
  - subst r. unfold handleDelay. run.
    destruct (Z.ltb_spec (lastBucketOf m (rtt.ServiceUid svc)) (delayBucket d));
      [|lia].
    cbn. unfold delayAlert in Hpush. cbn in Hpush. rewrite Hpush. reflexivity.
  - intros W' svc' from' to' d' Huid Hle. unfold handleDelay. run.
    rewrite Huid, Hmark.
    destruct (Z.ltb_spec (delayBucket d) (delayBucket d')); [lia|].
    reflexivity.
  - intros c err' Hc Hpush' r'. split.
    + subst r'. unfold handleCancellation. run. rewrite Hc. cbn.
      unfold cancellationAlert in Hpush'. cbn in Hpush'. rewrite Hpush'.
      reflexivity.
    + intros W' from' to'. apply handleCancellation_again.
      subst r'. rewrite handleCancellation_latch, String.eqb_refl.
      apply orb_true_r.
Qed.

End OneObservation.

Section OneObservationWitnesses.

Import TrainMonitor.

Lemma status_update_sends_one_notification_witness :
  let W := exampleWorld [] in
  let svc := serviceAt "W10001" "0720" "0735" in
  let m := NewTrainMonitor in
  let e := Eff0 in
  cancelled svc = false
  /\ (let r := processService W svc "SAC" "STP" true m e in
      state r = m
      /\ sent (effects r)
         = (sent e ++ [if 0 <? observedDelay svc
                       then delayAlert svc "SAC" "STP" (observedDelay svc)
                       else onTimeNotice svc "SAC" "STP"])%list
      /\ (0 <= lastBucketOf m (rtt.ServiceUid svc) ->
          sent (effects (processService W svc "SAC" "STP" false (state r)
                           (effects r)))
          = (sent (effects r)
             ++ if lastBucketOf m (rtt.ServiceUid svc)
                   <? delayBucket (observedDelay svc)
                then [delayAlert svc "SAC" "STP" (observedDelay svc)]
                else [])%list)).
Proof.
  cbv zeta. split; [reflexivity|].
  apply (status_update_sends_one_notification (exampleWorld [])
           (serviceAt "W10001" "0720" "0735") "SAC" "STP" NewTrainMonitor Eff0).
  reflexivity.
Defined.

(** A status update and the delay check of the same minute both alert
    the same delay. *)
Example status_update_then_delay_check :
  let W := exampleWorld [] in
  let svc := serviceAt "W10001" "0720" "0735" in
  let r :=
    observe W [mkObservation svc "SAC" "STP" true;
               mkObservation svc "SAC" "STP" false] NewTrainMonitor Eff0 in
  sent (effects r)
  = [delayAlert svc "SAC" "STP" 15; delayAlert svc "SAC" "STP" 15].
Proof. reflexivity. Qed.

Lemma cancelled_service_only_cancellation_witness :
  let W := exampleWorld [] in
  let svc :=
    rtt.mkService "W10001"
      (rtt.mkLocationDetail "0720" "0755" "2" "CANCELLED_CALL" "") in
  let m := NewTrainMonitor in
  let e := Eff0 in
  (rtt.DisplayAs (rtt.locationDetail svc) = "CANCELLED_CALL"
   \/ rtt.DisplayAs (rtt.locationDetail svc) = "CANCELLED")
  /\ (let r := processService W svc "SAC" "STP" true m e in
      sent (effects r)
      = (sent e ++ if cancelNotified m (rtt.ServiceUid svc) then []
                   else [cancellationAlert svc "SAC" "STP"])%list
      /\ notifiedDelays (state r) = notifiedDelays m
      /\ (forall uid,
             delaysSent uid (sent (effects r)) = delaysSent uid (sent e))).
Proof.
  cbv zeta. split; [left; reflexivity|].
  apply (cancelled_service_only_cancellation (exampleWorld [])
           (rtt.mkService "W10001"
              (rtt.mkLocationDetail "0720" "0755" "2" "CANCELLED_CALL" ""))
           "SAC" "STP" true NewTrainMonitor Eff0).
  left. reflexivity.
Defined.

Lemma refused_alert_is_not_retried_witness :
  let W := unreachablePush [] in
  let svc := serviceAt "W10001" "0720" "0735" in
  let m := NewTrainMonitor in
  let e := Eff0 in
  let err := errorString "push service unreachable" in
  lastBucketOf m (rtt.ServiceUid svc) < delayBucket 15
  /\ pushover_SendMessage W (calls e) (delayAlert svc "SAC" "STP" 15)
     = Some err
  /\ value (handleDelay W svc "SAC" "STP" 15 m e)
     = Some (wrapError "sending pushover notification: " err)
  /\ lastBucketOf (state (handleDelay W svc "SAC" "STP" 15 m e))
       (rtt.ServiceUid svc) = delayBucket 15.
Proof.
  cbv zeta.
  assert (H1 : lastBucketOf NewTrainMonitor
                 (rtt.ServiceUid (serviceAt "W10001" "0720" "0735"))
               < delayBucket 15) by reflexivity.
  assert (H2 : pushover_SendMessage (unreachablePush []) (calls Eff0)
                 (delayAlert (serviceAt "W10001" "0720" "0735") "SAC" "STP" 15)
               = Some (errorString "push service unreachable"))
    by reflexivity.
  split; [exact H1|]. split; [exact H2|].
  pose proof (refused_alert_is_not_retried (unreachablePush [])
                (serviceAt "W10001" "0720" "0735") "SAC" "STP" 15
                NewTrainMonitor Eff0 (errorString "push service unreachable")
                H1 H2) as (Hv & Hm & _).
  split; [exact Hv|exact Hm].
Defined.

End OneObservationWitnesses.

(** ** The journey monitor: failed searches and the arrival check *)

Section SearchFails.

Import TrainMonitor.
Context (W : World) (from to departureTime : string) (m : t) (e : Eff)
  (h mi : Z) (err : error).
Hypothesis Hparse : time.Parse_1504 departureTime = Ok (h, mi).
Hypothesis Hsearch :
  rtt_Search W (Datatypes.S (calls e)) from to
    (time.today_at (clock W (calls e)) h mi) = Err err.

Lemma CheckDelay_search_error :
  let r := CheckDelay W from to departureTime m e in
  value r = Some (wrapError "searching for train: " err)
  /\ state r = m /\ sent (effects r) = sent e.
Proof.
  unfold CheckDelay, parseTimeToday. rewrite Hparse. run. rewrite Hsearch.
  cbn. auto.
Qed.

Lemma CheckStatus_search_error :
  let r := CheckStatus W from to departureTime m e in
  value r = Some (wrapError "searching for train: " err)
  /\ state r = m /\ sent (effects r) = sent e.
Proof.
  unfold CheckStatus, parseTimeToday. rewrite Hparse. run. rewrite Hsearch.
  cbn. auto.
Qed.

Lemma CheckArrival_search_error :
  let r := CheckArrival W from to departureTime m e in
  value r = (false, Some (wrapError "searching for train: " err))
  /\ state r = m /\ sent (effects r) = sent e.
Proof.
  unfold CheckArrival, parseTimeToday. rewrite Hparse. run. rewrite Hsearch.
  cbn. auto.
Qed.

Lemma GetExpectedArrivalTime_search_error :
  value (GetExpectedArrivalTime W from to departureTime m e)
  = Err (wrapError "searching for train: " err).
Proof.
  unfold GetExpectedArrivalTime, parseTimeToday. rewrite Hparse. run.
  rewrite Hsearch. reflexivity.
Qed.

End SearchFails.

Section ArrivalCheck.

Import TrainMonitor.

(** X6: when the search of the journey source fails, each of the
    three checks returns the failure wrapped as its error (the arrival
    check with "not arrived"), sends nothing and leaves the memory as it
    was, and the look-up of the arrival time returns the same error. *)
Theorem failed_search_changes_nothing (W : World)
  (from to departureTime : string) (m : t) (e : Eff) (h mi : Z)
  (err : error) :
  time.Parse_1504 departureTime = Ok (h, mi) ->
  rtt_Search W (Datatypes.S (calls e)) from to
    (time.today_at (clock W (calls e)) h mi) = Err err ->
  let failure := wrapError "searching for train: " err in
  let r1 := CheckDelay W from to departureTime m e in
  let r2 := CheckStatus W from to departureTime m e in
  let r3 := CheckArrival W from to departureTime m e in
  (value r1 = Some failure /\ state r1 = m /\ sent (effects r1) = sent e)
  /\ (value r2 = Some failure /\ state r2 = m /\ sent (effects r2) = sent e)
  /\ (value r3 = (false, Some failure) /\ state r3 = m
      /\ sent (effects r3) = sent e)
  /\ value (GetExpectedArrivalTime W from to departureTime m e) = Err failure.
Proof.
  intros Hp Hs. cbv zeta. repeat apply conj.
  all: first
    [ apply (CheckDelay_search_error W from to departureTime m e h mi err Hp Hs)
    | apply (CheckStatus_search_error W from to departureTime m e h mi err Hp Hs)
    | apply (CheckArrival_search_error W from to departureTime m e h mi err
               Hp Hs)
    | apply (GetExpectedArrivalTime_search_error W from to departureTime m e
               h mi err Hp Hs) ].
Qed.

Lemma app_one_neq {A} (l : list A) (x : A) : l <> (l ++ [x])%list.
Proof.
  intros H. apply (f_equal (@length A)) in H.
  rewrite length_app in H. cbn in H. lia.
Qed.

(** X7: the arrival check never touches the memory, and it reports
    the arrival exactly when it has handed the arrival notice for the
    destination to the notifier: with "arrived" one notice was added, at
    normal priority, with "not arrived" none. *)
Theorem CheckArrival_reports_what_it_sent (W : World)
  (from to departureTime : string) (m : t) (e : Eff) :
  let r := CheckArrival W from to departureTime m e in
  state r = m
  /\ (fst (value r) = true
      <-> exists uid arrivalTime,
          sent (effects r)
          = (sent e ++ [arrivalNotice uid to arrivalTime])%list)
  /\ (fst (value r) = false <-> sent (effects r) = sent e).
Proof.
  unfold CheckArrival, parseTimeToday.
  assert (Hno : state (false, None : option error, m, e) = m
                /\ (fst (value (false, None : option error, m, e)) = true
                    <-> exists uid arrivalTime,
                        sent (effects (false, None : option error, m, e))
                        = (sent e ++ [arrivalNotice uid to arrivalTime])%list)
                /\ (fst (value (false, None : option error, m, e)) = false
                    <-> sent (effects (false, None : option error, m, e))
                        = sent e)).
  { cbn. split; [reflexivity|]. split; [|tauto].
    split; [discriminate|]. intros (uid & tm & H).
    exfalso. exact (app_one_neq _ _ H). }
  destruct (time.Parse_1504 departureTime) as [[h mi]|perr]; run.
  2:{ cbn. split; [reflexivity|]. split; [|tauto].
      split; [discriminate|]. intros (uid & tm & H).
      exfalso. exact (app_one_neq _ _ H). }
  destruct (rtt_Search W _ _ _ _) as [resp|serr]; cbn.
  2:{ split; [reflexivity|]. split; [|tauto].
      split; [discriminate|]. intros (uid & tm & H).
      exfalso. exact (app_one_neq _ _ H). }
  destruct (noServices resp); cbn.
  { split; [reflexivity|]. split; [|tauto].
    split; [discriminate|]. intros (uid & tm & H).
    exfalso. exact (app_one_neq _ _ H). }
  destruct (findMatchingService (servicesOf resp) departureTime) as [svc|]; cbn.
  2:{ split; [reflexivity|]. split; [|tauto].
      split; [discriminate|]. intros (uid & tm & H).
      exfalso. exact (app_one_neq _ _ H). }
  destruct (rtt_GetService W _ _ _) as [details|gerr]; cbn.
  2:{ split; [reflexivity|]. split; [|tauto].
      split; [discriminate|]. intros (uid & tm & H).
      exfalso. exact (app_one_neq _ _ H). }
  destruct (find _ (rtt.Locations details)) as [loc|]; cbn.
  2:{ split; [reflexivity|]. split; [|tauto].
      split; [discriminate|]. intros (uid & tm & H).
      exfalso. exact (app_one_neq _ _ H). }
  destruct (rtt.RealtimeArrivalActual loc); cbn.
  2:{ split; [reflexivity|]. split; [|tauto].
      split; [discriminate|]. intros (uid & tm & H).
      exfalso. exact (app_one_neq _ _ H). }
  destruct (pushover_SendMessage W _ _); cbn;
    (split; [reflexivity|]); (split; [split; [eauto|reflexivity]|]);
    (split; [discriminate|]); intros H; exfalso;
    exact (app_one_neq _ _ (eq_sym H)).
Qed.


(** The theorem on a search that fails at the first delay check of a new
    monitor. *)
Lemma failed_search_changes_nothing_witness :
  let r := CheckDelay searchDown "SAC" "STP" "0720" NewTrainMonitor Eff0 in
  value r
  = Some (wrapError "searching for train: "
            (errorString "journey source unreachable"))
  /\ state r = NewTrainMonitor /\ sent (effects r) = [].
Proof.
  cbv zeta.
  exact (proj1 (failed_search_changes_nothing searchDown "SAC" "STP" "0720"
                  NewTrainMonitor Eff0 7 20
                  (errorString "journey source unreachable")
                  eq_refl eq_refl)).
Defined.

Lemma find_firstStopAt (station : string) (locs : list rtt.ServiceLocation)
  (loc : rtt.ServiceLocation) :
  firstStopAt station locs loc ->
  find (fun l => (rtt.CRS l =? station)%string) locs = Some loc.
Proof.
  intros (before & after & -> & Hb & Hc).
  induction before as [|b before IH]; cbn.
  - rewrite Hc, String.eqb_refl. reflexivity.
  - apply Forall_cons in Hb as [Hne Hb].
    apply String.eqb_neq in Hne. rewrite Hne. apply IH, Hb.
Qed.

Lemma findMatchingService_noServices (resp : option rtt.SearchResponse)
  (departureTime : string) (svc : rtt.Service) :
  findMatchingService (servicesOf resp) departureTime = Some svc ->
  noServices resp = false.
Proof.
  destruct resp as [[services]|]; cbn; [|discriminate].
  destruct services; [discriminate|reflexivity].
Qed.

(** X8: the arrival check looks at one stop of the service found,
    the first whose station code is the destination: the journey has
    arrived exactly when that stop is marked as reached, whatever the
    stops after it say.  When it is, the notice names the realtime
    arrival time of that stop, the booked one when there is none, and
    "arrived" is reported also when the notice cannot be delivered, with
    the failure of the delivery as the error. *)
Theorem arrival_decided_by_first_destination_stop (W : World)
  (from to departureTime : string) (m : t) (e : Eff) (h mi : Z)
  (svc : rtt.Service) (details : rtt.ServiceDetailResponse)
  (loc : rtt.ServiceLocation) :
  time.Parse_1504 departureTime = Ok (h, mi) ->
  serviceDetailAt W (Datatypes.S (calls e)) from to departureTime
    (time.today_at (clock W (calls e)) h mi) svc details ->
  firstStopAt to (rtt.Locations details) loc ->
  let r := CheckArrival W from to departureTime m e in
  let notice := arrivalNotice (rtt.ServiceUid svc) to (arrivalTimeAt loc) in
  fst (value r) = rtt.RealtimeArrivalActual loc
  /\ sent (effects r)
     = (sent e ++ if rtt.RealtimeArrivalActual loc then [notice] else [])%list
  /\ snd (value r)
     = (if rtt.RealtimeArrivalActual loc
        then match pushover_SendMessage W (3 + calls e)%nat notice with
             | Some err =>
                 Some (wrapError "sending arrival notification: "
                         (wrapError "sending pushover notification: " err))
             | None => None
             end
        else None).
Proof.
  intros Hp (resp & Hs & Hf & Hg) Hloc.
  pose proof (findMatchingService_noServices resp departureTime svc Hf) as Hn.
  apply find_firstStopAt in Hloc.
  unfold CheckArrival, parseTimeToday. rewrite Hp. run.
  rewrite Hs. cbn. rewrite Hn, Hf. cbn. rewrite Hg. cbn. rewrite Hloc.
  unfold arrivalNotice, arrivalTimeAt.
  destruct (rtt.RealtimeArrivalActual loc); cbn; [|rewrite app_nil_r; auto].
  destruct (pushover_SendMessage W _ _); cbn; auto.
Qed.

(** The theorem on a service that calls twice at the destination: the
    first call is not reached yet, so the journey has not arrived, though
    the second call is marked as reached. *)
Lemma arrival_decided_by_first_destination_stop_witness :
  let W := twoStopsWorld [serviceAt "W10001" "0720" "0720"] "STP" in
  let r := CheckArrival W "SAC" "STP" "0720" NewTrainMonitor Eff0 in
  firstStopAt "STP"
    [rtt.mkServiceLocation "SAC" "0720" "" true;
     rtt.mkServiceLocation "STP" "0810" "" false;
     rtt.mkServiceLocation "STP" "0830" "0831" true]
    (rtt.mkServiceLocation "STP" "0810" "" false)
  /\ fst (value r) = false /\ sent (effects r) = [].
Proof.
  cbv zeta.
  assert (Hd : serviceDetailAt
                 (twoStopsWorld [serviceAt "W10001" "0720" "0720"] "STP")
                 1 "SAC" "STP" "0720"
                 (time.today_at exampleNow 7 20)
                 (serviceAt "W10001" "0720" "0720")
                 (rtt.mkServiceDetailResponse
                    [rtt.mkServiceLocation "SAC" "0720" "" true;
                     rtt.mkServiceLocation "STP" "0810" "" false;
                     rtt.mkServiceLocation "STP" "0830" "0831" true])).
  { exists (Some (rtt.mkSearchResponse [serviceAt "W10001" "0720" "0720"])).
    repeat split. }
  assert (Hl : firstStopAt "STP"
                 [rtt.mkServiceLocation "SAC" "0720" "" true;
                  rtt.mkServiceLocation "STP" "0810" "" false;
                  rtt.mkServiceLocation "STP" "0830" "0831" true]
                 (rtt.mkServiceLocation "STP" "0810" "" false)).
  { exists [rtt.mkServiceLocation "SAC" "0720" "" true],
      [rtt.mkServiceLocation "STP" "0830" "0831" true].
    split; [reflexivity|]. split; [|reflexivity].
    apply List.Forall_cons; [discriminate|apply List.Forall_nil]. }
  split; [exact Hl|].
  pose proof (arrival_decided_by_first_destination_stop
                (twoStopsWorld [serviceAt "W10001" "0720" "0720"] "STP")
                "SAC" "STP" "0720" NewTrainMonitor Eff0 7 20
                (serviceAt "W10001" "0720" "0720")
                (rtt.mkServiceDetailResponse
                   [rtt.mkServiceLocation "SAC" "0720" "" true;
                    rtt.mkServiceLocation "STP" "0810" "" false;
                    rtt.mkServiceLocation "STP" "0830" "0831" true])
                (rtt.mkServiceLocation "STP" "0810" "" false)
                eq_refl Hd Hl) as (Hv & Hs & _).
  split; [exact Hv|exact Hs].
Defined.

End ArrivalCheck.

(** ** The expected arrival time *)

Section ExpectedArrival.

Import time strconv TrainMonitor.

Lemma isDigit_no_colon (c : ascii) :
  isDigit c = true ->
  Ascii.eqb c ":" = false /\ Ascii.eqb c "-" = false
  /\ Ascii.eqb c "+" = false.
Proof.
  destruct c as [[] [] [] [] [] [] [] []]; intros H;
    first [discriminate H | repeat split].
Qed.

(** What [time.Parse] accepts for the layout: four digits, an hour
    below 24 and a minute below 60. *)
Lemma Parse_1504_Ok (s : string) (h mi : Z) :
  Parse_1504 s = Ok (h, mi) ->
  exists a b c d,
    s = String a (String b (String c (String d EmptyString)))
    /\ isDigit a = true /\ isDigit b = true
    /\ isDigit c = true /\ isDigit d = true
    /\ h = 10 * digit a + digit b /\ mi = 10 * digit c + digit d
    /\ h < 24 /\ mi < 60.
Proof.
  unfold Parse_1504, getnum.
  destruct s as [|a [|b rest]]; try discriminate.
  - destruct (isDigit a); [|discriminate].
    destruct (24 <=? digit a); discriminate.
  - destruct (isDigit a) eqn:Ha; [|discriminate].
    destruct (isDigit b) eqn:Hb.
    + destruct (Z.leb_spec 24 (10 * digit a + digit b)); [discriminate|].
      destruct rest as [|c [|d rest]]; try discriminate.
      * destruct (isDigit c); discriminate.
      * destruct (isDigit c) eqn:Hc; [|discriminate].
        destruct (isDigit d) eqn:Hd; [|discriminate].
        destruct (Z.leb_spec 60 (10 * digit c + digit d)); [discriminate|].
        destruct rest; [|discriminate].
        intros Hok. injection Hok as <- <-.
        exists a, b, c, d. repeat split; trivial.
    + destruct (24 <=? digit a); [discriminate|].
      rewrite Hb. discriminate.
Qed.

(** A clock string that [time.Parse] reads is read by [parseHHMM] as the
    same hour and minute. *)
Lemma parseHHMM_Parse_1504 (s : string) (h mi : Z) :
  Parse_1504 s = Ok (h, mi) ->
  parseHHMM s = Ok (Date_0_1_1_UTC h mi) /\ 0 <= h < 24 /\ 0 <= mi < 60.
Proof.
  intros H.
  apply Parse_1504_Ok in H
    as (a & b & c & d & -> & Ha & Hb & Hc & Hd & -> & -> & Hh & Hm).
  pose proof (isDigit_digit a Ha). pose proof (isDigit_digit b Hb).
  pose proof (isDigit_digit c Hc). pose proof (isDigit_digit d Hd).
  destruct (isDigit_no_colon a Ha) as (Ha1 & Ha2 & Ha3).
  destruct (isDigit_no_colon b Hb) as (Hb1 & _).
  destruct (isDigit_no_colon c Hc) as (Hc1 & Hc2 & Hc3).
  destruct (isDigit_no_colon d Hd) as (Hd1 & _).
  split; [|lia].
  unfold parseHHMM. cbn [strings.removeColons].
  rewrite Ha1, Hb1, Hc1, Hd1. cbn [String.length Z.of_nat].
  change (Z.of_nat 4 <? 4) with false. cbv iota.
  cbn [substring]. unfold Atoi. rewrite Ha2, Ha3, Hc2, Hc3. cbn [orb].
  cbn [digits]. rewrite Ha, Hb, Hc, Hd.
  replace (0 * 10 + digit a) with (digit a) by ring.
  replace (0 * 10 + digit c) with (digit c) by ring.
  replace (digit a * 10 + digit b) with (10 * digit a + digit b) by ring.
  replace (digit c * 10 + digit d) with (10 * digit c + digit d) by ring.
  unfold minDuration, maxDuration.
  destruct (Z.leb_spec (- 2 ^ 63) (10 * digit a + digit b)); [|lia].
  destruct (Z.leb_spec (10 * digit a + digit b) (2 ^ 63 - 1)); [|lia].
  destruct (Z.leb_spec (- 2 ^ 63) (10 * digit c + digit d)); [|lia].
  destruct (Z.leb_spec (10 * digit c + digit d) (2 ^ 63 - 1)); [|lia].
  reflexivity.
Qed.

(** The hour and the minute of a time of day on the reference date. *)
Lemma Hour_Minute_UTC_Date (h mi : Z) :
  0 <= h < 24 -> 0 <= mi < 60 ->
  Hour_UTC (Date_0_1_1_UTC h mi) = h /\ Minute_UTC (Date_0_1_1_UTC h mi) = mi.
Proof.
  intros Hh Hm. unfold Hour_UTC, Minute_UTC, Date_0_1_1_UTC, Hour.
  split.
  - replace (h * (60 * Minute) + mi * Minute)
      with (mi * Minute + h * (60 * Minute)) by ring.
    rewrite Z.div_add by (unfold Minute, Second; lia).
    rewrite (Z.div_small (mi * Minute)) by (unfold Minute, Second; lia).
    rewrite Z.mod_small; lia.
  - replace (h * (60 * Minute) + mi * Minute)
      with ((h * 60 + mi) * Minute) by ring.
    rewrite Z.div_mul by (unfold Minute, Second; lia).
    replace (h * 60 + mi) with (mi + h * 60) by ring.
    rewrite Z.mod_add by lia. rewrite Z.mod_small; lia.
Qed.

(** X9: the expected arrival time of the journey is read at the
    first stop of the service found whose station code is the
    destination: it is today at the hour and minute of the realtime
    arrival time of that stop, of the booked one when there is no
    realtime one, read off a clock taken after the service detail.  The
    look-up leaves the receiver as it was and sends nothing. *)
Theorem expected_arrival_is_today_at_destination_time (W : World)
  {S : Type} (from to departureTime : string) (s : S) (e : Eff) (h mi : Z)
  (svc : rtt.Service) (details : rtt.ServiceDetailResponse)
  (loc : rtt.ServiceLocation) (ha ma : Z) :
  Parse_1504 departureTime = Ok (h, mi) ->
  serviceDetailAt W (Datatypes.S (calls e)) from to departureTime
    (today_at (clock W (calls e)) h mi) svc details ->
  firstStopAt to (rtt.Locations details) loc ->
  Parse_1504 (arrivalTimeAt loc) = Ok (ha, ma) ->
  let r := GetExpectedArrivalTime W from to departureTime s e in
  value r = Ok (today_at (clock W (3 + calls e)%nat) ha ma)
  /\ state r = s /\ sent (effects r) = sent e.
Proof.
  intros Hp (resp & Hs & Hf & Hg) Hloc Ha.
  pose proof (findMatchingService_noServices resp departureTime svc Hf) as Hn.
  apply find_firstStopAt in Hloc.
  destruct (parseHHMM_Parse_1504 _ _ _ Ha) as (Hparse & Hha & Hma).
  destruct (Hour_Minute_UTC_Date ha ma Hha Hma) as (Hhour & Hmin).
  assert (Hne : (arrivalTimeAt loc =? "")%string = false)
    by (destruct (arrivalTimeAt loc); [discriminate Ha|reflexivity]).
  unfold GetExpectedArrivalTime, parseTimeToday. rewrite Hp. run.
  rewrite Hs. cbn. rewrite Hn, Hf. cbn. rewrite Hg. cbn. rewrite Hloc.
  fold (arrivalTimeAt loc). rewrite Hne, Hparse. cbn.
  rewrite Hhour, Hmin. auto.
Qed.

(** The theorem on a service reached at 08:12 against a booked 08:10. *)
Lemma expected_arrival_is_today_at_destination_time_witness :
  let W := arrivalWorld [serviceAt "W10001" "0720" "0720"] "STP" false in
  value (GetExpectedArrivalTime W "SAC" "STP" "0720" tt Eff0)
  = Ok (8 * Hour + 12 * Minute).
Proof.
  cbv zeta.
  assert (Hd : serviceDetailAt
                 (arrivalWorld [serviceAt "W10001" "0720" "0720"] "STP" false)
                 1 "SAC" "STP" "0720" (today_at exampleNow 7 20)
                 (serviceAt "W10001" "0720" "0720")
                 (rtt.mkServiceDetailResponse
                    [rtt.mkServiceLocation "STP" "0810" "0812" false])).
  { exists (Some (rtt.mkSearchResponse [serviceAt "W10001" "0720" "0720"])).
    repeat split. }
  assert (Hl : firstStopAt "STP"
                 [rtt.mkServiceLocation "STP" "0810" "0812" false]
                 (rtt.mkServiceLocation "STP" "0810" "0812" false)).
  { exists [], []. split; [reflexivity|]. split; [|reflexivity].
    apply List.Forall_nil. }
  exact (proj1 (expected_arrival_is_today_at_destination_time
                  (arrivalWorld [serviceAt "W10001" "0720" "0720"] "STP" false)
                  "SAC" "STP" "0720" tt Eff0 7 20
                  (serviceAt "W10001" "0720" "0720")
                  (rtt.mkServiceDetailResponse
                     [rtt.mkServiceLocation "STP" "0810" "0812" false])
                  (rtt.mkServiceLocation "STP" "0810" "0812" false) 8 12
                  eq_refl Hd Hl eq_refl)).
Defined.

(** An arrival time out of the clock's range is not refused: the hours
    and minutes are added up, and the time of day they end at is
    taken. *)
Example expected_arrival_wraps :
  parseHHMM "9999" = Ok (99 * Hour + 99 * Minute)
  /\ Hour_UTC (99 * Hour + 99 * Minute) = 4
  /\ Minute_UTC (99 * Hour + 99 * Minute) = 39.
Proof. repeat split. Qed.

End ExpectedArrival.

(** ** The line monitor: failed fetches, repetitions and the summary *)

Section LineMonitor.

Import TubeMonitor.

(** X10: a line check that gets nothing to observe, because the
    fetch fails or the list of statuses is empty, leaves the remembered
    pair as it was and sends nothing; the failure of the fetch is
    returned as it came, an empty list is no error. *)
Theorem line_check_without_status_changes_nothing (W : World) (m : t)
  (e : Eff) :
  noLineStatus W (calls e) ->
  let r := CheckStatus W m e in
  state r = m /\ sent (effects r) = sent e
  /\ value r = match tfl_GetNorthernLineStatus W (calls e) with
               | Err err => Some err
               | Ok _ => None
               end.
Proof.
  unfold noLineStatus, CheckStatus. run.
  destruct (tfl_GetNorthernLineStatus W (calls e)) as [status|err]; cbn.
  - intros ->. cbn. auto.
  - auto.
Qed.

(** The theorem on a line source that cannot be reached, after good
    service was observed. *)
Lemma line_check_without_status_changes_nothing_witness :
  let r := CheckStatus (exampleWorld []) (mk "Good Service" "") Eff0 in
  state r = mk "Good Service" ""
  /\ sent (effects r) = []
  /\ value r = Some (errorString "line status unavailable").
Proof.
  cbv zeta.
  exact (line_check_without_status_changes_nothing (exampleWorld [])
           (mk "Good Service" "") Eff0 Logic.I).
Defined.

(** X11: of two line checks in a row that observe the same
    description and reason, the second sends nothing and returns no
    error, whatever the monitor remembered before the first and whatever
    the first has sent. *)
Theorem repeated_line_status_is_silent (W : World) (m : t) (e : Eff)
  (cur next : tfl.StatusDetail) :
  lineStatusAt W (calls e) cur ->
  lineStatusAt W (calls (effects (CheckStatus W m e))) next ->
  tfl.StatusSeverityDescription next = tfl.StatusSeverityDescription cur ->
  tfl.Reason next = tfl.Reason cur ->
  let r1 := CheckStatus W m e in
  let r2 := CheckStatus W (state r1) (effects r1) in
  sent (effects r2) = sent (effects r1)
  /\ state r2 = state r1
  /\ value r2 = None.
Proof.
  intros (st1 & o1 & Hf1 & Hl1) (st2 & o2 & Hf2 & Hl2) Hd Hr. cbv zeta.
  destruct (CheckStatus_decision W m e st1 cur o1 Hf1 Hl1) as (Hs1 & _).
  cbv zeta in Hs1.
  destruct (CheckStatus W m e) as [[v1 m1] e1]. cbn in Hs1, Hf2 |- *.
  subst m1. unfold CheckStatus. run. rewrite Hf2, Hl2. cbn.
  rewrite Hd, Hr, !String.eqb_refl. cbn. auto.
Qed.

(** The theorem on minor delays observed twice. *)
Lemma repeated_line_status_is_silent_witness :
  let cur := tfl.mkStatusDetail 5 "Minor Delays" "Signal failure" in
  let r1 := CheckStatus (lineWorld cur) NewTubeMonitor Eff0 in
  let r2 := CheckStatus (lineWorld cur) (state r1) (effects r1) in
  sent (effects r1) = [disruptionAlert cur]
  /\ sent (effects r2) = sent (effects r1)
  /\ state r2 = state r1
  /\ value r2 = None.
Proof.
  cbv zeta. split; [reflexivity|].
  apply (repeated_line_status_is_silent
           (lineWorld (tfl.mkStatusDetail 5 "Minor Delays" "Signal failure"))
           NewTubeMonitor Eff0
           (tfl.mkStatusDetail 5 "Minor Delays" "Signal failure")
           (tfl.mkStatusDetail 5 "Minor Delays" "Signal failure")).
  - exists (tfl.mkLineStatus
              [tfl.mkStatusDetail 5 "Minor Delays" "Signal failure"]), [].
    split; reflexivity.
  - exists (tfl.mkLineStatus
              [tfl.mkStatusDetail 5 "Minor Delays" "Signal failure"]), [].
    split; reflexivity.
  - reflexivity.
  - reflexivity.
Defined.

(** X12: the status summary never reads or changes the remembered
    pair.  When the line status is fetched it sends one notification, at
    normal priority, with the description and reason of the first entry
    as they are, good service included, and with a placeholder when the
    list is empty; a refused delivery comes back wrapped.  When the fetch
    fails nothing is sent and the failure is returned as it came. *)
Theorem status_summary_sends_one_notice (W : World) (m : t) (e : Eff) :
  let r := SendStatusSummary W m e in
  state r = m
  /\ match tfl_GetNorthernLineStatus W (calls e) with
     | Err err => sent (effects r) = sent e /\ value r = Some err
     | Ok status =>
         sent (effects r) = (sent e ++ [summaryOf status])%list
         /\ value r
            = match pushover_SendMessage W (Datatypes.S (calls e))
                      (summaryOf status) with
              | Some err =>
                  Some (wrapError "sending pushover notification: " err)
              | None => None
              end
     end.
Proof.
  unfold SendStatusSummary, summaryOf, statusSummary. run.
  destruct (tfl_GetNorthernLineStatus W (calls e)) as [status|err]; cbn;
    [|auto].
  destruct (tfl.LineStatuses status) as [|cur others]; run;
    destruct (pushover_SendMessage W _ _); cbn; auto.
Qed.

(** A summary of good service is sent, and a line check after it is as
    silent as it would have been without the summary. *)
Example summary_of_good_service :
  let cur := tfl.mkStatusDetail 10 "Good Service" "" in
  let r1 := SendStatusSummary (lineWorld cur) NewTubeMonitor Eff0 in
  let r2 := CheckStatus (lineWorld cur) (state r1) (effects r1) in
  sent (effects r1) = [statusSummary "Good Service" ""]
  /\ sent (effects r2) = [statusSummary "Good Service" ""]
  /\ state r2 = mk "Good Service" "".
Proof. repeat split. Qed.

End LineMonitor.

(** ** The scheduler: the tasks of a day *)

Section DailyTasks.

Import Scheduler.
Context (W : World).

(** The look-up of the arrival time changes nothing and sends nothing. *)
Lemma GetExpectedArrivalTime_frame {S : Type} (from to dep : string) (s : S)
  (e : Eff) :
  let r := TrainMonitor.GetExpectedArrivalTime W from to dep s e in
  state r = s /\ sent (effects r) = sent e.
Proof.
  unfold TrainMonitor.GetExpectedArrivalTime, TrainMonitor.parseTimeToday.
  destruct (time.Parse_1504 dep) as [[h mi]|perr]; run; [|auto].
  destruct (rtt_Search W _ _ _ _) as [resp|serr]; cbn; [|auto].
  destruct (TrainMonitor.noServices resp); cbn; [auto|].
  destruct (TrainMonitor.findMatchingService _ _) as [svc|]; cbn; [|auto].
  destruct (rtt_GetService W _ _ _) as [details|gerr]; cbn; [|auto].
  destruct (find _ _) as [loc|]; cbn; [|auto].
  fold (arrivalTimeAt loc).
  destruct (arrivalTimeAt loc =? "")%string; cbn; [auto|].
  destruct (TrainMonitor.parseHHMM _); cbn; auto.
Qed.

(** What [setupDailyTasks] leaves: the configuration and the monitors
    as they were, the day of the clock, an empty polling table, nothing
    sent, and the tasks of the journeys that run today. *)
Lemma setupDailyTasks_result (s : t) (e : Eff) :
  let r := setupDailyTasks W s e in
  let morning :=
    activeDeparture W (config.MorningTrain (cfg s))
      (1 + calls e) (3 + calls e) in
  let evening :=
    activeDeparture W (config.EveningTrain (cfg s)) (2 + calls e)
      (match morning with Some _ => 4 | None => 3 end + calls e) in
  cfg (state r) = cfg s
  /\ trainMonitor (state r) = trainMonitor s
  /\ tubeMonitor (state r) = tubeMonitor s
  /\ currentDay (state r) = time.Day (clock W (calls e))
  /\ arrivalPolling (state r) = ∅
  /\ sent (effects r) = sent e
  /\ exists summary : list time.Time,
      (length summary <= 1)%nat
      /\ tasks (state r)
         = (match morning with
            | Some dep =>
                journeyTasks TaskMorningDelayCheck TaskMorningStatusUpdate
                  TaskMorningArrivalCheck dep
                ++ lineCheckTasks dep ++ map summaryTask summary
            | None => []
            end
            ++ match evening with
               | Some dep =>
                   journeyTasks TaskEveningDelayCheck TaskEveningStatusUpdate
                     TaskEveningArrivalCheck dep
               | None => []
               end)%list.
Proof.
  cbv zeta. unfold activeDeparture, setupDailyTasks, config.IsActiveToday,
    config.DepartureTime, appendTasks. run.
  cbn [cfg trainMonitor tubeMonitor tasks currentDay arrivalPolling].
  change (1 + calls e)%nat with (Datatypes.S (calls e)).
  change (2 + calls e)%nat with (Datatypes.S (Datatypes.S (calls e))).
  destruct (config.IsActiveDay W (config.MorningTrain (cfg s)) _) eqn:Hm,
    (config.IsActiveDay W (config.EveningTrain (cfg s)) _) eqn:He;
    cbn [negb andb].
  4:{ cbn. repeat split. exists []. split; [cbn; lia|reflexivity]. }
  all: destruct (time.Parse_1504 (config.Departure (config.MorningTrain (cfg s))))
    as [[hm mm]|errm];
    destruct (time.Parse_1504 (config.Departure (config.EveningTrain (cfg s))))
    as [[he me]|erre]; run;
    cbn [cfg trainMonitor tubeMonitor tasks currentDay arrivalPolling
         set_tasks app fst snd].
  all: try match goal with
    | |- context [TrainMonitor.GetExpectedArrivalTime W ?a ?b ?c ?s0 ?e0] =>
        pose proof (GetExpectedArrivalTime_frame a b c s0 e0) as Hframe;
        cbv zeta in Hframe;
        destruct (TrainMonitor.GetExpectedArrivalTime W a b c s0 e0)
          as [[[arr|err] s1] e1]; cbn [state effects value fst snd] in Hframe;
        destruct Hframe as [-> Hsent]; cbn [sent] in Hsent
    end.
  all: run;
    cbn [cfg trainMonitor tubeMonitor tasks currentDay arrivalPolling
         set_tasks app fst snd length].
  all: rewrite ?lineCheckTimes_hour.
  all: repeat split; trivial.
  all: first
    [ exists [arr]; split; [cbn; lia|]
    | exists []; split; [cbn; lia|] ].
  all: unfold journeyTasks, lineCheckTasks, summaryTask, time.Add;
    cbn [map app]; rewrite ?app_nil_r; reflexivity.
Qed.

(** X13: setting up the day touches the schedule only: the
    configuration and the two monitors stay as they are and nothing is
    sent; the day becomes the day of the clock reading taken first and
    the polling table is emptied.  The old tasks, the old day and the old
    polling table are discarded without being read: started from any
    other, the set-up ends the same. *)
Theorem setupDailyTasks_replaces_the_schedule_only (s : t) (e : Eff) :
  let r := setupDailyTasks W s e in
  cfg (state r) = cfg s
  /\ trainMonitor (state r) = trainMonitor s
  /\ tubeMonitor (state r) = tubeMonitor s
  /\ sent (effects r) = sent e
  /\ currentDay (state r) = time.Day (clock W (calls e))
  /\ arrivalPolling (state r) = ∅
  /\ forall (ts : list Task) (day : Z) (polling : gmap Z bool),
      setupDailyTasks W
        (mk (cfg s) (trainMonitor s) (tubeMonitor s) ts day polling) e
      = r.
Proof.
  destruct (setupDailyTasks_result s e) as (Hc & Htm & Htb & Hd & Hp & Hs & _).
  cbv zeta. repeat split; trivial.
Qed.

(** X14: every task of a day is set up not executed, and repeating
    exactly when it is an arrival check; a day has at most 28 tasks. *)
Theorem daily_tasks_are_fresh (s : t) (e : Eff) :
  let r := setupDailyTasks W s e in
  Forall freshTask (tasks (state r))
  /\ (length (tasks (state r)) <= 28)%nat.
Proof.
  destruct (setupDailyTasks_result s e)
    as (_ & _ & _ & _ & _ & _ & summary & Hlen & Ht).
  cbv zeta in *. rewrite Ht. clear Ht.
  destruct (activeDeparture W (config.MorningTrain (cfg s)) _ _) as [dm|];
    destruct (activeDeparture W (config.EveningTrain (cfg s)) _ _) as [de|];
    destruct summary as [|a [|b summary]]; cbn in Hlen; try lia;
    (split; [|cbn; lia]);
    unfold journeyTasks, lineCheckTasks, summaryTask; cbn [map app];
    repeat (apply List.Forall_cons; [split; reflexivity|]);
    apply List.Forall_nil.
Qed.

(** X15: the tasks of a day follow the journeys that run on it.
    The delay checks, status updates and arrival check of a journey are
    there exactly when the journey is active on the weekday and its
    departure is a clock time: four delay checks from 60 to 15 minutes
    before the departure, status updates 60 and 30 minutes before, the
    arrival check 70 minutes after.  The line is checked for the morning
    journey only: thirteen checks, five minutes apart, from 60 minutes
    before its departure to the departure, and at most one summary; on a
    day without the morning journey there is no line check and no
    summary, whether the evening journey runs or not. *)
Theorem daily_tasks_follow_active_journeys (s : t) (e : Eff) :
  let r := setupDailyTasks W s e in
  let morning :=
    activeDeparture W (config.MorningTrain (cfg s))
      (1 + calls e) (3 + calls e) in
  let evening :=
    activeDeparture W (config.EveningTrain (cfg s)) (2 + calls e)
      (match morning with Some _ => 4 | None => 3 end + calls e) in
  tasksOf [TaskMorningDelayCheck; TaskMorningStatusUpdate;
           TaskMorningArrivalCheck] (tasks (state r))
  = match morning with
    | Some dep =>
        journeyTasks TaskMorningDelayCheck TaskMorningStatusUpdate
          TaskMorningArrivalCheck dep
    | None => []
    end
  /\ tasksOf [TaskEveningDelayCheck; TaskEveningStatusUpdate;
              TaskEveningArrivalCheck] (tasks (state r))
     = match evening with
       | Some dep =>
           journeyTasks TaskEveningDelayCheck TaskEveningStatusUpdate
             TaskEveningArrivalCheck dep
       | None => []
       end
  /\ tasksOf [TaskNorthernLineCheck] (tasks (state r))
     = match morning with
       | Some dep => lineCheckTasks dep
       | None => []
       end
  /\ (length (tasksOf [TaskNorthernLineSummary] (tasks (state r)))
      <= match morning with Some _ => 1 | None => 0 end)%nat.
Proof.
  destruct (setupDailyTasks_result s e)
    as (_ & _ & _ & _ & _ & _ & summary & Hlen & Ht).
  cbv zeta in *. rewrite Ht. clear Ht.
  destruct (activeDeparture W (config.MorningTrain (cfg s)) _ _) as [dm|];
    destruct (activeDeparture W (config.EveningTrain (cfg s)) _ _) as [de|];
    destruct summary as [|a [|b summary]]; cbn in Hlen; try lia;
    repeat split; cbn; lia.
Qed.

End DailyTasks.

(** A Monday with a schedule for Fridays in the morning and every day in
    the evening: the seven tasks of the evening journey, and no check of
    the line. *)
Example evening_only_day :
  let c := config.mkConfig (config.mkTrainConfig "SAC" "STP" "0720" ["friday"])
             (config.mkTrainConfig "STP" "SAC" "1800" []) in
  let s := Scheduler.NewScheduler c TrainMonitor.NewTrainMonitor
             TubeMonitor.NewTubeMonitor in
  let r := Scheduler.setupDailyTasks (exampleWorld []) s Eff0 in
  length (Scheduler.tasks (state r)) = 7%nat
  /\ tasksOf [Scheduler.TaskNorthernLineCheck; Scheduler.TaskNorthernLineSummary]
       (Scheduler.tasks (state r)) = [].
Proof. split; reflexivity. Qed.

(** ** The configuration *)

Section Configuration.

Import config.

Lemma Parse_1504_nonempty (s : string) (h mi : Z) :
  time.Parse_1504 s = Ok (h, mi) -> (s =? "")%string = false.
Proof. destruct s; [discriminate|reflexivity]. Qed.

(** X16: the configuration is accepted exactly when both journeys
    name their two stations and have a departure that is a clock time of
    four digits.  The check reads the clock and nothing else: it sends
    nothing and leaves the receiver as it was.  For an accepted
    configuration the departure of either journey can be placed on the
    day at any later moment, so no check of a journey fails on it. *)
Theorem Validate_accepts_schedulable_journeys (W : World) {S : Type}
  (c : Config) (s : S) (e : Eff) :
  let r := Validate W c s e in
  state r = s /\ sent (effects r) = sent e
  /\ (value r = None
      <-> wellFormedJourney (MorningTrain c)
          /\ wellFormedJourney (EveningTrain c))
  /\ (value r = None ->
      forall (j : TrainConfig) (m : TrainMonitor.t) (e' : Eff),
        j = MorningTrain c \/ j = EveningTrain c ->
        exists t,
          value (TrainMonitor.parseTimeToday W (Departure j) m e') = Ok t).
Proof.
  cbv zeta.
  assert (Hkey : state (Validate W c s e) = s
                 /\ sent (effects (Validate W c s e)) = sent e
                 /\ (value (Validate W c s e) = None
                     <-> wellFormedJourney (MorningTrain c)
                         /\ wellFormedJourney (EveningTrain c))).
  { unfold Validate, DepartureTime, wellFormedJourney.
    destruct (String.eqb_spec (From (MorningTrain c)) "") as [Hmf|Hmf]; cbn.
    { repeat split; try discriminate. intros [[H _] _]. contradiction. }
    destruct (String.eqb_spec (To (MorningTrain c)) "") as [Hmt|Hmt]; cbn.
    { repeat split; try discriminate. intros [(_ & H & _) _]. contradiction. }
    destruct (String.eqb_spec (Departure (MorningTrain c)) "") as [Hmd|Hmd];
      cbn.
    { repeat split; try discriminate.
      intros [(_ & _ & h & mi & H) _]. rewrite Hmd in H. discriminate H. }
    destruct (String.eqb_spec (From (EveningTrain c)) "") as [Hef|Hef]; cbn.
    { repeat split; try discriminate. intros [_ [H _]]. contradiction. }
    destruct (String.eqb_spec (To (EveningTrain c)) "") as [Het|Het]; cbn.
    { repeat split; try discriminate. intros [_ (_ & H & _)]. contradiction. }
    destruct (String.eqb_spec (Departure (EveningTrain c)) "") as [Hed|Hed];
      cbn.
    { repeat split; try discriminate.
      intros [_ (_ & _ & h & mi & H)]. rewrite Hed in H. discriminate H. }
    destruct (time.Parse_1504 (Departure (MorningTrain c)))
      as [[hm mm]|errm]; run.
    2:{ repeat split; try discriminate.
        intros [(_ & _ & h & mi & H) _]. discriminate H. }
    destruct (time.Parse_1504 (Departure (EveningTrain c)))
      as [[he me]|erre]; run.
    2:{ repeat split; try discriminate.
        intros [_ (_ & _ & h & mi & H)]. discriminate H. }
    repeat split; eauto. }
  destruct Hkey as (Hs & Hsent & Hiff).
  split; [exact Hs|]. split; [exact Hsent|]. split; [exact Hiff|].
  intros Hv j m e' Hj. apply Hiff in Hv as [(_ & _ & hm & mm & Hm)
                                              (_ & _ & he & me & He)].
  unfold TrainMonitor.parseTimeToday.
  destruct Hj as [-> | ->]; [rewrite Hm|rewrite He]; run; eauto.
Qed.

(** The example schedule is accepted; a departure written with a colon
    is refused, with the error of the clock time wrapped twice. *)
Example Validate_examples :
  value (Validate (exampleWorld []) (exampleConfig []) tt Eff0) = None
  /\ value (Validate (exampleWorld []) malformedConfig tt Eff0)
     = Some (wrapError "morning_train: "
               (wrapQuoted "invalid departure time " "7:00" ": "
                  (errorString "parsing time: cannot parse"))).
Proof. split; reflexivity. Qed.

(** The causes for which a clock time is refused, in the order in which
    [time.Parse] finds them. *)
Example Parse_1504_causes :
  time.Parse_1504 "0720" = Ok (7, 20)
  /\ time.Parse_1504 "7:00" = Err (errorString "parsing time: cannot parse")
  /\ time.Parse_1504 "25ab"
     = Err (errorString "parsing time: hour out of range")
  /\ time.Parse_1504 "0760"
     = Err (errorString "parsing time: minute out of range")
  /\ time.Parse_1504 "07200" = Err (errorString "parsing time: extra text").
Proof. repeat split. Qed.

End Configuration.

(** ** The scheduler: what the ticks of a day do to the tasks *)

Section TaskProgress.

Import Scheduler.
Context (W : World).

Lemma taskProgress_refl (task : Task) : taskProgress task task.
Proof. unfold taskProgress. repeat split; auto; lia. Qed.

Lemma taskProgress_trans (a b c : Task) :
  taskProgress a b -> taskProgress b c -> taskProgress a c.
Proof.
  unfold taskProgress.
  intros (Ht1 & He1 & Hr1 & Hle1 & Ho1) (Ht2 & He2 & Hr2 & Hle2 & Ho2).
  rewrite Ht1 in *. repeat split; auto; try lia; try congruence.
  - destruct (Ho1 H) as [E1 _]. destruct (Ho2 H) as [E2 _]. congruence.
  - destruct (Ho1 H) as [_ E1]. destruct (Ho2 H) as [_ E2]. congruence.
Qed.

Lemma executeTask_progress (task : Task) (s : t) (e : Eff) :
  taskProgress task (value (executeTask W task s e)).
Proof.
  destruct (isArrivalCheck (Typ task)) eqn:Hty.
  - assert (Hc : exists c, journeyOf (cfg s) (Typ task) = Some c)
      by (destruct (Typ task); try discriminate; cbn; eauto).
    destruct Hc as [c Hc].
    destruct (executeTask_arrival W task s e c Hty Hc) as (-> & _).
    unfold taskProgress, finish, terminal, advance, time.Add.
    destruct (fst (value (arrivalCall W c task s e))); cbn;
      destruct (Repeating task) eqn:Hr; cbn; rewrite ?Hty, ?Hr;
      repeat split; auto; try discriminate;
      unfold time.Minute, time.Second; lia.
  - rewrite (executeTask_other W task s e Hty).
    unfold taskProgress, finish.
    destruct (Repeating task) eqn:Hr; cbn; rewrite ?Hr;
      repeat split; auto; lia.
Qed.

Lemma Forall2_taskProgress_refl (l : list Task) : Forall2 taskProgress l l.
Proof. induction l; constructor; auto using taskProgress_refl. Qed.

Lemma Forall2_taskProgress_trans (l1 l2 l3 : list Task) :
  Forall2 taskProgress l1 l2 -> Forall2 taskProgress l2 l3 ->
  Forall2 taskProgress l1 l3.
Proof.
  intros H12. revert l3. induction H12 as [|a b l1 l2 Hab _ IH]; intros l3 H23.
  - inversion H23. constructor.
  - inversion H23 as [|b' c l2' l3' Hbc H23']; subst.
    constructor; [eapply taskProgress_trans; eassumption|apply IH, H23'].
Qed.

Lemma tickTask_progress (now : time.Now) (i : nat) (s : t) (e : Eff) :
  Forall2 taskProgress (tasks s) (tasks (state (tickTask W now i s e))).
Proof.
  destruct (tickTask_tasks W now i s e) as (_ & _ & ->).
  destruct (tasks s !! i) as [task|] eqn:Hi;
    [|apply Forall2_taskProgress_refl].
  destruct (fires now task); [|apply Forall2_taskProgress_refl].
  rewrite <- (list_insert_id (tasks s) i task Hi) at 1.
  apply Forall2_insert;
    [apply Forall2_taskProgress_refl|apply executeTask_progress].
Qed.

Lemma forEach_progress (now : time.Now) (ix : list nat) (s : t) (e : Eff) :
  Forall2 taskProgress (tasks s)
    (tasks (state (forEach ix (tickTask W now) s e))).
Proof.
  revert s e. induction ix as [|j ix IH]; intros s e; cbn [forEach].
  - apply Forall2_taskProgress_refl.
  - unfold bind. pose proof (tickTask_progress now j s e) as H.
    destruct (tickTask W now j s e) as [[u s1] e1]. cbn in H.
    eapply Forall2_taskProgress_trans; [exact H|apply IH].
Qed.

(** A tick at which no task fires does nothing. *)
Lemma forEach_quiet (now : time.Now) (ix : list nat) (s : t) (e : Eff) :
  Forall (fun task => fires now task = false) (tasks s) ->
  forEach ix (tickTask W now) s e = (tt, s, e).
Proof.
  intros HF. induction ix as [|j ix IH]; cbn [forEach]; [reflexivity|].
  unfold bind.
  assert (Hj : tickTask W now j s e = (tt, s, e)).
  { destruct (tasks s !! j) as [task|] eqn:Hi.
    - rewrite (tickTask_fires W now j s e task Hi).
      rewrite (Forall_lookup_1 _ _ _ _ HF Hi). reflexivity.
    - unfold tickTask. unfold bind, get. rewrite Hi. reflexivity. }
  rewrite Hj. exact IH.
Qed.

End TaskProgress.

Section TaskProgressTheorems.

Import Scheduler.

(** X17: through the ticks of one day the list of tasks keeps its
    length and order and every task only moves forward: its type stays,
    once executed it stays executed, it never starts to repeat, its time
    never goes back, and only an arrival check is ever moved or stops
    repeating. *)
Theorem ticks_move_tasks_forward (W : World) (n : nat) (s : t) (e : Eff) :
  Forall (sameDay s) (tickTimes W n s e) ->
  Forall2 taskProgress (tasks s) (tasks (state (ticks W n s e))).
Proof.
  intros HF.
  apply (ticks_within_day W (fun _ => True)
           (fun s' _ => Forall2 taskProgress (tasks s) (tasks s'))).
  - intros now s0 e0 Hday _ H0.
    rewrite (tickAt_same_day W now s0 e0 Hday).
    eapply Forall2_taskProgress_trans; [exact H0|apply forEach_progress].
  - eapply Forall_impl; [exact HF|]. cbn. auto.
  - apply Forall2_taskProgress_refl.
Qed.

(** The theorem on two ticks at midnight: the check of midnight is
    executed, the check of 07:00 is as it was. *)
Lemma ticks_move_tasks_forward_witness :
  Forall (sameDay twoChecksScheduler)
    (tickTimes (exampleWorld []) 2 twoChecksScheduler Eff0)
  /\ Forall2 taskProgress (tasks twoChecksScheduler)
       (tasks (state (ticks (exampleWorld []) 2 twoChecksScheduler Eff0)))
  /\ tasks (state (ticks (exampleWorld []) 2 twoChecksScheduler Eff0))
     = [mkTask TaskMorningDelayCheck 0 true false;
        mkTask TaskMorningDelayCheck (7 * time.Hour) false false].
Proof.
  assert (H : Forall (sameDay twoChecksScheduler)
                (tickTimes (exampleWorld []) 2 twoChecksScheduler Eff0)).
  { cbn [tickTimes].
    repeat (apply List.Forall_cons; [reflexivity|]). apply List.Forall_nil. }
  split; [exact H|]. split; [|reflexivity].
  exact (ticks_move_tasks_forward (exampleWorld []) 2 twoChecksScheduler Eff0 H).
Defined.

(** X18: a tick of the day at which no task is due does nothing
    but read the clock: the scheduler and both monitors are as they were,
    nothing is sent and nothing is logged, and no source is asked. *)
Theorem quiet_tick_changes_nothing (W : World) (s : t) (e : Eff) :
  sameDay s (clock W (calls e)) ->
  Forall (fun task => fires (clock W (calls e)) task = false) (tasks s) ->
  tick W s e = (tt, s, mkEff (Datatypes.S (calls e)) (sent e) (logged e)).
Proof.
  intros Hday HF. rewrite tick_tickAt.
  rewrite (tickAt_same_day W _ _ _ Hday).
  apply forEach_quiet. exact HF.
Qed.

(** The theorem on a tick at midnight with a check of 07:00. *)
Lemma quiet_tick_changes_nothing_witness :
  let s := mk (exampleConfig []) TrainMonitor.NewTrainMonitor
             TubeMonitor.NewTubeMonitor
             [mkTask TaskMorningDelayCheck (7 * time.Hour) false false] 1 ∅ in
  tick (exampleWorld []) s Eff0 = (tt, s, mkEff 1 [] []).
Proof.
  cbv zeta.
  apply (quiet_tick_changes_nothing (exampleWorld [])
           (mk (exampleConfig []) TrainMonitor.NewTrainMonitor
              TubeMonitor.NewTubeMonitor
              [mkTask TaskMorningDelayCheck (7 * time.Hour) false false] 1 ∅)
           Eff0).
  - reflexivity.
  - apply List.Forall_cons; [reflexivity|apply List.Forall_nil].
Defined.

End TaskProgressTheorems.

(** ** What a run of the scheduler sends *)

Section WellFormed.

Context (W : World) (c : config.Config) (before : list Notification).

Lemma sentSince_refl : sentSince c before before.
Proof. exists []. split; [symmetry; apply app_nil_r|constructor]. Qed.

Lemma sentSince_app (l : list Notification) (n : Notification) :
  wellFormedNotification c n -> sentSince c before l ->
  sentSince c before (l ++ [n])%list.
Proof.
  intros Hn (new & -> & Hnew). exists (new ++ [n])%list.
  split; [symmetry; apply app_assoc|].
  apply Forall_app. split; [exact Hnew|].
  apply List.Forall_cons; [exact Hn|apply List.Forall_nil].
Qed.

Lemma placeholder_nonempty (s p : string) :
  p <> "" -> (if (s =? "")%string then p else s) <> "".
Proof. intros Hp. destruct (String.eqb_spec s ""); assumption. Qed.

Lemma wellFormed_delayAlert (svc : rtt.Service) (from to : string) (d : Z) :
  journeyNamed c from to -> 0 < d ->
  wellFormedNotification c (delayAlert svc from to d).
Proof.
  intros Hj Hd. unfold wellFormedNotification, delayAlert. cbn.
  repeat split; trivial. apply placeholder_nonempty. discriminate.
Qed.

Lemma wellFormed_onTimeNotice (svc : rtt.Service) (from to : string) :
  journeyNamed c from to -> wellFormedNotification c (onTimeNotice svc from to).
Proof.
  intros Hj. unfold wellFormedNotification, onTimeNotice. cbn.
  repeat split; trivial. apply placeholder_nonempty. discriminate.
Qed.

Lemma wellFormed_cancellationAlert (svc : rtt.Service) (from to : string) :
  journeyNamed c from to ->
  wellFormedNotification c (cancellationAlert svc from to).
Proof.
  intros Hj. unfold wellFormedNotification, cancellationAlert. cbn.
  repeat split; trivial. apply placeholder_nonempty. discriminate.
Qed.

(** The checks of the journey monitor for a journey of the
    configuration. *)
Section Journey.

Context (from to : string) (Hj : journeyNamed c from to).

Lemma processService_wellFormed (svc : rtt.Service) (always : bool) :
  keeps (sentSinceAt c before) (TrainMonitor.processService W svc from to always).
Proof.
  intros m e H. unfold sentSinceAt in *.
  destruct (processService_cases W svc from to always m e)
    as [[_ ->]|[(_ & _ & d & Hd & ->)|[(_ & _ & _ & ->)|
          (_ & _ & _ & [(d & Hd & ->)| ->])]]].
  - destruct (TrainMonitor.cancelNotified m (rtt.ServiceUid svc)) eqn:Hc.
    + rewrite (handleCancellation_again W svc from to m e Hc). exact H.
    + destruct (handleCancellation_first W svc from to m e Hc) as [_ ->].
      apply sentSince_app; [|exact H].
      apply wellFormed_cancellationAlert, Hj.
  - destruct (Z.lt_ge_cases
                (TrainMonitor.lastBucketOf m (rtt.ServiceUid svc))
                (TrainMonitor.delayBucket d)) as [Hlt|Hge].
    + destruct (handleDelay_notifies W svc from to d m e Hlt) as [_ ->].
      apply sentSince_app; [|exact H].
      apply wellFormed_delayAlert; assumption.
    + destruct (handleDelay_suppresses W svc from to d m e Hge)
        as (_ & _ & ->).
      exact H.
  - exact H.
  - apply sentSince_app; [|exact H]. apply wellFormed_delayAlert; assumption.
  - apply sentSince_app; [|exact H]. apply wellFormed_onTimeNotice, Hj.
Qed.

Lemma CheckDelay_wellFormed (dep : string) :
  keeps (sentSinceAt c before) (TrainMonitor.CheckDelay W from to dep).
Proof. apply keeps_CheckDelay. intros. apply processService_wellFormed. Qed.

Lemma CheckStatus_wellFormed (dep : string) :
  keeps (sentSinceAt c before) (TrainMonitor.CheckStatus W from to dep).
Proof. apply keeps_CheckStatus. intros. apply processService_wellFormed. Qed.

Lemma CheckArrival_wellFormed (dep : string) :
  keeps (sentSinceAt c before) (TrainMonitor.CheckArrival W from to dep).
Proof.
  unfold TrainMonitor.CheckArrival. repeat keeps_step.
  unfold notify.SendTrainArrival, notify.Send.
  apply keeps_SendWithPriority. intros m l H. unfold sentSinceAt in *.
  apply sentSince_app; [|exact H].
  unfold wellFormedNotification. cbn. repeat split. exists from. exact Hj.
Qed.

End Journey.

Lemma line_CheckStatus_wellFormed :
  keeps (sentSinceAt c before) (TubeMonitor.CheckStatus W).
Proof.
  unfold TubeMonitor.CheckStatus.
  repeat first
    [ keeps_step
    | apply keeps_put; intros s0 l0 H0; exact H0
    | match goal with
      | |- keeps _ (if ?b then _ else _) => destruct b
      end ].
  all: unfold notify.SendTubeDisruption; apply keeps_SendWithPriority;
    intros ? ? H; apply sentSince_app; [|exact H];
    unfold wellFormedNotification; cbn; repeat split;
    apply placeholder_nonempty; discriminate.
Qed.

Lemma line_SendStatusSummary_wellFormed :
  keeps (sentSinceAt c before) (TubeMonitor.SendStatusSummary W).
Proof.
  apply keeps_line_SendStatusSummary. intros m l status reason H.
  apply sentSince_app; [|exact H].
  unfold wellFormedNotification. cbn. auto.
Qed.

(** Through the scheduler: the configuration stays and what is sent is
    well formed. *)
Lemma journeyNamed_morning :
  journeyNamed c (config.From (config.MorningTrain c))
    (config.To (config.MorningTrain c)).
Proof. left. auto. Qed.

Lemma journeyNamed_evening :
  journeyNamed c (config.From (config.EveningTrain c))
    (config.To (config.EveningTrain c)).
Proof. right. auto. Qed.

Lemma executeTask_wellFormed (task : Scheduler.Task) :
  keeps (wellFormedRun c before) (Scheduler.executeTask W task).
Proof.
  intros s e [Hc Hs]. unfold wellFormedRun. split.
  - destruct (executeTask_frame W task s e) as (_ & -> & _). exact Hc.
  - unfold Scheduler.executeTask, Scheduler.train, Scheduler.tube.
    run. rewrite Hc.
    destruct (Scheduler.Typ task);
      match goal with
      | |- context [TrainMonitor.CheckDelay ?w ?a ?b ?d ?m ?e0] =>
          pose proof (CheckDelay_wellFormed a b
                        ltac:(first [apply journeyNamed_morning
                                    |apply journeyNamed_evening]) d m e0 Hs)
            as H;
          destruct (TrainMonitor.CheckDelay w a b d m e0) as [[[err|] m'] e']
      | |- context [TrainMonitor.CheckStatus ?w ?a ?b ?d ?m ?e0] =>
          pose proof (CheckStatus_wellFormed a b
                        ltac:(first [apply journeyNamed_morning
                                    |apply journeyNamed_evening]) d m e0 Hs)
            as H;
          destruct (TrainMonitor.CheckStatus w a b d m e0) as [[[err|] m'] e']
      | |- context [TrainMonitor.CheckArrival ?w ?a ?b ?d ?m ?e0] =>
          pose proof (CheckArrival_wellFormed a b
                        ltac:(first [apply journeyNamed_morning
                                    |apply journeyNamed_evening]) d m e0 Hs)
            as H;
          destruct (TrainMonitor.CheckArrival w a b d m e0)
            as [[[[|] [err|]] m'] e']
      | |- context [TubeMonitor.CheckStatus ?w ?m ?e0] =>
          pose proof (line_CheckStatus_wellFormed m e0 Hs) as H;
          destruct (TubeMonitor.CheckStatus w m e0) as [[[err|] m'] e']
      | |- context [TubeMonitor.SendStatusSummary ?w ?m ?e0] =>
          pose proof (line_SendStatusSummary_wellFormed m e0 Hs) as H;
          destruct (TubeMonitor.SendStatusSummary w m e0) as [[[err|] m'] e']
      end; cbn in H |- *; destruct (Scheduler.Repeating task); cbn; exact H.
Qed.

Lemma tickAt_wellFormed (now : time.Now) : keeps (wellFormedRun c before) (Scheduler.tickAt W now).
Proof.
  unfold Scheduler.tickAt, Scheduler.train, Scheduler.tube.
  repeat first
    [ keeps_step
    | apply keeps_forEach; intros; apply keeps_tickTask;
      [apply executeTask_wellFormed|intros s0 l0 ts H0; exact H0]
    | apply keeps_zoom;
      [first [apply set_trainMonitor_id|apply set_tubeMonitor_id]
      |intros s0; apply keeps_modify; intros ? ? H0; exact H0] ].
  intros s e [Hc Hs]. unfold wellFormedRun.
  destruct (setupDailyTasks_result W s e) as (-> & _ & _ & _ & _ & -> & _).
  auto.
Qed.

Lemma ticks_wellFormed (n : nat) : keeps (wellFormedRun c before) (Scheduler.ticks W n).
Proof.
  induction n as [|n IH]; cbn [Scheduler.ticks]; [apply keeps_ret|].
  apply keeps_bind; [|intros _; exact IH].
  unfold Scheduler.tick. apply keeps_bind; [apply keeps_time_Now|].
  intros now. apply tickAt_wellFormed.
Qed.

Lemma run_wellFormed (n : nat) : keeps (wellFormedRun c before) (Scheduler.run W n).
Proof.
  unfold Scheduler.run. apply keeps_bind; [|intros _; apply ticks_wellFormed].
  intros s e [Hc Hs]. unfold wellFormedRun.
  destruct (setupDailyTasks_result W s e) as (-> & _ & _ & _ & _ & -> & _).
  auto.
Qed.

End WellFormed.

(** X19: whatever the sources answer, every notification that a
    run of the scheduler sends is well formed.  Alerts of a delay, a
    cancellation or a disruption go out at high priority, the on-time,
    arrival and summary notices at normal priority, each under the title
    of its kind; a notification about a train names a journey of the
    configuration; a delay alert reports a positive delay; the platform
    of a delay alert or an on-time notice is never empty, and neither is
    the reason of a cancellation or disruption alert (a placeholder
    stands in).  Nothing is said of the reason of a status summary,
    which is sent as fetched and may be empty.  The run keeps the
    notifications sent before it and the configuration. *)
Theorem run_sends_well_formed_notifications (W : World) (n : nat)
  (s : Scheduler.t) (e : Eff) :
  let r := Scheduler.run W n s e in
  Scheduler.cfg (state r) = Scheduler.cfg s
  /\ exists new,
      sent (effects r) = (sent e ++ new)%list
      /\ Forall (wellFormedNotification (Scheduler.cfg s)) new.
Proof.
  cbv zeta.
  apply (run_wellFormed W (Scheduler.cfg s) (sent e) n s e).
  split; [reflexivity|apply sentSince_refl].
Qed.

(** ** The tasks of a run and the departure times *)

Section Schedulable.

Import Scheduler.
Context (W : World) (c : config.Config).

Lemma activeDeparture_parses (j : config.TrainConfig) (nActive nDep : nat)
  (dep : time.Time) :
  activeDeparture W j nActive nDep = Some dep ->
  exists h mi, time.Parse_1504 (config.Departure j) = Ok (h, mi).
Proof.
  unfold activeDeparture.
  destruct (config.IsActiveDay W j _); [|discriminate].
  destruct (time.Parse_1504 (config.Departure j)) as [[h mi]|err];
    [eauto|discriminate].
Qed.

Lemma departureParses_Typ (task task' : Task) :
  Typ task' = Typ task -> departureParses c task -> departureParses c task'.
Proof. unfold departureParses. intros ->. auto. Qed.

Lemma departureParses_journeyTasks (delay status arrival : TaskType)
  (j : config.TrainConfig) (dep : time.Time) :
  (forall ty, In ty [delay; status; arrival] -> journeyOf c ty = Some j) ->
  (exists h mi, time.Parse_1504 (config.Departure j) = Ok (h, mi)) ->
  Forall (departureParses c) (journeyTasks delay status arrival dep).
Proof.
  intros Hj Hp. unfold journeyTasks.
  repeat (apply List.Forall_cons;
          [intros j' Hj'; cbn [Typ] in Hj';
           rewrite Hj in Hj' by (cbn; tauto);
           injection Hj' as <-; exact Hp|]).
  apply List.Forall_nil.
Qed.

Lemma departureParses_line (l : list Task) :
  Forall (fun task => isLineTask task = true) l ->
  Forall (departureParses c) l.
Proof.
  intros H. eapply Forall_impl; [exact H|].
  intros task Hl j Hj. unfold isLineTask in Hl.
  destruct (Typ task); discriminate.
Qed.

Lemma setupDailyTasks_schedulable : keeps (schedulable c) (setupDailyTasks W).
Proof.
  intros s e [Hc _]. unfold schedulable.
  destruct (setupDailyTasks_result W s e)
    as (Hcfg & _ & _ & _ & _ & _ & summary & _ & Ht).
  cbv zeta in Hcfg, Ht. rewrite Hcfg, Ht, Hc. split; [reflexivity|].
  apply Forall_app. split.
  - destruct (activeDeparture W (config.MorningTrain c) _ _) as [dep|] eqn:Hm;
      [|constructor].
    apply activeDeparture_parses in Hm.
    apply Forall_app. split.
    + apply (departureParses_journeyTasks _ _ _ (config.MorningTrain c));
        [|exact Hm].
      intros ty [<-|[<-|[<-|[]]]]; reflexivity.
    + apply departureParses_line. apply Forall_app. split.
      * unfold lineCheckTasks.
        repeat (apply List.Forall_cons; [reflexivity|]). apply List.Forall_nil.
      * apply List.Forall_forall. intros task Hin.
        apply in_map_iff in Hin as (a & <- & _). reflexivity.
  - destruct (activeDeparture W (config.EveningTrain c) _ _) as [dep|] eqn:He;
      [|constructor].
    apply activeDeparture_parses in He.
    apply (departureParses_journeyTasks _ _ _ (config.EveningTrain c));
      [|exact He].
    intros ty [<-|[<-|[<-|[]]]]; reflexivity.
Qed.

Lemma tickTask_schedulable (now : time.Now) (i : nat) :
  keeps (schedulable c) (tickTask W now i).
Proof.
  intros s e [Hc HF]. unfold schedulable.
  destruct (tickTask_tasks W now i s e) as (-> & _ & ->).
  split; [exact Hc|].
  destruct (tasks s !! i) as [task|] eqn:Hi; [|exact HF].
  destruct (fires now task); [|exact HF].
  apply Forall_insert; [exact HF|].
  apply (departureParses_Typ task).
  - apply (executeTask_progress W task s e).
  - eapply Forall_lookup_1; eassumption.
Qed.

Lemma tickAt_schedulable (now : time.Now) :
  keeps (schedulable c) (tickAt W now).
Proof.
  unfold tickAt, train, tube.
  repeat first
    [ keeps_step
    | apply setupDailyTasks_schedulable
    | apply keeps_forEach; intros; apply tickTask_schedulable
    | apply keeps_zoom;
      [first [apply set_trainMonitor_id|apply set_tubeMonitor_id]
      |intros s0; apply keeps_modify; intros ? ? H0; exact H0] ].
Qed.

Lemma ticks_schedulable (n : nat) : keeps (schedulable c) (ticks W n).
Proof.
  induction n as [|n IH]; cbn [ticks]; [apply keeps_ret|].
  apply keeps_bind; [|intros _; exact IH].
  unfold tick. apply keeps_bind; [apply keeps_time_Now|].
  intros now. apply tickAt_schedulable.
Qed.

End Schedulable.

(** X20: no task of a run belongs to a journey whose departure
    time does not parse.  Whatever the configuration, the state the run
    starts from and the answers of the world, after the set-up and after
    every tick the configuration is the one the run started with and
    every task of a journey has a departure that [time.Parse] reads: a
    journey whose departure does not parse is left out when the tasks of
    the day are built.  So the time of the day that the checks compute
    from that departure is always there, at whatever moment and in
    whatever state of the monitor a task is executed. *)
Theorem no_task_of_a_run_has_an_unparsable_departure (W : World) (n : nat)
  (s : Scheduler.t) (e : Eff) :
  let r := Scheduler.run W n s e in
  Scheduler.cfg (state r) = Scheduler.cfg s
  /\ Forall (departureParses (Scheduler.cfg s)) (Scheduler.tasks (state r))
  /\ Forall
       (fun task =>
          forall j (m : TrainMonitor.t) (e' : Eff),
            Scheduler.journeyOf (Scheduler.cfg (state r)) (Scheduler.Typ task)
            = Some j ->
            exists t,
              value (TrainMonitor.parseTimeToday W (config.Departure j) m e')
              = Ok t)
       (Scheduler.tasks (state r)).
Proof.
  cbv zeta.
  assert (H : schedulable (Scheduler.cfg s)
                (state (Scheduler.run W n s e))
                (sent (effects (Scheduler.run W n s e)))).
  { unfold Scheduler.run.
    pose proof (setupDailyTasks_schedulable W (Scheduler.cfg s)
                  (Scheduler.mk (Scheduler.cfg s) (Scheduler.trainMonitor s)
                     (Scheduler.tubeMonitor s) [] 0 ∅) e) as H0.
    assert (Heq : Scheduler.setupDailyTasks W
                    (Scheduler.mk (Scheduler.cfg s) (Scheduler.trainMonitor s)
                       (Scheduler.tubeMonitor s) [] 0 ∅) e
                  = Scheduler.setupDailyTasks W s e) by reflexivity.
    rewrite Heq in H0. unfold bind.
    assert (Hinit : schedulable (Scheduler.cfg s)
                      (Scheduler.mk (Scheduler.cfg s) (Scheduler.trainMonitor s)
                         (Scheduler.tubeMonitor s) [] 0 ∅) (sent e))
      by (split; [reflexivity|constructor]).
    specialize (H0 Hinit).
    destruct (Scheduler.setupDailyTasks W s e) as [[u s1] e1].
    apply (ticks_schedulable W (Scheduler.cfg s) n s1 e1 H0). }
  destruct H as [Hc HF]. split; [exact Hc|]. split; [exact HF|].
  rewrite Hc. eapply Forall_impl; [exact HF|].
  intros task Hp j m e' Hj. destruct (Hp j Hj) as (h & mi & Hparse).
  unfold TrainMonitor.parseTimeToday. rewrite Hparse.
  eexists. reflexivity.
Qed.

(** A run on the schedule whose morning departure is not a clock time:
    the failure is logged once at the set-up, the day has the seven
    tasks of the evening journey and none of the morning journey, and a
    tick leaves them as they are. *)
Example run_on_malformed_departure :
  let s := Scheduler.NewScheduler malformedConfig TrainMonitor.NewTrainMonitor
             TubeMonitor.NewTubeMonitor in
  let r := Scheduler.run (exampleWorld []) 1 s Eff0 in
  length (Scheduler.tasks (state r)) = 7%nat
  /\ tasksOf [Scheduler.TaskMorningDelayCheck; Scheduler.TaskMorningStatusUpdate;
              Scheduler.TaskMorningArrivalCheck; Scheduler.TaskNorthernLineCheck;
              Scheduler.TaskNorthernLineSummary] (Scheduler.tasks (state r))
     = []
  /\ List.filter
       (fun entry => (message entry =? "failed to parse morning departure time")%string)
       (logged (effects r))
     = [mkLogEntry ErrorLevel "failed to parse morning departure time"
          [("error",
            FErr (wrapQuoted "invalid departure time " "7:00" ": "
                    (errorString "parsing time: cannot parse")))]]
  /\ sent (effects r) = [].
Proof. repeat split. Qed.
